(** * Query compiler and result aggregator of the product-search services

    A shallow embedding of the two Flask applications of the repository,
    [search_api.py] and [catalog_search.py]: how a request's query
    parameters are turned into an Elasticsearch request body, which calls
    reach the index engine, and how the engine's answer is shaped into the
    client response.

    Conventions.
    - Python [str] is [string]; the text handled here is ASCII (the
      functions [strip], [lower], [int] and [float] are modelled on ASCII
      characters, where they agree with CPython; [int] has the default
      limit of 4300 digits).
    - Python [int] is [Z] (unbounded).  A Python [float] is kept as the
      decimal it was read from ([pyfloat]); floating-point arithmetic is
      not modelled.
    - Python dicts and lists that make up request bodies and engine
      responses are [json] values; a dict is an association list in
      insertion order.
    - [request.args] is a Werkzeug [MultiDict], modelled by the list of
      (key, value) pairs of the query string, in order.
    - A handler runs in the monad [M]: it may raise a Python exception and
      it records every call made to the index engine. *)

From Stdlib Require Import ZArith List String Ascii Bool Lia QArith Qround.
Import ListNotations.

Local Open Scope string_scope.
Local Open Scope list_scope.
Local Open Scope Z_scope.

(* ------------------------------------------------------------------ *)
(** * Python primitives *)

Module Py.

(** [str.isspace] on an ASCII character: TAB, LF, VT, FF, CR, the four
    separators FS GS RS US, and the space. *)
Definition isspace (c : ascii) : bool :=
  let n := nat_of_ascii c in
  ((9 <=? n)%nat && (n <=? 13)%nat) || ((28 <=? n)%nat && (n <=? 32)%nat).

Fixpoint lstrip_chars (l : list ascii) : list ascii :=
  match l with
  | c :: l' => if isspace c then lstrip_chars l' else l
  | [] => []
  end.

Definition strip_chars (l : list ascii) : list ascii :=
  rev (lstrip_chars (rev (lstrip_chars l))).

(** [s.strip()] *)
Definition strip (s : string) : string :=
  string_of_list_ascii (strip_chars (list_ascii_of_string s)).

Definition lower_char (c : ascii) : ascii :=
  let n := nat_of_ascii c in
  if ((65 <=? n)%nat && (n <=? 90)%nat)%bool then ascii_of_nat (n + 32) else c.

(** [s.lower()] *)
Fixpoint lower (s : string) : string :=
  match s with
  | EmptyString => EmptyString
  | String c s' => String (lower_char c) (lower s')
  end.

(** [s.startswith(p)] *)
Definition startswith (s p : string) : bool := String.prefix p s.

(** [s[n:]] for [n >= 0] *)
Fixpoint slice_from (n : nat) (s : string) : string :=
  match n, s with
  | O, _ => s
  | S n', String _ s' => slice_from n' s'
  | S _, EmptyString => EmptyString
  end.

(** Truth value of a string: [if s:] *)
Definition truthy (s : string) : bool :=
  match s with EmptyString => false | _ => true end.

Definition isdigit (c : ascii) : bool :=
  let n := nat_of_ascii c in ((48 <=? n)%nat && (n <=? 57)%nat)%bool.

Definition digit_val (c : ascii) : N := N.of_nat (nat_of_ascii c - 48).

(** The rest of a [digitpart] ([digit (["_"] digit)*]) after its first
    digit: the value read so far, the number of digits, the characters
    left.  An underscore is taken only between two digits. *)
Fixpoint digitpart_rest (acc : N) (cnt : nat) (l : list ascii)
  : N * nat * list ascii :=
  match l with
  | c :: l' =>
      if isdigit c then digitpart_rest (10 * acc + digit_val c)%N (S cnt) l'
      else if Ascii.eqb c "_" then
        match l' with
        | d :: _ => if isdigit d then digitpart_rest acc cnt l' else (acc, cnt, l)
        | [] => (acc, cnt, l)
        end
      else (acc, cnt, l)
  | [] => (acc, cnt, [])
  end.

Definition digitpart (acc : N) (l : list ascii) : option (N * nat * list ascii) :=
  match l with
  | c :: l' =>
      if isdigit c then Some (digitpart_rest (10 * acc + digit_val c)%N 1 l') else None
  | [] => None
  end.

(** An optional sign: [true] for a minus. *)
Definition sign (l : list ascii) : bool * list ascii :=
  match l with
  | c :: l' =>
      if Ascii.eqb c "-" then (true, l')
      else if Ascii.eqb c "+" then (false, l')
      else (false, l)
  | [] => (false, [])
  end.

(** The white space [int] and [float] skip around a number (C's
    [Py_ISSPACE]): TAB, LF, VT, FF, CR and the space.  The separators
    FS GS RS US, which [str.strip] removes, are not part of it. *)
Definition c_isspace (c : ascii) : bool :=
  let n := nat_of_ascii c in
  ((9 <=? n)%nat && (n <=? 13)%nat) || (n =? 32)%nat.

Fixpoint skip_spaces (l : list ascii) : list ascii :=
  match l with
  | c :: l' => if c_isspace c then skip_spaces l' else l
  | [] => []
  end.

(** The characters of a number between the white space around it. *)
Definition number_chars (s : string) : list ascii :=
  rev (skip_spaces (rev (skip_spaces (list_ascii_of_string s)))).

(** [sys.int_info.default_max_str_digits]: the most digits [int] reads
    from a decimal text. *)
Definition int_max_str_digits : N := 4300.

(** [int(s)] in base 10; [None] stands for [ValueError]. *)
Definition int (s : string) : option Z :=
  let (neg, l) := sign (number_chars s) in
  match digitpart 0%N l with
  | Some (n, cnt, []) =>
      if (N.of_nat cnt <=? int_max_str_digits)%N
      then Some (if neg then - Z.of_N n else Z.of_N n)
      else None
  | _ => None
  end.

(** A Python float, kept as the decimal it denotes:
    [FDec neg m e] is [(-1)^neg * m * 10^e]. *)
Inductive pyfloat : Type :=
| FNan
| FInf (neg : bool)
| FDec (neg : bool) (mantissa : N) (exp10 : Z).

(** [[sign] digitpart] of an exponent, after the letter [e]. *)
Definition exponent (l : list ascii) : option (Z * list ascii) :=
  let (neg, l1) := sign l in
  match digitpart 0%N l1 with
  | Some (n, _, rest) => Some (if neg then - Z.of_N n else Z.of_N n, rest)
  | None => None
  end.

(** What may follow the mantissa: nothing, or an exponent that ends the
    text. *)
Definition float_tail (neg : bool) (m : N) (frac : nat) (l : list ascii)
  : option pyfloat :=
  match l with
  | [] => Some (FDec neg m (- Z.of_nat frac))
  | c :: l' =>
      if (Ascii.eqb c "e" || Ascii.eqb c "E")%bool then
        match exponent l' with
        | Some (e, []) => Some (FDec neg m (e - Z.of_nat frac))
        | _ => None
        end
      else None
  end.

(** The fraction after the point; [need] says that the integer part was
    empty, in which case a digit is required. *)
Definition float_fraction (neg : bool) (m : N) (need : bool) (l : list ascii)
  : option pyfloat :=
  match digitpart m l with
  | Some (m', frac, rest) => float_tail neg m' frac rest
  | None => if need then None else float_tail neg m 0 l
  end.

Definition float_number (neg : bool) (l : list ascii) : option pyfloat :=
  match digitpart 0%N l with
  | Some (m, _, rest) =>
      match rest with
      | c :: rest' =>
          if Ascii.eqb c "." then float_fraction neg m false rest'
          else float_tail neg m 0 rest
      | [] => Some (FDec neg m 0)
      end
  | None =>
      match l with
      | c :: l' => if Ascii.eqb c "." then float_fraction neg 0%N true l' else None
      | [] => None
      end
  end.

(** [float(s)]; [None] stands for [ValueError]. *)
Definition float (s : string) : option pyfloat :=
  let (neg, l) := sign (number_chars s) in
  let word := lower (string_of_list_ascii l) in
  if (String.eqb word "inf" || String.eqb word "infinity")%bool then Some (FInf neg)
  else if String.eqb word "nan" then Some FNan
  else float_number neg l.

(** [a // b] on integers; [None] stands for [ZeroDivisionError]. *)
Definition floordiv (a b : Z) : option Z :=
  if b =? 0 then None else Some (a / b).

End Py.

(* ------------------------------------------------------------------ *)
(** * [request.args]: Werkzeug's MultiDict *)

Module Werkzeug.

(** The pairs of the query string, in order; a key may be repeated. *)
Definition MultiDict : Type := list (string * string).

(** [d.get(key)]: the first value of [key], [None] when it is missing. *)
Fixpoint get (d : MultiDict) (key : string) : option string :=
  match d with
  | (k, v) :: d' => if String.eqb k key then Some v else get d' key
  | [] => None
  end.

(** [d.get(key, default)] *)
Definition get_or (d : MultiDict) (key default : string) : string :=
  match get d key with Some v => v | None => default end.

(** [d.get(key, type=type)]: a missing key and a value that [type]
    rejects ([ValueError]) both give [None]. *)
Definition get_as {A : Type} (d : MultiDict) (key : string)
           (type : string -> option A) : option A :=
  match get d key with
  | Some rv => type rv
  | None => None
  end.

(** [d.get(key, default, type=type)] *)
Definition get_as_or {A : Type} (d : MultiDict) (key : string) (default : A)
           (type : string -> option A) : A :=
  match get_as d key type with Some x => x | None => default end.

(** [d.getlist(key)]: every value of [key], in order. *)
Fixpoint getlist (d : MultiDict) (key : string) : list string :=
  match d with
  | (k, v) :: d' => if String.eqb k key then v :: getlist d' key else getlist d' key
  | [] => []
  end.

Definition seen (k : string) (keys : list string) : bool :=
  existsb (String.eqb k) keys.

Fixpoint items_from (keys : list string) (d : MultiDict) : list (string * string) :=
  match d with
  | (k, v) :: d' =>
      if seen k keys then items_from keys d' else (k, v) :: items_from (k :: keys) d'
  | [] => []
  end.

(** [d.items()]: each key once, in the order of its first occurrence,
    with its first value. *)
Definition items (d : MultiDict) : list (string * string) := items_from [] d.

End Werkzeug.

(* ------------------------------------------------------------------ *)
(** * Python data: dicts, lists and scalars *)

#[local] Unset Elimination Schemes.
Inductive json : Type :=
| JNull
| JBool (b : bool)
| JInt (n : Z)
| JFloat (x : Py.pyfloat)
| JStr (s : string)
| JList (l : list json)
| JDict (kvs : list (string * json)).
#[local] Set Elimination Schemes.

Definition pyfloat_eqb (x y : Py.pyfloat) : bool :=
  match x, y with
  | Py.FNan, Py.FNan => true
  | Py.FInf a, Py.FInf b => Bool.eqb a b
  | Py.FDec a m e, Py.FDec b n f => Bool.eqb a b && N.eqb m n && Z.eqb e f
  | _, _ => false
  end.

(** Structural equality of two values, used to count how often a
    predicate occurs in a list of filters. *)
Fixpoint json_eqb (a b : json) {struct a} : bool :=
  match a, b with
  | JNull, JNull => true
  | JBool x, JBool y => Bool.eqb x y
  | JInt x, JInt y => Z.eqb x y
  | JFloat x, JFloat y => pyfloat_eqb x y
  | JStr x, JStr y => String.eqb x y
  | JList l, JList m =>
      (fix go (l m : list json) {struct l} : bool :=
         match l, m with
         | [], [] => true
         | x :: l', y :: m' => json_eqb x y && go l' m'
         | _, _ => false
         end) l m
  | JDict l, JDict m =>
      (fix go (l m : list (string * json)) {struct l} : bool :=
         match l, m with
         | [], [] => true
         | (k, x) :: l', (k', y) :: m' => String.eqb k k' && json_eqb x y && go l' m'
         | _, _ => false
         end) l m
  | _, _ => false
  end.

Definition count (x : json) (l : list json) : nat :=
  List.length (filter (json_eqb x) l).

(** Exceptions a handler can end with.  [NotModelled] is not a Python
    exception: it marks a run that goes on in floating-point arithmetic. *)
Inductive PyExc : Type :=
| KeyError | IndexError | TypeError | AttributeError | ZeroDivisionError
| EngineError
| NotModelled.

Inductive result (A : Type) : Type :=
| Ok (a : A)
| Raise (e : PyExc).
Arguments Ok {A} a.
Arguments Raise {A} e.

Definition rbind {A B : Type} (m : result A) (k : A -> result B) : result B :=
  match m with
  | Ok a => k a
  | Raise e => Raise e
  end.

Declare Scope py_scope.
Delimit Scope py_scope with py.
Notation "x <- m ;; k" := (rbind m (fun x => k))
  (at level 61, m at next level, right associativity) : py_scope.

Fixpoint rmap {A B : Type} (f : A -> result B) (l : list A) : result (list B) :=
  match l with
  | [] => Ok []
  | x :: l' =>
      (y <- f x ;;
       ys <- rmap f l' ;;
       Ok (y :: ys))%py
  end.

Module Dict.

(** [key in d] for a dict *)
Definition mem (key : string) (kvs : list (string * json)) : bool :=
  existsb (fun kv => String.eqb (fst kv) key) kvs.

Fixpoint lookup (key : string) (kvs : list (string * json)) : option json :=
  match kvs with
  | (k, v) :: kvs' => if String.eqb k key then Some v else lookup key kvs'
  | [] => None
  end.

(** [d[key] = v]: replaces the value of a key already there, else adds
    the key at the end. *)
Fixpoint set (key : string) (v : json) (kvs : list (string * json))
  : list (string * json) :=
  match kvs with
  | (k, w) :: kvs' =>
      if String.eqb k key then (k, v) :: kvs' else (k, w) :: set key v kvs'
  | [] => [(key, v)]
  end.

End Dict.

(** The operations of Python on values whose type is only known at run
    time (the engine's response). *)
Module Obj.

Fixpoint chars (s : string) : list json :=
  match s with
  | EmptyString => []
  | String c s' => JStr (String c EmptyString) :: chars s'
  end.

Fixpoint substring_of (p s : string) : bool :=
  String.prefix p s ||
  match s with
  | EmptyString => false
  | String _ s' => substring_of p s'
  end.

(** [o[key]] with a string key *)
Definition getitem (o : json) (key : string) : result json :=
  match o with
  | JDict kvs =>
      match Dict.lookup key kvs with
      | Some v => Ok v
      | None => Raise KeyError
      end
  | _ => Raise TypeError
  end.

(** [o[i]] with an index [i >= 0] *)
Definition getindex (o : json) (i : nat) : result json :=
  match o with
  | JList l =>
      match nth_error l i with
      | Some v => Ok v
      | None => Raise IndexError
      end
  | JStr s =>
      match nth_error (chars s) i with
      | Some v => Ok v
      | None => Raise IndexError
      end
  | JDict _ => Raise KeyError
  | _ => Raise TypeError
  end.

(** [key in o] with a string key *)
Definition contains (key : string) (o : json) : result bool :=
  match o with
  | JDict kvs => Ok (Dict.mem key kvs)
  | JList l => Ok (existsb (json_eqb (JStr key)) l)
  | JStr s => Ok (substring_of key s)
  | _ => Raise TypeError
  end.

(** [o.get(key, default)] *)
Definition get (o : json) (key : string) (default : json) : result json :=
  match o with
  | JDict kvs =>
      match Dict.lookup key kvs with
      | Some v => Ok v
      | None => Ok default
      end
  | _ => Raise AttributeError
  end.

(** [for x in o] *)
Definition iter (o : json) : result (list json) :=
  match o with
  | JList l => Ok l
  | JDict kvs => Ok (map (fun kv => JStr (fst kv)) kvs)
  | JStr s => Ok (chars s)
  | _ => Raise TypeError
  end.

End Obj.

(* ------------------------------------------------------------------ *)
(** * The index engine *)

(** One call [es.search(index=..., body=...)]. *)
Record EsCall : Type := { call_index : string; call_body : json }.

(** The engine answers a call with a response or fails. *)
Definition Engine : Type := string -> json -> result json.

(** A handler: given the engine, its result and the calls it made. *)
Definition M (A : Type) : Type := Engine -> result A * list EsCall.

Definition ret {A : Type} (a : A) : M A := fun _ => (Ok a, []).

Definition bind {A B : Type} (m : M A) (k : A -> M B) : M B :=
  fun es =>
    match m es with
    | (Ok a, calls) => let (r, calls') := k a es in (r, calls ++ calls')
    | (Raise e, calls) => (Raise e, calls)
    end.

Definition lift {A : Type} (r : result A) : M A := fun _ => (r, []).

Definition es_search (index : string) (body : json) : M json :=
  fun es => (es index body, [{| call_index := index; call_body := body |}]).

Notation "x <-- m ;; k" := (bind m (fun x => k))
  (at level 61, m at next level, right associativity) : py_scope.

(** [jsonify(value)]: the value is the response. *)
Definition jsonify (value : json) : M json := ret value.

(** The page count [(total + size - 1) // size] on integers. *)
Definition pages (total size : Z) : result Z :=
  match Py.floordiv (total + size - 1) size with
  | Some n => Ok n
  | None => Raise ZeroDivisionError
  end.

(** The same on a [total] read from the engine's response. *)
Definition pages_of (total : json) (size : Z) : result json :=
  match total with
  | JInt t => (n <- pages t size ;; Ok (JInt n))%py
  | JBool b => (n <- pages (Z.b2z b) size ;; Ok (JInt n))%py
  | JFloat _ => Raise NotModelled
  | _ => Raise TypeError
  end.

(** The facet buckets [[{"key": b["key"], "count": b["doc_count"]} for b in buckets]] *)
Definition bucket_list (buckets : json) : result json :=
  (bs <- Obj.iter buckets ;;
   out <- rmap (fun b =>
                  k <- Obj.getitem b "key" ;;
                  c <- Obj.getitem b "doc_count" ;;
                  Ok (JDict [("key", k); ("count", c)])) bs ;;
   Ok (JList out))%py.

(** [resp["aggregations"][name]["buckets"]], mapped. *)
Definition facet (resp : json) (name : string) : result json :=
  (aggs <- Obj.getitem resp "aggregations" ;;
   agg <- Obj.getitem aggs name ;;
   buckets <- Obj.getitem agg "buckets" ;;
   bucket_list buckets)%py.

(** [resp["suggest"][name][0]["options"]], ready to be iterated. *)
Definition suggest_options (resp : json) (name : string) : result (list json) :=
  (sg <- Obj.getitem resp "suggest" ;;
   entries <- Obj.getitem sg name ;;
   first <- Obj.getindex entries 0 ;;
   options <- Obj.getitem first "options" ;;
   Obj.iter options)%py.

(* ------------------------------------------------------------------ *)
(** * [search_api.py] *)

Module SearchApi.
Import Werkzeug.

Definition ALIAS : string := "products".
Definition INFERENCE_ID : string := "product-embedding-model".

(** [q = request.args.get("q", "").strip()] *)
Definition query_text (args : MultiDict) : string :=
  Py.strip (get_or args "q" "").

(** [page = request.args.get("page", 1, type=int)] *)
Definition page_of (args : MultiDict) : Z := get_as_or args "page" 1 Py.int.

(** [size = min(request.args.get("size", 20, type=int), 100)] *)
Definition size_of (args : MultiDict) : Z :=
  Z.min (get_as_or args "size" 20 Py.int) 100.

(** The nested predicate appended for a parameter [attr_<attr_name>]. *)
Definition attr_filter (attr_name value : string) : json :=
  JDict [("nested",
    JDict [("path", JStr "attributes");
           ("query",
             JDict [("bool",
               JDict [("must",
                 JList [JDict [("term", JDict [("attributes.name", JStr attr_name)])];
                        JDict [("term", JDict [("attributes.value", JStr value)])]])])])])].

(** One turn of [for key, value in request.args.items()]. *)
Definition attr_step (filters : list json) (kv : string * string) : list json :=
  let (key, value) := kv in
  if Py.startswith key "attr_" then
    let attr_name := Py.slice_from 5 key in
    filters ++ [attr_filter attr_name value]
  else filters.

(** The section [# --- Filters ---] of [search]. *)
Definition search_filters (args : MultiDict) : list json :=
  let category_id := get_as args "category_id" Py.int in
  let status := get args "status" in
  let min_price := get_as args "min_price" Py.float in
  let max_price := get_as args "max_price" Py.float in
  let in_stock := get args "in_stock" in
  let filters := [] in
  let filters :=
    match category_id with
    | Some c => filters ++ [JDict [("term", JDict [("category_id", JInt c)])]]
    | None => filters
    end in
  let filters :=
    match status with
    | Some s =>
        if Py.truthy s
        then filters ++ [JDict [("term", JDict [("status", JStr s)])]]
        else filters
    | None => filters
    end in
  let filters :=
    match min_price with
    | Some p => filters ++ [JDict [("range", JDict [("price", JDict [("gte", JFloat p)])])]]
    | None => filters
    end in
  let filters :=
    match max_price with
    | Some p => filters ++ [JDict [("range", JDict [("price", JDict [("lte", JFloat p)])])]]
    | None => filters
    end in
  let filters :=
    match in_stock with
    | Some s =>
        if String.eqb s "true"
        then filters ++ [JDict [("range", JDict [("stock_quantity", JDict [("gt", JInt 0)])])]]
        else filters
    | None => filters
    end in
  fold_left attr_step (items args) filters.

(** The section [# --- Query ---]. *)
Definition search_query (q : string) (filters : list json) : list (string * json) :=
  if Py.truthy q then
    [("query",
       JDict [("bool",
         JDict [("should",
                  JList [JDict [("multi_match",
                           JDict [("query", JStr q);
                                  ("fields", JList [JStr "name^3"; JStr "description"]);
                                  ("type", JStr "best_fields");
                                  ("fuzziness", JStr "AUTO")])];
                         JDict [("knn",
                           JDict [("field", JStr "product_embedding");
                                  ("query_vector_builder",
                                    JDict [("text_embedding",
                                      JDict [("model_id", JStr INFERENCE_ID);
                                             ("model_text", JStr q)])]);
                                  ("k", JInt 20);
                                  ("num_candidates", JInt 100)])]]);
                ("filter", JList filters)])]);
     ("rank",
       JDict [("rrf", JDict [("window_size", JInt 100); ("rank_constant", JInt 60)])])]
  else
    [("query",
       JDict [("bool",
         JDict [("must", JList [JDict [("match_all", JDict [])]]);
                ("filter", JList filters)])])].

Definition sort_options : list (string * json) :=
  [("relevance", JList [JDict [("_score", JStr "desc")]]);
   ("price_asc", JList [JDict [("price", JStr "asc")]]);
   ("price_desc", JList [JDict [("price", JStr "desc")]]);
   ("newest", JList [JDict [("created_at", JStr "desc")]])].

(** [sort_options.get(sort_by, sort_options["relevance"])] *)
Definition sort_option (sort_by : string) : json :=
  match Dict.lookup sort_by sort_options with
  | Some s => s
  | None => JList [JDict [("_score", JStr "desc")]]
  end.

(** The section [# --- Sort ---]. *)
Definition search_sort (q sort_by : string) (search_body : list (string * json))
  : list (string * json) :=
  if (negb (Py.truthy q) && String.eqb sort_by "relevance")%bool then
    Dict.set "sort" (JList [JDict [("created_at", JStr "desc")]]) search_body
  else if negb (String.eqb sort_by "relevance") then
    Dict.set "sort" (sort_option sort_by) search_body
  else search_body.

Definition highlight : json :=
  JDict [("fields", JDict [("name", JDict []); ("description", JDict [])]);
         ("pre_tags", JList [JStr "<em>"]);
         ("post_tags", JList [JStr "</em>"])].

Definition aggs : json :=
  JDict [("categories", JDict [("terms", JDict [("field", JStr "category_id"); ("size", JInt 50)])]);
         ("statuses", JDict [("terms", JDict [("field", JStr "status"); ("size", JInt 10)])]);
         ("price_stats", JDict [("stats", JDict [("field", JStr "price")])]);
         ("price_ranges",
           JDict [("range",
             JDict [("field", JStr "price");
                    ("ranges",
                      JList [JDict [("to", JInt 50); ("key", JStr "Under $50")];
                             JDict [("from", JInt 50); ("to", JInt 100); ("key", JStr "$50-$100")];
                             JDict [("from", JInt 100); ("to", JInt 200); ("key", JStr "$100-$200")];
                             JDict [("from", JInt 200); ("to", JInt 500); ("key", JStr "$200-$500")];
                             JDict [("from", JInt 500); ("key", JStr "$500+")]])])])].

(** The request body handed to [es.search], as a dict. *)
Definition search_body (args : MultiDict) : list (string * json) :=
  let q := query_text args in
  let sort_by := get_or args "sort" "relevance" in
  let page := page_of args in
  let size := size_of args in
  let filters := search_filters args in
  let search_body := search_query q filters in
  let search_body := search_sort q sort_by search_body in
  let search_body := Dict.set "from" (JInt ((page - 1) * size)) search_body in
  let search_body := Dict.set "size" (JInt size) search_body in
  let search_body := Dict.set "highlight" highlight search_body in
  let search_body := Dict.set "aggs" aggs search_body in
  Dict.set "_source" (JDict [("excludes", JList [JStr "product_embedding"])]) search_body.

(** One entry of ["hits"]. *)
Definition search_hit (h : json) : result json :=
  (source <- Obj.getitem h "_source" ;;
   score <- Obj.get h "_score" JNull ;;
   hl <- Obj.get h "highlight" (JDict []) ;;
   Ok (JDict [("product", source); ("score", score); ("highlight", hl)]))%py.

(** The response of [search] built from the engine's answer. *)
Definition search_response (page size : Z) (resp : json) : result json :=
  (hits <- Obj.getitem resp "hits" ;;
   total_ <- Obj.getitem hits "total" ;;
   total <- Obj.getitem total_ "value" ;;
   hs <- Obj.getitem hits "hits" ;;
   hs <- Obj.iter hs ;;
   out <- rmap search_hit hs ;;
   categories <- facet resp "categories" ;;
   statuses <- facet resp "statuses" ;;
   price_ranges <- facet resp "price_ranges" ;;
   aggregations <- Obj.getitem resp "aggregations" ;;
   price_stats <- Obj.getitem aggregations "price_stats" ;;
   n <- pages_of total size ;;
   Ok (JDict [("hits", JList out);
              ("total", total);
              ("facets",
                JDict [("categories", categories);
                       ("statuses", statuses);
                       ("price_ranges", price_ranges);
                       ("price_stats", price_stats)]);
              ("page", JInt page);
              ("size", JInt size);
              ("pages", n)]))%py.

(** [GET /search] *)
Definition search (args : MultiDict) : M json :=
  (resp <-- es_search ALIAS (JDict (search_body args)) ;;
   out <-- lift (search_response (page_of args) (size_of args) resp) ;;
   jsonify out)%py.

(** [[{"text": s["text"], "score": s["_score"], "product": s.get("_source", {})} for s in options]] *)
Definition autocomplete_option (s : json) : result json :=
  (text <- Obj.getitem s "text" ;;
   score <- Obj.getitem s "_score" ;;
   product <- Obj.get s "_source" (JDict []) ;;
   Ok (JDict [("text", text); ("score", score); ("product", product)]))%py.

Definition autocomplete_body (q : string) : json :=
  JDict [("suggest",
           JDict [("product-suggest",
             JDict [("prefix", JStr q);
                    ("completion",
                      JDict [("field", JStr "name_suggest");
                             ("size", JInt 8);
                             ("skip_duplicates", JBool true);
                             ("fuzzy", JDict [("fuzziness", JStr "AUTO")])])])]);
         ("_source", JList [JStr "name"; JStr "sku"; JStr "price"; JStr "status"])].

(** [GET /autocomplete] *)
Definition autocomplete (args : MultiDict) : M json :=
  let q := Py.strip (get_or args "q" "") in
  if negb (Py.truthy q) then jsonify (JDict [("suggestions", JList [])])
  else
    (resp <-- es_search ALIAS (autocomplete_body q) ;;
     out <-- lift (options <- suggest_options resp "product-suggest" ;;
                   rmap autocomplete_option options) ;;
     jsonify (JDict [("suggestions", JList out)]))%py.

Definition suggest_body (q : string) : json :=
  JDict [("suggest",
           JDict [("spelling",
             JDict [("text", JStr q);
                    ("phrase",
                      JDict [("field", JStr "name");
                             ("size", JInt 3);
                             ("gram_size", JInt 3);
                             ("direct_generator",
                               JList [JDict [("field", JStr "name");
                                             ("suggest_mode", JStr "popular")]])])])])].

Definition suggest_option (s : json) : result json :=
  (text <- Obj.getitem s "text" ;;
   score <- Obj.getitem s "score" ;;
   Ok (JDict [("text", text); ("score", score)]))%py.

(** [GET /suggest] *)
Definition suggest (args : MultiDict) : M json :=
  let q := Py.strip (get_or args "q" "") in
  if negb (Py.truthy q) then jsonify (JDict [("suggestions", JList [])])
  else
    (resp <-- es_search ALIAS (suggest_body q) ;;
     out <-- lift (options <- suggest_options resp "spelling" ;;
                   rmap suggest_option options) ;;
     jsonify (JDict [("suggestions", JList out)]))%py.

End SearchApi.

(* ------------------------------------------------------------------ *)
(** * [catalog_search.py] *)

Module CatalogSearch.
Import Werkzeug.

Definition INDEX : string := "products".

(** [page = request.args.get("page", 1, type=int)] *)
Definition page_of (args : MultiDict) : Z := get_as_or args "page" 1 Py.int.

(** [size = min(request.args.get("size", 20, type=int), 100)] *)
Definition size_of (args : MultiDict) : Z :=
  Z.min (get_as_or args "size" 20 Py.int) 100.

(** [in_stock = request.args.get("in_stock", "true").lower() == "true"] *)
Definition in_stock_of (args : MultiDict) : bool :=
  String.eqb (Py.lower (get_or args "in_stock" "true")) "true".

(** The [must] list of [product_search]. *)
Definition product_must (q : string) : list json :=
  let must := [] in
  if Py.truthy q then
    must ++ [JDict [("multi_match",
               JDict [("query", JStr q);
                      ("fields", JList [JStr "name^3"; JStr "description"; JStr "tags^2"]);
                      ("type", JStr "best_fields");
                      ("fuzziness", JStr "AUTO")])]]
  else must.

(** The [filters] list of [product_search]. *)
Definition product_filters (args : MultiDict) : list json :=
  let categories := getlist args "category" in
  let tags := getlist args "tag" in
  let min_price := get_as args "min_price" Py.float in
  let max_price := get_as args "max_price" Py.float in
  let in_stock := in_stock_of args in
  let lat := get_as args "lat" Py.float in
  let lon := get_as args "lon" Py.float in
  let distance := get_or args "distance" "50km" in
  let filters := [] in
  let filters :=
    if in_stock
    then filters ++ [JDict [("range", JDict [("stock_level", JDict [("gt", JInt 0)])])]]
    else filters in
  let filters :=
    fold_left (fun filters cat => filters ++ [JDict [("term", JDict [("category", JStr cat)])]])
              categories filters in
  let filters :=
    fold_left (fun filters tag => filters ++ [JDict [("term", JDict [("tags", JStr tag)])]])
              tags filters in
  let filters :=
    match min_price with
    | Some p => filters ++ [JDict [("range", JDict [("price", JDict [("gte", JFloat p)])])]]
    | None => filters
    end in
  let filters :=
    match max_price with
    | Some p => filters ++ [JDict [("range", JDict [("price", JDict [("lte", JFloat p)])])]]
    | None => filters
    end in
  match lat, lon with
  | Some la, Some lo =>
      filters ++ [JDict [("geo_distance",
                    JDict [("distance", JStr distance);
                           ("location", JDict [("lat", JFloat la); ("lon", JFloat lo)])])]]
  | _, _ => filters
  end.

Definition sort_options : list (string * json) :=
  [("relevance", JList [JDict [("_score", JStr "desc")]; JDict [("stock_level", JStr "desc")]]);
   ("price_asc", JList [JDict [("price", JStr "asc")]]);
   ("price_desc", JList [JDict [("price", JStr "desc")]]);
   ("newest", JList [JDict [("_score", JStr "desc")]])].

(** The section [# --- Sorting ---]. *)
Definition product_sort (args : MultiDict) : json :=
  let lat := get_as args "lat" Py.float in
  let lon := get_as args "lon" Py.float in
  let sort_by := get_or args "sort" "relevance" in
  let sort :=
    match Dict.lookup sort_by sort_options with
    | Some s => s
    | None => JList [JDict [("_score", JStr "desc")]; JDict [("stock_level", JStr "desc")]]
    end in
  if String.eqb sort_by "distance" then
    match lat, lon with
    | Some la, Some lo =>
        JList [JDict [("_geo_distance",
                 JDict [("location", JDict [("lat", JFloat la); ("lon", JFloat lo)]);
                        ("order", JStr "asc");
                        ("unit", JStr "km")])]]
    | _, _ => sort
    end
  else sort.

Definition highlight : json :=
  JDict [("fields",
           JDict [("name", JDict []);
                  ("description",
                    JDict [("fragment_size", JInt 120); ("number_of_fragments", JInt 2)])])].

Definition aggs : json :=
  JDict [("categories", JDict [("terms", JDict [("field", JStr "category"); ("size", JInt 30)])]);
         ("tags", JDict [("terms", JDict [("field", JStr "tags"); ("size", JInt 30)])]);
         ("price_ranges",
           JDict [("range",
             JDict [("field", JStr "price");
                    ("ranges",
                      JList [JDict [("to", JInt 25); ("key", JStr "Under $25")];
                             JDict [("from", JInt 25); ("to", JInt 50); ("key", JStr "$25–$50")];
                             JDict [("from", JInt 50); ("to", JInt 100); ("key", JStr "$50–$100")];
                             JDict [("from", JInt 100); ("to", JInt 200); ("key", JStr "$100–$200")];
                             JDict [("from", JInt 200); ("key", JStr "$200+")]])])]);
         ("price_stats", JDict [("stats", JDict [("field", JStr "price")])]);
         ("stock_status",
           JDict [("range",
             JDict [("field", JStr "stock_level");
                    ("ranges",
                      JList [JDict [("from", JInt 1); ("key", JStr "In Stock")];
                             JDict [("to", JInt 1); ("key", JStr "Out of Stock")]])])])].

(** The value under ["suggest"]: the phrase suggester [if q else {}]. *)
Definition product_suggest (q : string) : json :=
  if Py.truthy q then
    JDict [("spelling",
      JDict [("text", JStr q);
             ("phrase",
               JDict [("field", JStr "name");
                      ("size", JInt 3);
                      ("gram_size", JInt 3);
                      ("direct_generator",
                        JList [JDict [("field", JStr "name");
                                      ("suggest_mode", JStr "popular")]])])])]
  else JDict [].

(** The request body handed to [es.search], as a dict. *)
Definition product_body (args : MultiDict) : list (string * json) :=
  let q := get_or args "q" "" in
  let page := page_of args in
  let size := size_of args in
  let must := product_must q in
  let filters := product_filters args in
  let sort := product_sort args in
  [("query",
     JDict [("bool",
       JDict [("must",
                match must with
                | [] => JList [JDict [("match_all", JDict [])]]
                | _ => JList must
                end);
              ("filter", JList filters)])]);
   ("from", JInt ((page - 1) * size));
   ("size", JInt size);
   ("sort", sort);
   ("highlight", highlight);
   ("aggs", aggs);
   ("suggest", product_suggest q)].

(** The loop that fills [suggestions]. *)
Definition product_suggestions (q : string) (resp : json) : result (list json) :=
  (if Py.truthy q then
     has_suggest <- Obj.contains "suggest" resp ;;
     if has_suggest : bool then
       sg <- Obj.getitem resp "suggest" ;;
       has_spelling <- Obj.contains "spelling" sg ;;
       if has_spelling : bool then
         sg <- Obj.getitem resp "suggest" ;;
         entries <- Obj.getitem sg "spelling" ;;
         first <- Obj.getindex entries 0 ;;
         options <- Obj.get first "options" (JList []) ;;
         options <- Obj.iter options ;;
         rmap (fun option => Obj.getitem option "text") options
       else Ok []
     else Ok []
   else Ok [])%py.

(** One entry of ["results"]. *)
Definition product_hit (h : json) : result json :=
  (source <- Obj.getitem h "_source" ;;
   score <- Obj.getitem h "_score" ;;
   hl <- Obj.get h "highlight" (JDict []) ;;
   srt <- Obj.get h "sort" JNull ;;
   Ok (JDict [("product", source); ("score", score); ("highlight", hl); ("sort", srt)]))%py.

(** The response of [product_search] built from the engine's answer. *)
Definition product_response (q : string) (page size : Z) (resp : json) : result json :=
  (hits_ <- Obj.getitem resp "hits" ;;
   hits <- Obj.getitem hits_ "hits" ;;
   total_ <- Obj.getitem hits_ "total" ;;
   total <- Obj.getitem total_ "value" ;;
   suggestions <- product_suggestions q resp ;;
   hs <- Obj.iter hits ;;
   results <- rmap product_hit hs ;;
   categories <- facet resp "categories" ;;
   tags <- facet resp "tags" ;;
   price_ranges <- facet resp "price_ranges" ;;
   aggregations <- Obj.getitem resp "aggregations" ;;
   price_stats <- Obj.getitem aggregations "price_stats" ;;
   stock_status <- facet resp "stock_status" ;;
   n <- pages_of total size ;;
   Ok (JDict [("results", JList results);
              ("total", total);
              ("facets",
                JDict [("categories", categories);
                       ("tags", tags);
                       ("price_ranges", price_ranges);
                       ("price_stats", price_stats);
                       ("stock_status", stock_status)]);
              ("suggestions", JList suggestions);
              ("page", JInt page);
              ("pages", n)]))%py.

(** [GET /search] *)
Definition product_search (args : MultiDict) : M json :=
  (resp <-- es_search INDEX (JDict (product_body args)) ;;
   out <-- lift (product_response (get_or args "q" "") (page_of args) (size_of args) resp) ;;
   jsonify out)%py.

Definition autocomplete_body (q : string) : json :=
  JDict [("suggest",
           JDict [("product-suggest",
             JDict [("prefix", JStr q);
                    ("completion",
                      JDict [("field", JStr "name_suggest");
                             ("size", JInt 8);
                             ("skip_duplicates", JBool true);
                             ("fuzzy", JDict [("fuzziness", JStr "AUTO")])])])]);
         ("_source", JList [JStr "name"; JStr "product_id"; JStr "price"; JStr "category"])].

Definition autocomplete_option (s : json) : result json :=
  (text <- Obj.getitem s "text" ;;
   source <- Obj.getitem s "_source" ;;
   product_id <- Obj.get source "product_id" JNull ;;
   source <- Obj.getitem s "_source" ;;
   price <- Obj.get source "price" JNull ;;
   source <- Obj.getitem s "_source" ;;
   category <- Obj.get source "category" JNull ;;
   Ok (JDict [("text", text); ("product_id", product_id);
              ("price", price); ("category", category)]))%py.

(** [GET /autocomplete] *)
Definition autocomplete (args : MultiDict) : M json :=
  let q := get_or args "q" "" in
  (resp <-- es_search INDEX (autocomplete_body q) ;;
   out <-- lift (options <- suggest_options resp "product-suggest" ;;
                 rmap autocomplete_option options) ;;
   jsonify (JDict [("suggestions", JList out)]))%py.

End CatalogSearch.

(* ------------------------------------------------------------------ *)
(** * Vocabulary of the properties *)

(** [mentions key v]: some dict inside [v], at any depth, has the key. *)
Fixpoint mentions (key : string) (v : json) {struct v} : bool :=
  match v with
  | JList l => existsb (mentions key) l
  | JDict kvs =>
      existsb (fun kv => String.eqb (fst kv) key || mentions key (snd kv)) kvs
  | _ => false
  end.

(** A filter that is a [nested] query. *)
Definition is_nested (v : json) : bool :=
  match v with
  | JDict ((k, _) :: _) => String.eqb k "nested"
  | _ => false
  end.

(** The parameters of a request that name an attribute. *)
Definition is_attr (kv : string * string) : bool := Py.startswith (fst kv) "attr_".

(** The nested predicates that the loop over [request.args.items()]
    appends, one per pair it visits. *)
Definition attrs_of (l : list (string * string)) : list json :=
  map (fun kv => SearchApi.attr_filter (Py.slice_from 5 (fst kv)) (snd kv))
      (filter is_attr l).

(** How many pairs of [l] are exactly [(k, v)]. *)
Definition count_pair (k v : string) (l : list (string * string)) : nat :=
  List.length (filter (fun kv => String.eqb (fst kv) k && String.eqb (snd kv) v) l).

(** The values the properties speak about.  The stock predicates of the
    two services: *)
Definition stock_quantity_filter : json :=
  JDict [("range", JDict [("stock_quantity", JDict [("gt", JInt 0)])])].

Definition stock_level_filter : json :=
  JDict [("range", JDict [("stock_level", JDict [("gt", JInt 0)])])].

Definition match_all : json := JDict [("match_all", JDict [])].

(** Newest first: creation time, descending. *)
Definition newest_first : json := JList [JDict [("created_at", JStr "desc")]].

(** The suggestion request that is expected for the text [q]: the top 3
    phrase corrections over the field [name], with gram size 3 and
    candidates generated in mode "popular". *)
Definition spelling_request (q : string) : json :=
  JDict [("spelling",
    JDict [("text", JStr q);
           ("phrase",
             JDict [("field", JStr "name");
                    ("size", JInt 3);
                    ("gram_size", JInt 3);
                    ("direct_generator",
                      JList [JDict [("field", JStr "name");
                                    ("suggest_mode", JStr "popular")]])])])].

(** [body["query"]["bool"][clause]] when it is a list. *)
Definition plan_clause (clause : string) (body : list (string * json))
  : option (list json) :=
  match Dict.lookup "query" body with
  | Some (JDict query) =>
      match Dict.lookup "bool" query with
      | Some (JDict b) =>
          match Dict.lookup clause b with
          | Some (JList l) => Some l
          | _ => None
          end
      | _ => None
      end
  | _ => None
  end.

(** The filter list and the must-clause of a plan. *)
Definition plan_filters : list (string * json) -> option (list json) :=
  plan_clause "filter".

Definition plan_must : list (string * json) -> option (list json) :=
  plan_clause "must".

(** The relevance order of [catalog_search.py]. *)
Definition score_then_stock : json :=
  JList [JDict [("_score", JStr "desc")]; JDict [("stock_level", JStr "desc")]].

(** The ceiling of [t / s] for [s >= 1], as a rational rounded up. *)
Definition ceil_div (t s : Z) : Z := Qceiling (t # Z.to_pos s).

(** An engine that finds 97 products and returns none of them on the
    page, with empty facets. *)
Definition engine_97 : Engine :=
  fun _ _ =>
    Ok (JDict [("hits", JDict [("total", JDict [("value", JInt 97)]); ("hits", JList [])]);
               ("aggregations",
                 JDict [("categories", JDict [("buckets",
                           JList [JDict [("key", JStr "A"); ("doc_count", JInt 5)];
                                  JDict [("key", JStr "B"); ("doc_count", JInt 2)]])]);
                        ("statuses", JDict [("buckets", JList [])]);
                        ("tags", JDict [("buckets", JList [])]);
                        ("price_ranges", JDict [("buckets", JList [])]);
                        ("price_stats", JDict [("count", JInt 97)]);
                        ("stock_status", JDict [("buckets", JList [])])])]).

(* ------------------------------------------------------------------ *)
(** * Well-formed answers of the engine *)

(** [o] is a dict whose entry [key] is [v]. *)
Definition has (o : json) (key : string) (v : json) : Prop :=
  exists kvs, o = JDict kvs /\ Dict.lookup key kvs = Some v.

(** [d.get(key, default)] on the pairs of a dict. *)
Definition lookup_or (kvs : list (string * json)) (key : string) (default : json) : json :=
  match Dict.lookup key kvs with Some v => v | None => default end.

(** A bucket of an aggregation and the facet entry made of it. *)
Definition bucket_view (b out : json) : Prop :=
  exists k c, has b "key" k /\ has b "doc_count" c /\
              out = JDict [("key", k); ("count", c)].

(** An aggregation of the response with its buckets. *)
Definition has_buckets (resp : json) (name : string) (buckets : list json) : Prop :=
  exists aggs agg, has resp "aggregations" aggs /\ has aggs name agg /\
                   has agg "buckets" (JList buckets).

(** A hit of the engine and the entry [search] makes of it: the score
    and the highlight are optional. *)
Definition search_hit_view (h out : json) : Prop :=
  exists kvs src,
    h = JDict kvs /\ Dict.lookup "_source" kvs = Some src /\
    out = JDict [("product", src);
                 ("score", lookup_or kvs "_score" JNull);
                 ("highlight", lookup_or kvs "highlight" (JDict []))].

(** A hit of the engine and the entry [product_search] makes of it: the
    score is required, the highlight and the sort values are optional. *)
Definition product_hit_view (h out : json) : Prop :=
  exists kvs src score,
    h = JDict kvs /\ Dict.lookup "_source" kvs = Some src /\
    Dict.lookup "_score" kvs = Some score /\
    out = JDict [("product", src);
                 ("score", score);
                 ("highlight", lookup_or kvs "highlight" (JDict []));
                 ("sort", lookup_or kvs "sort" JNull)].

(** The hits and the total of a response. *)
Definition has_hits (resp : json) (total : json) (hits : list json) : Prop :=
  exists h t, has resp "hits" h /\ has h "total" t /\ has t "value" total /\
              has h "hits" (JList hits).

(** An option of a completion suggester and the suggestion
    [SearchApi.autocomplete] makes of it. *)
Definition completion_view (s out : json) : Prop :=
  exists kvs text score,
    s = JDict kvs /\ Dict.lookup "text" kvs = Some text /\
    Dict.lookup "_score" kvs = Some score /\
    out = JDict [("text", text); ("score", score);
                 ("product", lookup_or kvs "_source" (JDict []))].

(** A response whose suggester [name] has one entry with these options. *)
Definition has_options (resp : json) (name : string) (options : list json) : Prop :=
  exists sg first rest,
    has resp "suggest" sg /\ has sg name (JList (first :: rest)) /\
    has first "options" (JList options).

(** A predicate of the filter list that tests the field [field] with the
    query [kind] ([term], [range], ...). *)
Definition tests_field (kind field : string) (f : json) : bool :=
  match f with
  | JDict [(k, JDict ((fld, _) :: _))] => String.eqb k kind && String.eqb fld field
  | _ => false
  end.

(** A predicate of the filter list of the query [kind]. *)
Definition is_kind (kind : string) (f : json) : bool :=
  match f with
  | JDict ((k, _) :: _) => String.eqb k kind
  | _ => false
  end.

(** The only sort keys that [search_api.py] knows besides "relevance". *)
Definition known_sort (sort_by : string) : bool :=
  String.eqb sort_by "price_asc" || String.eqb sort_by "price_desc"
  || String.eqb sort_by "newest".

Definition score_order : json := JList [JDict [("_score", JStr "desc")]].

(** [path keys v]: the value reached from [v] through the dict keys. *)
Fixpoint path (keys : list string) (v : json) : option json :=
  match keys with
  | [] => Some v
  | k :: keys' =>
      match v with
      | JDict kvs =>
          match Dict.lookup k kvs with
          | Some w => path keys' w
          | None => None
          end
      | _ => None
      end
  end.

(* ------------------------------------------------------------------ *)
(** * The predicates of the filter lists *)

(** [[x]] when there is an [x]. *)
Definition opt_list {A : Type} (f : A -> json) (o : option A) : list json :=
  match o with Some x => [f x] | None => [] end.

Definition term_filter (field : string) (v : json) : json :=
  JDict [("term", JDict [(field, v)])].

(** A bound on the price: [op] is ["gte"] or ["lte"]. *)
Definition price_filter (op : string) (p : Py.pyfloat) : json :=
  JDict [("range", JDict [("price", JDict [(op, JFloat p)])])].

Definition geo_filter (distance : string) (lat lon : Py.pyfloat) : json :=
  JDict [("geo_distance",
    JDict [("distance", JStr distance);
           ("location", JDict [("lat", JFloat lat); ("lon", JFloat lon)])])].

(** The status of a request when it is given and not empty. *)
Definition status_of (args : Werkzeug.MultiDict) : option string :=
  match Werkzeug.get args "status" with
  | Some s => if Py.truthy s then Some s else None
  | None => None
  end.

(** Both coordinates of a request, when [float] reads both. *)
Definition point_of (args : Werkzeug.MultiDict) : option (Py.pyfloat * Py.pyfloat) :=
  match Werkzeug.get_as args "lat" Py.float, Werkzeug.get_as args "lon" Py.float with
  | Some la, Some lo => Some (la, lo)
  | _, _ => None
  end.

Definition geo_sort (lat lon : Py.pyfloat) : json :=
  JList [JDict [("_geo_distance",
    JDict [("location", JDict [("lat", JFloat lat); ("lon", JFloat lon)]);
           ("order", JStr "asc");
           ("unit", JStr "km")])]].

(** The keyword clause of the two services and the vector clause. *)
Definition multi_match (q : string) (fields : list string) : json :=
  JDict [("multi_match",
    JDict [("query", JStr q);
           ("fields", JList (map JStr fields));
           ("type", JStr "best_fields");
           ("fuzziness", JStr "AUTO")])].

Definition knn_clause (q : string) : json :=
  JDict [("knn",
    JDict [("field", JStr "product_embedding");
           ("query_vector_builder",
             JDict [("text_embedding",
               JDict [("model_id", JStr "product-embedding-model");
                      ("model_text", JStr q)])]);
           ("k", JInt 20);
           ("num_candidates", JInt 100)])].

Definition rrf_rank : json :=
  JDict [("rrf", JDict [("window_size", JInt 100); ("rank_constant", JInt 60)])].

(* ------------------------------------------------------------------ *)
(** * [catalog_search.py]: the index and the ingestion *)

Module CatalogIndex.

Definition INDEX : string := "products".

Definition MAPPING : json :=
  JDict [("settings",
           JDict [("number_of_replicas", JInt 1);
                  ("analysis",
                    JDict [("analyzer",
                             JDict [("autocomplete_analyzer",
                                      JDict [("type", JStr "custom");
                                             ("tokenizer", JStr "standard");
                                             ("filter", JList [JStr "lowercase";
                                                               JStr "autocomplete_filter"])]);
                                    ("synonym_analyzer",
                                      JDict [("type", JStr "custom");
                                             ("tokenizer", JStr "standard");
                                             ("filter", JList [JStr "lowercase";
                                                               JStr "product_synonyms"])])]);
                           ("filter",
                             JDict [("autocomplete_filter",
                                      JDict [("type", JStr "edge_ngram");
                                             ("min_gram", JInt 2);
                                             ("max_gram", JInt 15)]);
                                    ("product_synonyms",
                                      JDict [("type", JStr "synonym");
                                             ("synonyms",
                                               JList [JStr "boots, shoes => boots";
                                                      JStr "hiking, trekking, trail => hiking";
                                                      JStr "jacket, coat, parka => jacket";
                                                      JStr "waterproof, water-resistant => waterproof"])])])])]);
         ("mappings",
           JDict [("properties",
             JDict [("product_id", JDict [("type", JStr "keyword")]);
                    ("name",
                      JDict [("type", JStr "text");
                             ("analyzer", JStr "synonym_analyzer");
                             ("fields",
                               JDict [("keyword", JDict [("type", JStr "keyword")]);
                                      ("autocomplete",
                                        JDict [("type", JStr "text");
                                               ("analyzer", JStr "autocomplete_analyzer");
                                               ("search_analyzer", JStr "standard")])])]);
                    ("description",
                      JDict [("type", JStr "text"); ("analyzer", JStr "synonym_analyzer")]);
                    ("category", JDict [("type", JStr "keyword")]);
                    ("price", JDict [("type", JStr "float")]);
                    ("stock_level", JDict [("type", JStr "integer")]);
                    ("tags", JDict [("type", JStr "keyword")]);
                    ("location", JDict [("type", JStr "geo_point")]);
                    ("name_suggest",
                      JDict [("type", JStr "completion"); ("analyzer", JStr "simple")])])])].

(** The part of the client that [create_index] uses, over the state of
    the engine: [es.indices.exists] and [es.indices.create]. *)
Class Indices (St : Type) : Type := {
  indices_exists : St -> string -> result bool;
  indices_create : St -> string -> json -> result St
}.

(** [create_index()]: the state of the engine afterwards and the line
    printed. *)
Definition create_index {St : Type} `{Indices St} (st : St) : result (St * string) :=
  (there <- indices_exists st INDEX ;;
   if negb there then
     st' <- indices_create st INDEX MAPPING ;;
     Ok (st', "Created index 'products'")
   else Ok (st, "Index 'products' already exists"))%py.

(** An engine that keeps the names of its indices and refuses to create
    an index twice. *)
#[global] Instance names_indices : Indices (list string) := {
  indices_exists st index := Ok (existsb (String.eqb index) st);
  indices_create st index _ :=
    if existsb (String.eqb index) st then Raise EngineError else Ok (index :: st)
}.

(** [max(1, v)] *)
Definition max_1 (v : json) : result json :=
  match v with
  | JInt n => Ok (JInt (if 1 <? n then n else 1))
  | JBool _ => Ok (JInt 1)
  | JFloat _ => Raise NotModelled
  | _ => Raise TypeError
  end.

(** The value of [doc["name_suggest"]]:
    [{"input": [doc.get("name", ""), *doc.get("tags", [])],
      "weight": max(1, doc.get("stock_level", 1))}] *)
Definition name_suggest (doc : list (string * json)) : result json :=
  (tags <- Obj.iter (lookup_or doc "tags" (JList [])) ;;
   weight <- max_1 (lookup_or doc "stock_level" (JInt 1)) ;;
   Ok (JDict [("input", JList (lookup_or doc "name" (JStr "") :: tags));
              ("weight", weight)]))%py.

(** One turn of the loop of [index_products]: the action of a product. *)
Definition action (product : list (string * json)) : result json :=
  let doc := product in
  (suggest <- name_suggest doc ;;
   let doc := Dict.set "name_suggest" suggest doc in
   Ok (JDict [("_index", JStr INDEX);
              ("_id", lookup_or doc "product_id" JNull);
              ("_source", JDict doc)]))%py.

(** [helpers.bulk(es, actions, raise_on_error=False, raise_on_exception=False)]:
    the pair [(success, errors)]. *)
Definition Bulk : Type := list json -> result (json * json).

(** [index_products(products)]: its result and the batches handed to
    [helpers.bulk]. *)
Definition index_products (bulk : Bulk) (products : list (list (string * json)))
  : result (json * json) * list (list json) :=
  match rmap action products with
  | Ok actions => (bulk actions, [actions])
  | Raise e => (Raise e, [])
  end.

End CatalogIndex.

(** A product and the bulk action [index_products] makes of it, when its
    tags are a list (or missing) and its stock level an integer (or
    missing): the document is the product with its suggestion entry. *)
Definition indexed_as (product : list (string * json)) (action : json) : Prop :=
  exists tags n,
    lookup_or product "tags" (JList []) = JList tags /\
    lookup_or product "stock_level" (JInt 1) = JInt n /\
    action =
      JDict [("_index", JStr "products");
             ("_id", lookup_or product "product_id" JNull);
             ("_source",
               JDict (Dict.set "name_suggest"
                        (JDict [("input", JList (lookup_or product "name" (JStr "") :: tags));
                                ("weight", JInt (Z.max 1 n))])
                        product))].

(* ------------------------------------------------------------------ *)
(** * [setup_elasticsearch.py] *)

Module SetupElasticsearch.

Definition INFERENCE_ID : string := "product-embedding-model".
Definition SYNONYM_SET_ID : string := "product-synonyms".
Definition PIPELINE_ID : string := "product-embedding-pipeline".
Definition INDEX_NAME : string := "products-v1".
Definition ALIAS_NAME : string := "products".

(** The calls of the script to the client. *)
Inductive ApiCall : Type :=
| Info
| InferencePut (task_type inference_id : string) (inference_config : json)
| PutSynonym (id : string) (body : json)
| PutPipeline (id : string) (body : json)
| IndicesCreate (index : string) (body : json).

(** What the script prints: a fixed line, or the line that shows the
    version number read from the server. *)
Inductive Output : Type :=
| Line (text : string)
| Connected (number : json).

(** The client answers a call or fails. *)
Definition Client : Type := ApiCall -> result json.

(** A step of the script: its result, with the calls made and the
    lines printed so far. *)
Definition Script (A : Type) : Type :=
  Client -> list ApiCall * list Output -> result A * (list ApiCall * list Output).

Definition sret {A : Type} (a : A) : Script A := fun _ log => (Ok a, log).

Definition sbind {A B : Type} (m : Script A) (k : A -> Script B) : Script B :=
  fun es log =>
    match m es log with
    | (Ok a, log') => k a es log'
    | (Raise e, log') => (Raise e, log')
    end.

Definition call (c : ApiCall) : Script json :=
  fun es log => (es c, (fst log ++ [c], snd log)).

Definition print (o : Output) : Script unit :=
  fun _ log => (Ok tt, (fst log, snd log ++ [o])).

Definition slift {A : Type} (r : result A) : Script A := fun _ log => (r, log).

Declare Scope script_scope.
Delimit Scope script_scope with script.
Notation "x <- m ;; k" := (sbind m (fun x => k))
  (at level 61, m at next level, right associativity) : script_scope.
Notation "m ;;; k" := (sbind m (fun _ => k))
  (at level 61, right associativity) : script_scope.

Definition inference_config : json :=
  JDict [("service", JStr "elasticsearch");
         ("service_settings",
           JDict [("model_id", JStr "sentence-transformers__all-MiniLM-L6-v2");
                  ("num_allocations", JInt 1);
                  ("num_threads", JInt 1)])].

Definition create_inference_endpoint : Script unit :=
  (print (Line "Creating inference endpoint 'product-embedding-model'...") ;;;
   _ <- call (InferencePut "text_embedding" INFERENCE_ID inference_config) ;;
   print (Line "  Done — inference endpoint created"))%script.

Definition synonyms_body : json :=
  JDict [("synonyms_set",
    JList [JDict [("id", JStr "starter-1"); ("synonyms", JStr "laptop, notebook")];
           JDict [("id", JStr "starter-2"); ("synonyms", JStr "phone, mobile, cell phone")];
           JDict [("id", JStr "starter-3"); ("synonyms", JStr "tv, television")];
           JDict [("id", JStr "starter-4");
                  ("synonyms", JStr "headphones, earphones, earbuds")]])].

Definition create_synonym_set : Script unit :=
  (print (Line "Creating synonym set 'product-synonyms'...") ;;;
   _ <- call (PutSynonym SYNONYM_SET_ID synonyms_body) ;;
   print (Line "  Done — update anytime via PUT _synonyms/product-synonyms"))%script.

Definition pipeline_body : json :=
  JDict [("description", JStr "Generate product embeddings from name + description");
         ("processors",
           JList [JDict [("set",
                    JDict [("field", JStr "_combined_text");
                           ("value", JStr "{{name}} {{description}}")])];
                  JDict [("inference",
                    JDict [("model_id", JStr INFERENCE_ID);
                           ("input_output",
                             JList [JDict [("input_field", JStr "_combined_text");
                                           ("output_field", JStr "product_embedding")]])])];
                  JDict [("remove", JDict [("field", JStr "_combined_text")])]])].

Definition create_ingest_pipeline : Script unit :=
  (print (Line "Creating ingest pipeline 'product-embedding-pipeline'...") ;;;
   _ <- call (PutPipeline PIPELINE_ID pipeline_body) ;;
   print (Line "  Done — ingest pipeline created"))%script.

Definition index_body : json :=
  JDict [("settings",
           JDict [("analysis",
             JDict [("analyzer",
                      JDict [("autocomplete_analyzer",
                               JDict [("type", JStr "custom");
                                      ("tokenizer", JStr "standard");
                                      ("filter", JList [JStr "lowercase";
                                                        JStr "autocomplete_filter"])]);
                             ("synonym_analyzer",
                               JDict [("type", JStr "custom");
                                      ("tokenizer", JStr "standard");
                                      ("filter", JList [JStr "lowercase";
                                                        JStr "product_synonyms"])])]);
                    ("filter",
                      JDict [("autocomplete_filter",
                               JDict [("type", JStr "edge_ngram");
                                      ("min_gram", JInt 2);
                                      ("max_gram", JInt 15)]);
                             ("product_synonyms",
                               JDict [("type", JStr "synonym");
                                      ("synonyms_set", JStr SYNONYM_SET_ID);
                                      ("updateable", JBool true)])])])]);
         ("mappings",
           JDict [("properties",
             JDict [("id", JDict [("type", JStr "keyword")]);
                    ("name",
                      JDict [("type", JStr "text");
                             ("analyzer", JStr "synonym_analyzer");
                             ("fields",
                               JDict [("keyword", JDict [("type", JStr "keyword")]);
                                      ("autocomplete",
                                        JDict [("type", JStr "text");
                                               ("analyzer", JStr "autocomplete_analyzer");
                                               ("search_analyzer", JStr "standard")])])]);
                    ("description",
                      JDict [("type", JStr "text"); ("analyzer", JStr "synonym_analyzer")]);
                    ("sku", JDict [("type", JStr "keyword")]);
                    ("slug", JDict [("type", JStr "keyword"); ("index", JBool false)]);
                    ("category_id", JDict [("type", JStr "integer")]);
                    ("price", JDict [("type", JStr "float")]);
                    ("stock_quantity", JDict [("type", JStr "integer")]);
                    ("status", JDict [("type", JStr "keyword")]);
                    ("attributes",
                      JDict [("type", JStr "nested");
                             ("properties",
                               JDict [("name", JDict [("type", JStr "keyword")]);
                                      ("value", JDict [("type", JStr "keyword")])])]);
                    ("product_embedding",
                      JDict [("type", JStr "dense_vector");
                             ("dims", JInt 384);
                             ("index", JBool true);
                             ("similarity", JStr "cosine")]);
                    ("name_suggest",
                      JDict [("type", JStr "completion"); ("analyzer", JStr "simple")]);
                    ("created_at", JDict [("type", JStr "date")]);
                    ("updated_at", JDict [("type", JStr "date")])])]);
         ("aliases", JDict [(ALIAS_NAME, JDict [])])].

Definition create_index : Script unit :=
  (print (Line "Creating index 'products-v1' with alias 'products'...") ;;;
   _ <- call (IndicesCreate INDEX_NAME index_body) ;;
   print (Line "  Done — index created with alias 'products'"))%script.

(** [main()], from the client that [get_client()] returned. *)
Definition main : Script unit :=
  (info <- call Info ;;
   version <- slift (Obj.getitem info "version") ;;
   number <- slift (Obj.getitem version "number") ;;
   print (Connected number) ;;;
   create_inference_endpoint ;;;
   create_synonym_set ;;;
   create_ingest_pipeline ;;;
   create_index ;;;
   print (Line "Setup complete! Next: run ingest_from_postgres.py to load your data."))%script.

(** A run of the script from the start. *)
Definition run (es : Client) : result unit * (list ApiCall * list Output) :=
  main es ([], []).

(** The four resources, in the order [main] creates them. *)
Definition resources : list ApiCall :=
  [InferencePut "text_embedding" INFERENCE_ID inference_config;
   PutSynonym SYNONYM_SET_ID synonyms_body;
   PutPipeline PIPELINE_ID pipeline_body;
   IndicesCreate INDEX_NAME index_body].

End SetupElasticsearch.

(** [names s v]: the string [s] is a value somewhere inside [v]. *)
Fixpoint names (s : string) (v : json) {struct v} : bool :=
  match v with
  | JStr x => String.eqb x s
  | JList l => existsb (names s) l
  | JDict kvs => existsb (fun kv => names s (snd kv)) kvs
  | _ => false
  end.

(** The lines of a complete run of the setup script, for a server that
    reports the version [number]. *)
Definition setup_lines (number : json) : list SetupElasticsearch.Output :=
  [SetupElasticsearch.Connected number;
   SetupElasticsearch.Line "Creating inference endpoint 'product-embedding-model'...";
   SetupElasticsearch.Line "  Done — inference endpoint created";
   SetupElasticsearch.Line "Creating synonym set 'product-synonyms'...";
   SetupElasticsearch.Line "  Done — update anytime via PUT _synonyms/product-synonyms";
   SetupElasticsearch.Line "Creating ingest pipeline 'product-embedding-pipeline'...";
   SetupElasticsearch.Line "  Done — ingest pipeline created";
   SetupElasticsearch.Line "Creating index 'products-v1' with alias 'products'...";
   SetupElasticsearch.Line "  Done — index created with alias 'products'";
   SetupElasticsearch.Line
     "Setup complete! Next: run ingest_from_postgres.py to load your data."].

(* ------------------------------------------------------------------ *)
(** * [ingest_from_postgres.py] *)

Module IngestFromPostgres.

Definition BATCH_SIZE : Z := 500.
Definition ALIAS : string := "products".
Definition PIPELINE_ID : string := "product-embedding-pipeline".

(** A value of a row that the driver hands over: a value of JSON shape
    (None, bool, int, float, str, and the lists and dicts of a JSONB
    column), a date or time object, kept as the text its [isoformat()]
    gives, or another object (a Decimal, a UUID, ...), which has no
    [isoformat]. *)
Inductive pgval : Type :=
| PgJson (j : json)
| PgDate (iso : string)
| PgOther (repr : string).

(** A value of the document built from a row: a value of the row, the
    list put under ["attributes"], or the dict put under
    ["name_suggest"] with its one input and its weight. *)
Inductive docval : Type :=
| Row (v : pgval)
| Attributes (pairs : list json)
| NameSuggest (input : docval) (weight : json).

Definition Doc : Type := list (string * docval).

(** A row of the cursor: a [RealDictRow], column name to value. *)
Definition PgRow : Type := list (string * pgval).

(** [dict(row)] *)
Definition doc_of_row (row : PgRow) : Doc :=
  map (fun kv => (fst kv, Row (snd kv))) row.

(** [doc.get(key)] and [doc[key] = v] *)
Fixpoint doc_get (key : string) (doc : Doc) : option docval :=
  match doc with
  | (k, v) :: doc' => if String.eqb k key then Some v else doc_get key doc'
  | [] => None
  end.

Fixpoint doc_set (key : string) (v : docval) (doc : Doc) : Doc :=
  match doc with
  | (k, w) :: doc' =>
      if String.eqb k key then (k, v) :: doc' else (k, w) :: doc_set key v doc'
  | [] => [(key, v)]
  end.

Section Transform.

(** [str(v)] on a value of a JSONB document. *)
Variable str : json -> string.

(** [{"name": key, "value": str(v)}] *)
Definition pair_of (key : string) (v : json) : json :=
  JDict [("name", JStr key); ("value", JStr (str v))].

(** One turn of the loop of [transform_attributes]. *)
Definition transform_step (result : list json) (kv : string * json) : list json :=
  let (key, value) := kv in
  match value with
  | JList vs => fold_left (fun result v => result ++ [pair_of key v]) vs result
  | _ => result ++ [pair_of key value]
  end.

(** [transform_attributes(attrs)]: a value that is not a dict, and the
    empty dict, give the empty list. *)
Definition transform_attributes (attrs : json) : list json :=
  match attrs with
  | JDict kvs => fold_left transform_step kvs []
  | _ => []
  end.

(** [max(1, doc.get("stock_quantity", 1))] *)
Definition weight_of (doc : Doc) : result json :=
  match doc_get "stock_quantity" doc with
  | None => Ok (JInt 1)
  | Some (Row (PgJson v)) => CatalogIndex.max_1 v
  | Some (Row (PgOther _)) => Raise NotModelled
  | Some _ => Raise TypeError
  end.

(** One turn of [for date_field in ("created_at", "updated_at")]. *)
Definition isoformat_field (doc : Doc) (date_field : string) : Doc :=
  match doc_get date_field doc with
  | Some (Row (PgDate iso)) => doc_set date_field (Row (PgJson (JStr iso))) doc
  | _ => doc
  end.

(** A bulk action: [{"_index": ..., "_id": ..., "pipeline": ..., "_source": doc}]. *)
Record Action : Type := {
  action_index : string;
  action_id : docval;
  action_pipeline : string;
  action_source : Doc
}.

(** The body of the loop of [generate_actions] for one row. *)
Definition action_of_row (row : PgRow) : result Action :=
  let doc := doc_of_row row in
  let attrs :=
    match doc_get "attributes" doc with
    | Some (Row (PgJson j)) => transform_attributes j
    | _ => []
    end in
  let doc := doc_set "attributes" (Attributes attrs) doc in
  let name :=
    match doc_get "name" doc with
    | Some v => v
    | None => Row (PgJson (JStr ""))
    end in
  (weight <- weight_of doc ;;
   let doc := doc_set "name_suggest" (NameSuggest name weight) doc in
   let doc := fold_left isoformat_field ["created_at"; "updated_at"] doc in
   Ok {| action_index := ALIAS;
         action_id := match doc_get "sku" doc with
                      | Some v => v
                      | None => Row (PgJson JNull)
                      end;
         action_pipeline := PIPELINE_ID;
         action_source := doc |})%py.

(** [generate_actions(cursor)]: the actions yielded, and the exception
    that ends the generator when the body raises on a row. *)
Fixpoint generate_actions (rows : list PgRow) : list Action * option PyExc :=
  match rows with
  | [] => ([], None)
  | row :: rows' =>
      match action_of_row row with
      | Ok a => let (actions, stop) := generate_actions rows' in (a :: actions, stop)
      | Raise e => ([], Some e)
      end
  end.

(** [os.environ.get(key)] and [os.environ.get(key, default)] *)
Definition Env : Type := list (string * string).

Definition environ_get (env : Env) (key : string) : option string :=
  Werkzeug.get env key.

Definition environ_get_or (env : Env) (key default : string) : string :=
  Werkzeug.get_or env key default.

(** The Elasticsearch client that [get_es_client()] builds. *)
Inductive EsClient : Type :=
| CloudClient (cloud_id api_key : string)
| BasicClient (host user password : string) (verify_certs : bool).

Definition get_es_client (env : Env) : EsClient :=
  let cloud_id := environ_get env "ES_CLOUD_ID" in
  let api_key := environ_get env "ES_API_KEY" in
  match cloud_id, api_key with
  | Some c, Some k =>
      if Py.truthy c && Py.truthy k then CloudClient c k
      else BasicClient (environ_get_or env "ES_URL" "https://localhost:9200")
                       (environ_get_or env "ES_USER" "elastic")
                       (environ_get_or env "ES_PASSWORD" "changeme") false
  | _, _ =>
      BasicClient (environ_get_or env "ES_URL" "https://localhost:9200")
                  (environ_get_or env "ES_USER" "elastic")
                  (environ_get_or env "ES_PASSWORD" "changeme") false
  end.

(** The arguments of [psycopg2.connect]. *)
Record ConnParams : Type := {
  pg_host : string; pg_port : Z; pg_dbname : string; pg_user : string;
  pg_password : string
}.

(** What ends the script early. *)
Inductive Stop : Type :=
| Raised (e : PyExc)
| ValueError
| SystemExit (code : Z)
| BulkIndexError (errors : list json)
| OtherError (name : string).

(** What the script prints. *)
Inductive Printed : Type :=
| Text (line : string)
| Indexed (success : Z)
| ErrorCount (n : nat)
| ErrorLine (err : json)
| BulkErrorCount (n : nat)
| BulkErrorLine (err : json).

(** What the script does to the outside, in order. *)
Inductive Event : Type :=
| Print (p : Printed)
| MakeEsClient (c : EsClient)
| Connect (params : ConnParams)
| OpenCursor (name : string)
| SetIterSize (n : Z)
| Execute (sql : string)
| Bulk (actions : list Action) (chunk_size : Z)
| CloseCursor
| CloseConn.

(** The outside: whether each call fails ([None] when it does not), the rows the cursor yields
    (and the error that ends the iteration, if any), and what
    [helpers.bulk] answers: [(success, errors)] or an exception. *)
Record World : Type := {
  make_client : EsClient -> option Stop;
  connect : ConnParams -> option Stop;
  open_cursor : option Stop;
  execute : string -> option Stop;
  cursor_rows : list PgRow * option Stop;
  bulk : list Action -> (Z * list json) + Stop;
  close_cursor : option Stop;
  close_conn : option Stop
}.

(** [get_pg_connection()]: the events, and the exception if any. *)
Definition get_pg_connection (env : Env) (w : World) : list Event * option Stop :=
  let pg_db := environ_get env "PG_DB" in
  match pg_db with
  | Some db =>
      if Py.truthy db then
        match Py.int (environ_get_or env "PG_PORT" "5432") with
        | Some port =>
            let params := {| pg_host := environ_get_or env "PG_HOST" "localhost";
                             pg_port := port;
                             pg_dbname := db;
                             pg_user := environ_get_or env "PG_USER" "postgres";
                             pg_password := environ_get_or env "PG_PASSWORD" "" |} in
            ([Connect params], connect w params)
        | None => ([], Some ValueError)
        end
      else ([Print (Text "Error: PG_DB environment variable is required")],
            Some (SystemExit 1))
  | None => ([Print (Text "Error: PG_DB environment variable is required")],
             Some (SystemExit 1))
  end.

(** The [finally] clause of [ingest]. *)
Definition finally_close (w : World) : list Event * option Stop :=
  match close_cursor w with
  | Some e => ([CloseCursor], Some e)
  | None =>
      match close_conn w with
      | Some e => ([CloseCursor; CloseConn], Some e)
      | None => ([CloseCursor; CloseConn; Print (Text "Done.")], None)
      end
  end.

(** The [try] block of [ingest] with its [except] clause: the events,
    and the exception that leaves it, if any. *)
Definition try_bulk (w : World) : list Event * option Stop :=
  let (rows, cursor_stop) := cursor_rows w in
  let (actions, stop) := generate_actions rows in
  match stop, cursor_stop with
  | Some e, _ => ([Bulk actions BATCH_SIZE], Some (Raised e))
  | None, Some e => ([Bulk actions BATCH_SIZE], Some e)
  | None, None =>
      match bulk w actions with
      | inl (success, errors) =>
          (Bulk actions BATCH_SIZE :: Print (Indexed success) ::
             match errors with
             | [] => []
             | _ => Print (ErrorCount (List.length errors))
                    :: map (fun err => Print (ErrorLine err)) (firstn 5 errors)
             end,
           None)
      | inr (BulkIndexError errors) =>
          (Bulk actions BATCH_SIZE :: Print (BulkErrorCount (List.length errors))
             :: map (fun err => Print (BulkErrorLine err)) (firstn 5 errors),
           None)
      | inr e => ([Bulk actions BATCH_SIZE], Some e)
      end
  end.

(** The steps of [ingest] up to [cursor.execute]: the events, the
    exception if any, and the statement sent. *)
Definition open_query (env : Env) (w : World) : list Event * option Stop :=
  let client := get_es_client env in
  match make_client w client with
  | Some e => ([MakeEsClient client], Some e)
  | None =>
      match get_pg_connection env w with
      | (ev, Some e) => (MakeEsClient client :: ev, Some e)
      | (ev, None) =>
          let table := environ_get_or env "PG_TABLE" "products" in
          let reading :=
            Print (Text ("Reading from PostgreSQL table '" ++ table ++ "'...")) in
          match open_cursor w with
          | Some e =>
              (MakeEsClient client :: ev ++ [reading; OpenCursor "product_cursor"], Some e)
          | None =>
              let sql := ("SELECT * FROM " ++ table)%string in
              (MakeEsClient client :: ev
                 ++ [reading; OpenCursor "product_cursor"; SetIterSize BATCH_SIZE;
                     Execute sql],
               execute w sql)
          end
      end
  end.

(** [ingest()] *)
Definition ingest (env : Env) (w : World) : list Event * option Stop :=
  match open_query env w with
  | (ev, Some e) => (ev, Some e)
  | (ev, None) =>
      let (ev_try, stop_try) := try_bulk w in
      let (ev_fin, stop_fin) := finally_close w in
      (ev ++ ev_try ++ ev_fin,
       match stop_fin with
       | Some e => Some e
       | None => stop_try
       end)
  end.

End Transform.

End IngestFromPostgres.

(** The pairs that an attribute contributes: one per element for a
    list, one for any other value. *)
Definition pairs_of_attribute (str : json -> string) (kv : string * json) : list json :=
  match snd kv with
  | JList vs => map (IngestFromPostgres.pair_of str (fst kv)) vs
  | v => [IngestFromPostgres.pair_of str (fst kv) v]
  end.

(** A record of the nested field [attributes]: a name and a value, both
    strings. *)
Definition is_name_value (p : json) : Prop :=
  exists name value, p = JDict [("name", JStr name); ("value", JStr value)].

Definition is_close_cursor (e : IngestFromPostgres.Event) : bool :=
  match e with IngestFromPostgres.CloseCursor => true | _ => false end.

Definition is_close_conn (e : IngestFromPostgres.Event) : bool :=
  match e with IngestFromPostgres.CloseConn => true | _ => false end.

Definition is_connect (e : IngestFromPostgres.Event) : bool :=
  match e with IngestFromPostgres.Connect _ => true | _ => false end.

Definition is_bulk (e : IngestFromPostgres.Event) : bool :=
  match e with IngestFromPostgres.Bulk _ _ => true | _ => false end.

Definition is_execute (e : IngestFromPostgres.Event) : bool :=
  match e with IngestFromPostgres.Execute _ => true | _ => false end.

(** An event that opens nothing, sends nothing and closes nothing. *)
Definition quiet (e : IngestFromPostgres.Event) : Prop :=
  is_close_cursor e = false /\ is_close_conn e = false /\ is_bulk e = false
  /\ is_connect e = false /\ is_execute e = false.

(** The value of a document is a date or time object. *)
Definition is_date (v : option IngestFromPostgres.docval) : bool :=
  match v with
  | Some (IngestFromPostgres.Row (IngestFromPostgres.PgDate _)) => true
  | _ => false
  end.

(** The pairs of a request other than those of the parameter [q]. *)
Definition other_than_q (args : Werkzeug.MultiDict) : Werkzeug.MultiDict :=
  filter (fun kv => negb (String.eqb (fst kv) "q")) args.

(** Values that [*v] cannot unpack: null, booleans and numbers. *)
Definition not_iterable (v : json) : bool :=
  match v with
  | JNull | JBool _ | JInt _ | JFloat _ => true
  | _ => false
  end.

(** Values that [max(1, v)] cannot compare with 1: null, strings, lists
    and dicts. *)
Definition not_comparable (v : json) : bool :=
  match v with
  | JNull | JStr _ | JList _ | JDict _ => true
  | _ => false
  end.

(* ------------------------------------------------------------------ *)
(** * Induction on values and structural equality *)

Section JsonInd.
Variable P : json -> Prop.
Hypothesis Hnull : P JNull.
Hypothesis Hbool : forall b, P (JBool b).
Hypothesis Hint : forall n, P (JInt n).
Hypothesis Hfloat : forall x, P (JFloat x).
Hypothesis Hstr : forall s, P (JStr s).
Hypothesis Hlist : forall l, Forall P l -> P (JList l).
Hypothesis Hdict : forall kvs, Forall (fun kv => P (snd kv)) kvs -> P (JDict kvs).

Fixpoint json_ind (v : json) : P v :=
  match v with
  | JNull => Hnull
  | JBool b => Hbool b
  | JInt n => Hint n
  | JFloat x => Hfloat x
  | JStr s => Hstr s
  | JList l =>
      Hlist l ((fix all (l : list json) : Forall P l :=
                  match l with
                  | [] => Forall_nil _
                  | x :: l' => Forall_cons x (json_ind x) (all l')
                  end) l)
  | JDict kvs =>
      Hdict kvs ((fix all (kvs : list (string * json))
                    : Forall (fun kv => P (snd kv)) kvs :=
                    match kvs with
                    | [] => Forall_nil _
                    | kv :: kvs' => Forall_cons kv (json_ind (snd kv)) (all kvs')
                    end) kvs)
  end.
End JsonInd.

(** [int] and [float] skip the space and TAB to CR around a number, but
    not the separators FS to US, which [strip] removes. *)
Example int_skips_space_not_separators :
  Py.int " 42 " = Some 42 /\
  Py.int (String (ascii_of_nat 28) "42") = None /\
  Py.float (String (ascii_of_nat 28) "42") = None /\
  Py.strip (String (ascii_of_nat 28) "42 ") = "42".
Proof. repeat split. Qed.

(** A decimal text of more than 4300 digits is refused by [int]. *)
Example int_refuses_long_text :
  Py.int (string_of_list_ascii (repeat "1"%char 4301)) = None.
Proof. vm_compute. reflexivity. Qed.

Lemma pyfloat_eqb_eq (x y : Py.pyfloat) : pyfloat_eqb x y = true <-> x = y.
Proof.
  destruct x, y; simpl; split; intros H; try discriminate; try reflexivity.
  - apply Bool.eqb_prop in H. now subst.
  - injection H as ->. apply Bool.eqb_reflx.
  - apply andb_true_iff in H as [H He]. apply andb_true_iff in H as [Hs Hm].
    apply Bool.eqb_prop in Hs. apply N.eqb_eq in Hm. apply Z.eqb_eq in He.
    now subst.
  - injection H as -> -> ->.
    now rewrite Bool.eqb_reflx, N.eqb_refl, Z.eqb_refl.
Qed.

Lemma json_eqb_eq (a b : json) : json_eqb a b = true <-> a = b.
Proof.
  revert b. induction a using json_ind; intros c; destruct c; simpl;
    try (split; intros H'; (discriminate || reflexivity)).
  - rewrite Bool.eqb_true_iff. split; [now intros -> | now intros [= ->]].
  - rewrite Z.eqb_eq. split; [now intros -> | now intros [= ->]].
  - rewrite pyfloat_eqb_eq. split; [now intros -> | now intros [= ->]].
  - rewrite String.eqb_eq. split; [now intros -> | now intros [= ->]].
  - revert l0. induction H as [|x l Hx Hl IH]; intros [|y m]; simpl;
      try (split; intros H'; (discriminate || reflexivity)).
    rewrite andb_true_iff, Hx, IH.
    split; [intros [-> [= ->]]; reflexivity | intros [= -> ->]; auto].
  - revert kvs0. induction H as [|[k x] l Hx Hl IH]; intros [|[k' y] m]; simpl;
      try (split; intros H'; (discriminate || reflexivity)).
    simpl in Hx.
    rewrite !andb_true_iff, String.eqb_eq, Hx, IH.
    split; [intros [[-> ->] [= ->]]; reflexivity | intros [= -> -> ->]; auto].
Qed.

Lemma json_eqb_refl (a : json) : json_eqb a a = true.
Proof. now apply json_eqb_eq. Qed.

Lemma json_eqb_neq (a b : json) : a <> b -> json_eqb a b = false.
Proof.
  intros H. destruct (json_eqb a b) eqn:E; [|reflexivity].
  apply json_eqb_eq in E. contradiction.
Qed.

Lemma count_app (x : json) (l m : list json) :
  count x (l ++ m) = (count x l + count x m)%nat.
Proof. unfold count. now rewrite filter_app, length_app. Qed.

Lemma count_In (x : json) (l : list json) : (0 < count x l)%nat <-> In x l.
Proof.
  unfold count. induction l as [|y l IH]; simpl.
  - split; [lia | tauto].
  - destruct (json_eqb x y) eqn:E; simpl.
    + apply json_eqb_eq in E. subst. split; [auto | lia].
    + rewrite IH. split; [auto | intros [->|]; [|assumption]].
      rewrite json_eqb_refl in E. discriminate.
Qed.

(* ------------------------------------------------------------------ *)
(** * Facts about [request.args] *)

Import Werkzeug.

Lemma get_getlist (d : MultiDict) (key : string) :
  get d key = hd_error (getlist d key).
Proof.
  induction d as [|[k v] d IH]; simpl; [reflexivity|].
  destruct (String.eqb k key); [reflexivity | exact IH].
Qed.

Lemma seen_cons (k k0 : string) (keys : list string) :
  seen k (k0 :: keys) = (String.eqb k k0 || seen k keys)%bool.
Proof. reflexivity. Qed.

(** [items] visits a pair [(k, v)] once when [v] is the first value of
    [k], and never otherwise. *)
Lemma count_pair_items_from (k v : string) (d : MultiDict) (keys : list string) :
  count_pair k v (items_from keys d) =
  if seen k keys then 0%nat
  else match get d k with
       | Some v' => if String.eqb v' v then 1%nat else 0%nat
       | None => 0%nat
       end.
Proof.
  revert keys. induction d as [|[k0 v0] d IH]; intros keys; simpl.
  - now destruct (seen k keys).
  - destruct (seen k0 keys) eqn:Hk0.
    + rewrite IH. destruct (String.eqb k0 k) eqn:E; [|reflexivity].
      apply String.eqb_eq in E. subst. now rewrite Hk0.
    + unfold count_pair in *. simpl. rewrite (String.eqb_sym k0 k) in *.
      destruct (String.eqb k k0) eqn:E; simpl.
      * apply String.eqb_eq in E. subst k0. rewrite Hk0.
        specialize (IH (k :: keys)). rewrite seen_cons, String.eqb_refl in IH.
        simpl in IH.
        destruct (String.eqb v0 v); simpl; now rewrite IH.
      * specialize (IH (k0 :: keys)). rewrite seen_cons, E in IH. exact IH.
Qed.

Lemma count_pair_items (k v : string) (d : MultiDict) :
  count_pair k v (items d) =
  match get d k with
  | Some v' => if String.eqb v' v then 1%nat else 0%nat
  | None => 0%nat
  end.
Proof. unfold items. now rewrite count_pair_items_from. Qed.

Lemma items_from_keys (k : string) (d : MultiDict) (keys : list string) :
  In k (map fst (items_from keys d)) -> seen k keys = false.
Proof.
  revert keys. induction d as [|[k0 v0] d IH]; intros keys; simpl; [tauto|].
  destruct (seen k0 keys) eqn:Hk0; [apply IH|].
  simpl. intros [->|H]; [assumption|].
  apply IH in H. rewrite seen_cons in H. now apply orb_false_iff in H.
Qed.

(** No key comes twice out of [items]. *)
Lemma items_from_NoDup (d : MultiDict) (keys : list string) :
  NoDup (map fst (items_from keys d)).
Proof.
  revert keys. induction d as [|[k0 v0] d IH]; intros keys; simpl; [constructor|].
  destruct (seen k0 keys) eqn:Hk0; [apply IH|].
  simpl. constructor; [|apply IH].
  intros H. apply items_from_keys in H.
  rewrite seen_cons, String.eqb_refl in H. discriminate.
Qed.

Lemma items_NoDup (d : MultiDict) : NoDup (map fst (items d)).
Proof. apply items_from_NoDup. Qed.

(* ------------------------------------------------------------------ *)
(** * Facts about strings *)

Lemma prefix_slice (p s : string) :
  String.prefix p s = true -> s = (p ++ Py.slice_from (String.length p) s)%string.
Proof.
  revert s. induction p as [|a p IH]; intros s; simpl.
  - now destruct s.
  - destruct s as [|b s]; simpl; [discriminate|].
    destruct (ascii_dec a b) as [->|]; [|discriminate].
    intros H. f_equal. now apply IH.
Qed.

Lemma attr_key_name (key name : string) :
  Py.startswith key "attr_" = true ->
  String.eqb name (Py.slice_from 5 key) = String.eqb key ("attr_" ++ name)%string.
Proof.
  intros H. apply prefix_slice in H. simpl String.length in H.
  destruct (String.eqb key ("attr_" ++ name)%string) eqn:E.
  - apply String.eqb_eq in E. subst key. apply String.eqb_refl.
  - apply String.eqb_neq. intros ->. apply String.eqb_neq in E. now apply E.
Qed.

Lemma attr_key_startswith (name : string) :
  Py.startswith ("attr_" ++ name)%string "attr_" = true.
Proof. destruct name; reflexivity. Qed.

(* ------------------------------------------------------------------ *)
(** * Facts about the filter lists *)

Lemma attrs_of_cons (k v : string) (l : list (string * string)) :
  attrs_of ((k, v) :: l) =
  if Py.startswith k "attr_"
  then SearchApi.attr_filter (Py.slice_from 5 k) v :: attrs_of l
  else attrs_of l.
Proof.
  unfold attrs_of, is_attr. cbn [filter fst].
  destruct (Py.startswith k "attr_"); reflexivity.
Qed.

Lemma fold_attr_step (l : list (string * string)) (init : list json) :
  fold_left SearchApi.attr_step l init = init ++ attrs_of l.
Proof.
  revert init. induction l as [|[k v] l IH]; intros init; cbn [fold_left].
  - unfold attrs_of. simpl. now rewrite app_nil_r.
  - rewrite IH, attrs_of_cons. unfold SearchApi.attr_step.
    destruct (Py.startswith k "attr_"); [|reflexivity].
    now rewrite <- app_assoc.
Qed.

Lemma fold_snoc_map {A : Type} (f : A -> json) (l : list A) (init : list json) :
  fold_left (fun filters x => filters ++ [f x]) l init = init ++ map f l.
Proof.
  revert init. induction l as [|x l IH]; intros init; simpl.
  - now rewrite app_nil_r.
  - now rewrite IH, <- app_assoc.
Qed.

Lemma attr_filter_eqb (n v n' v' : string) :
  json_eqb (SearchApi.attr_filter n v) (SearchApi.attr_filter n' v')
  = (String.eqb n n' && String.eqb v v')%bool.
Proof.
  unfold SearchApi.attr_filter. cbn.
  now rewrite !andb_true_r.
Qed.

Lemma attr_filter_inj (n v n' v' : string) :
  SearchApi.attr_filter n v = SearchApi.attr_filter n' v' -> n = n' /\ v = v'.
Proof. intros [= -> ->]. auto. Qed.

(** Counting a nested predicate among those of the loop is counting the
    pair it comes from. *)
Lemma count_attrs_of (name value : string) (l : list (string * string)) :
  count (SearchApi.attr_filter name value) (attrs_of l)
  = count_pair ("attr_" ++ name)%string value l.
Proof.
  induction l as [|[k v] l IH]; [reflexivity|].
  rewrite attrs_of_cons. unfold count_pair in *. cbn [filter fst snd].
  destruct (Py.startswith k "attr_") eqn:Hk.
  - unfold count in *. cbn [filter].
    rewrite attr_filter_eqb, (attr_key_name k name Hk), (String.eqb_sym value v).
    destruct (String.eqb k ("attr_" ++ name)%string && String.eqb v value)%bool;
      cbn [List.length]; now rewrite IH.
  - destruct (String.eqb k ("attr_" ++ name)%string) eqn:E; [|exact IH].
    apply String.eqb_eq in E. subst k. rewrite attr_key_startswith in Hk. discriminate.
Qed.

Lemma attrs_of_nested (l : list (string * string)) :
  filter is_nested (attrs_of l) = attrs_of l.
Proof.
  induction l as [|[k v] l IH]; [reflexivity|].
  rewrite attrs_of_cons. destruct (Py.startswith k "attr_"); [|exact IH].
  cbn [filter]. unfold SearchApi.attr_filter at 1. cbn [is_nested].
  rewrite String.eqb_refl. now rewrite IH.
Qed.

Lemma attrs_of_In (x : json) (l : list (string * string)) :
  In x (attrs_of l) -> exists n v, x = SearchApi.attr_filter n v.
Proof.
  unfold attrs_of. rewrite in_map_iff. intros [[k v] [<- _]]. eauto.
Qed.

(* ------------------------------------------------------------------ *)
(** * The shape of the request bodies *)

(** What the section [# --- Sort ---] of [search] adds to the body. *)
Lemma search_sort_app (q sort_by : string) (filters : list json) :
  SearchApi.search_sort q sort_by (SearchApi.search_query q filters) =
  SearchApi.search_query q filters ++
  (if (negb (Py.truthy q) && String.eqb sort_by "relevance")%bool
   then [("sort", newest_first)]
   else if negb (String.eqb sort_by "relevance")
        then [("sort", SearchApi.sort_option sort_by)]
        else []).
Proof.
  unfold SearchApi.search_sort, SearchApi.search_query.
  destruct (Py.truthy q), (String.eqb sort_by "relevance"); reflexivity.
Qed.

(** The keys of the body after the query and the sort. *)
Lemma search_body_tail (args : MultiDict) :
  exists head : list (string * json),
    head = SearchApi.search_sort (SearchApi.query_text args)
             (get_or args "sort" "relevance")
             (SearchApi.search_query (SearchApi.query_text args)
                                     (SearchApi.search_filters args)) /\
    SearchApi.search_body args =
    head ++ [("from", JInt ((SearchApi.page_of args - 1) * SearchApi.size_of args));
             ("size", JInt (SearchApi.size_of args));
             ("highlight", SearchApi.highlight);
             ("aggs", SearchApi.aggs);
             ("_source", JDict [("excludes", JList [JStr "product_embedding"])])] /\
    Dict.lookup "from" head = None /\ Dict.lookup "size" head = None.
Proof.
  eexists. split; [reflexivity|].
  unfold SearchApi.search_body.
  generalize (SearchApi.page_of args) (SearchApi.size_of args)
             (SearchApi.search_filters args) (get_or args "sort" "relevance").
  intros page size filters sort_by.
  rewrite search_sort_app. unfold SearchApi.search_query.
  destruct (Py.truthy (SearchApi.query_text args)),
           (String.eqb sort_by "relevance"); repeat split; reflexivity.
Qed.

Lemma lookup_app_r (key : string) (l m : list (string * json)) :
  Dict.lookup key l = None -> Dict.lookup key (l ++ m) = Dict.lookup key m.
Proof.
  induction l as [|[k v] l IH]; simpl; [reflexivity|].
  destruct (String.eqb k key); [discriminate | exact IH].
Qed.

Lemma search_body_from (args : MultiDict) :
  Dict.lookup "from" (SearchApi.search_body args)
  = Some (JInt ((SearchApi.page_of args - 1) * SearchApi.size_of args)).
Proof.
  destruct (search_body_tail args) as (head & _ & -> & Hf & _).
  now rewrite lookup_app_r.
Qed.

Lemma search_body_size (args : MultiDict) :
  Dict.lookup "size" (SearchApi.search_body args) = Some (JInt (SearchApi.size_of args)).
Proof.
  destruct (search_body_tail args) as (head & _ & -> & _ & Hs).
  now rewrite lookup_app_r.
Qed.

Lemma product_body_from (args : MultiDict) :
  Dict.lookup "from" (CatalogSearch.product_body args)
  = Some (JInt ((CatalogSearch.page_of args - 1) * CatalogSearch.size_of args)).
Proof. reflexivity. Qed.

Lemma product_body_size (args : MultiDict) :
  Dict.lookup "size" (CatalogSearch.product_body args)
  = Some (JInt (CatalogSearch.size_of args)).
Proof. reflexivity. Qed.

(** The two services resolve page and size in the same way. *)
Lemma size_of_same (args : MultiDict) :
  CatalogSearch.size_of args = SearchApi.size_of args.
Proof. reflexivity. Qed.

Lemma page_of_same (args : MultiDict) :
  CatalogSearch.page_of args = SearchApi.page_of args.
Proof. reflexivity. Qed.

(** The size a request asks for: its first [size] value when [int]
    accepts it. *)
Lemma size_of_requested (args : MultiDict) (v : string) (n : Z) :
  get args "size" = Some v -> Py.int v = Some n ->
  SearchApi.size_of args = Z.min n 100.
Proof.
  intros Hg Hi. unfold SearchApi.size_of, get_as_or, get_as. now rewrite Hg, Hi.
Qed.

Lemma size_of_absent (args : MultiDict) :
  get args "size" = None -> SearchApi.size_of args = 20.
Proof.
  intros Hg. unfold SearchApi.size_of, get_as_or, get_as. now rewrite Hg.
Qed.

Lemma page_of_requested (args : MultiDict) (v : string) (n : Z) :
  get args "page" = Some v -> Py.int v = Some n -> SearchApi.page_of args = n.
Proof.
  intros Hg Hi. unfold SearchApi.page_of, get_as_or, get_as. now rewrite Hg, Hi.
Qed.

Lemma page_of_absent (args : MultiDict) :
  get args "page" = None -> SearchApi.page_of args = 1.
Proof.
  intros Hg. unfold SearchApi.page_of, get_as_or, get_as. now rewrite Hg.
Qed.

Lemma search_plan_filters (args : MultiDict) :
  plan_filters (SearchApi.search_body args) = Some (SearchApi.search_filters args).
Proof.
  destruct (search_body_tail args) as (head & Hh & -> & _).
  subst head. rewrite search_sort_app. unfold SearchApi.search_query.
  destruct (Py.truthy (SearchApi.query_text args)); reflexivity.
Qed.

Lemma product_plan_filters (args : MultiDict) :
  plan_filters (CatalogSearch.product_body args)
  = Some (CatalogSearch.product_filters args).
Proof. reflexivity. Qed.

(** The filters of [search]: those of the fixed parameters, then the
    nested predicates of the attribute parameters. *)
Lemma search_filters_split (args : MultiDict) :
  exists pre : list json,
    SearchApi.search_filters args = pre ++ attrs_of (items args) /\
    Forall (fun f => is_nested f = false /\ mentions "knn" f = false
                     /\ mentions "rrf" f = false /\ mentions "rank" f = false) pre /\
    (In stock_quantity_filter pre <-> get args "in_stock" = Some "true").
Proof.
  unfold SearchApi.search_filters. rewrite fold_attr_step.
  eexists. split; [reflexivity|].
  destruct (get_as args "category_id" Py.int) as [c|];
    destruct (get args "status") as [s|]; [destruct (Py.truthy s)| |destruct (Py.truthy s)|];
    destruct (get_as args "min_price" Py.float) as [lo|];
    destruct (get_as args "max_price" Py.float) as [hi|];
    (destruct (get args "in_stock") as [st|];
     [destruct (String.eqb st "true") eqn:E;
      [apply String.eqb_eq in E; subst st|apply String.eqb_neq in E]|]);
    (split; [repeat constructor|]);
    cbn [app In]; unfold stock_quantity_filter;
    (split; [intros H; repeat (destruct H as [H|H]; try discriminate H);
             solve [reflexivity | contradiction]
            | intros H; first [ injection H as H; contradiction
                              | discriminate H
                              | tauto ]]).
Qed.

Lemma attrs_of_plain (l : list (string * string)) :
  Forall (fun f => mentions "knn" f = false /\ mentions "rrf" f = false
                   /\ mentions "rank" f = false /\ f <> stock_quantity_filter)
         (attrs_of l).
Proof.
  apply Forall_forall. intros x Hx.
  apply attrs_of_In in Hx as (n & v & ->).
  repeat split; discriminate.
Qed.

(** The filters of [product_search]: the stock predicate when asked for,
    then predicates that are not the stock predicate. *)
Lemma product_filters_split (args : MultiDict) :
  exists rest : list json,
    CatalogSearch.product_filters args =
    (if CatalogSearch.in_stock_of args then [stock_level_filter] else []) ++ rest /\
    Forall (fun f => f <> stock_level_filter /\ mentions "knn" f = false
                     /\ mentions "rrf" f = false /\ mentions "rank" f = false) rest.
Proof.
  unfold CatalogSearch.product_filters. rewrite !fold_snoc_map.
  set (cats := map _ (getlist args "category")).
  set (tags := map _ (getlist args "tag")).
  assert (Hc : Forall (fun f => f <> stock_level_filter /\ mentions "knn" f = false
                     /\ mentions "rrf" f = false /\ mentions "rank" f = false) cats).
  { apply Forall_forall. intros x Hx. apply in_map_iff in Hx as (c & <- & _).
    repeat split; discriminate. }
  assert (Ht : Forall (fun f => f <> stock_level_filter /\ mentions "knn" f = false
                     /\ mentions "rrf" f = false /\ mentions "rank" f = false) tags).
  { apply Forall_forall. intros x Hx. apply in_map_iff in Hx as (c & <- & _).
    repeat split; discriminate. }
  clearbody cats tags.
  exists ((cats ++ tags)
          ++ match get_as args "min_price" Py.float with
             | Some p => [JDict [("range", JDict [("price", JDict [("gte", JFloat p)])])]]
             | None => []
             end
          ++ match get_as args "max_price" Py.float with
             | Some p => [JDict [("range", JDict [("price", JDict [("lte", JFloat p)])])]]
             | None => []
             end
          ++ match get_as args "lat" Py.float, get_as args "lon" Py.float with
             | Some la, Some lo =>
                 [JDict [("geo_distance",
                    JDict [("distance", JStr (get_or args "distance" "50km"));
                           ("location", JDict [("lat", JFloat la); ("lon", JFloat lo)])])]]
             | _, _ => []
             end).
  split.
  - destruct (CatalogSearch.in_stock_of args),
             (get_as args "min_price" Py.float),
             (get_as args "max_price" Py.float),
             (get_as args "lat" Py.float),
             (get_as args "lon" Py.float);
      cbn [app]; rewrite <- ?app_assoc, ?app_nil_r; reflexivity.
  - apply Forall_app. split; [apply Forall_app; split; assumption|].
    apply Forall_app. split.
    { destruct (get_as args "min_price" Py.float); repeat constructor; discriminate. }
    apply Forall_app. split.
    { destruct (get_as args "max_price" Py.float); repeat constructor; discriminate. }
    destruct (get_as args "lat" Py.float), (get_as args "lon" Py.float);
      repeat constructor; discriminate.
Qed.

Lemma in_stock_of_absent (args : MultiDict) :
  get args "in_stock" = None -> CatalogSearch.in_stock_of args = true.
Proof.
  intros H. unfold CatalogSearch.in_stock_of, get_or. now rewrite H.
Qed.

Lemma in_stock_of_given (args : MultiDict) (v : string) :
  get args "in_stock" = Some v ->
  CatalogSearch.in_stock_of args = String.eqb (Py.lower v) "true".
Proof.
  intros H. unfold CatalogSearch.in_stock_of, get_or. now rewrite H.
Qed.

Lemma product_stock_filter (args : MultiDict) :
  In stock_level_filter (CatalogSearch.product_filters args)
  <-> CatalogSearch.in_stock_of args = true.
Proof.
  destruct (product_filters_split args) as (rest & -> & Hrest).
  rewrite Forall_forall in Hrest.
  destruct (CatalogSearch.in_stock_of args); cbn [app].
  - split; [reflexivity | intros _; now left].
  - split; [|discriminate]. intros H. apply Hrest in H. now destruct H.
Qed.

Lemma search_stock_filter (args : MultiDict) :
  In stock_quantity_filter (SearchApi.search_filters args)
  <-> get args "in_stock" = Some "true".
Proof.
  destruct (search_filters_split args) as (pre & -> & _ & Hpre).
  rewrite in_app_iff, Hpre. split; [|auto].
  intros [H|H]; [assumption|].
  pose proof (attrs_of_plain (items args)) as Ha.
  rewrite Forall_forall in Ha. apply Ha in H. now destruct H as (_ & _ & _ & H).
Qed.

(* ------------------------------------------------------------------ *)
(** * Page size and page number *)

(** C1, as stated, fails: a requested size of 0 is used as it is by both
    services; it is not raised to 1, and the plan asks for 0 hits. *)
Lemma C1_size_below_one_is_kept :
  get [("size", "0")] "size" = Some "0" /\
  SearchApi.size_of [("size", "0")] = 0 /\
  CatalogSearch.size_of [("size", "0")] = 0 /\
  Dict.lookup "size" (SearchApi.search_body [("size", "0")]) = Some (JInt 0) /\
  Dict.lookup "size" (CatalogSearch.product_body [("size", "0")]) = Some (JInt 0) /\
  ~ (1 <= SearchApi.size_of [("size", "0")] <= 100).
Proof.
  repeat split; try reflexivity.
  intros [H _]. vm_compute in H. now apply H.
Qed.

(** C1, amended: in both services the page size of the plan is never
    above 100; a request without a size (or with one that is not an
    integer) gets 20; a size above 100 becomes exactly 100; a size in
    [1,100] is used as it is.  So the page size lies in [1,100] whenever
    the requested size is at least 1 or absent. *)
Theorem C1_page_size_capped_at_100 (args : MultiDict) :
  CatalogSearch.size_of args = SearchApi.size_of args /\
  Dict.lookup "size" (SearchApi.search_body args)
    = Some (JInt (SearchApi.size_of args)) /\
  Dict.lookup "size" (CatalogSearch.product_body args)
    = Some (JInt (SearchApi.size_of args)) /\
  SearchApi.size_of args <= 100 /\
  (get args "size" = None -> SearchApi.size_of args = 20) /\
  (forall v, get args "size" = Some v -> Py.int v = None ->
             SearchApi.size_of args = 20) /\
  (forall v n, get args "size" = Some v -> Py.int v = Some n ->
               100 < n -> SearchApi.size_of args = 100) /\
  (forall v n, get args "size" = Some v -> Py.int v = Some n ->
               1 <= n <= 100 -> SearchApi.size_of args = n) /\
  (forall v n, get args "size" = Some v -> Py.int v = Some n ->
               1 <= n -> 1 <= SearchApi.size_of args <= 100).
Proof.
  split; [reflexivity|].
  split; [apply search_body_size|].
  split; [apply product_body_size|].
  split; [unfold SearchApi.size_of; apply Z.le_min_r|].
  split; [apply size_of_absent|].
  split.
  { intros v Hg Hi. unfold SearchApi.size_of, get_as_or, get_as.
    now rewrite Hg, Hi. }
  split; [|split]; intros v n Hg Hi Hn;
    rewrite (size_of_requested args v n Hg Hi); lia.
Qed.

Lemma C1_page_size_capped_witness :
  SearchApi.size_of [("size", "500")] = 100 /\
  SearchApi.size_of [("q", "boots")] = 20 /\
  SearchApi.size_of [("size", "35")] = 35.
Proof.
  split; [|split].
  - destruct (C1_page_size_capped_at_100 [("size", "500")])
      as (_ & _ & _ & _ & _ & _ & H & _).
    apply (H "500" 500); [reflexivity | reflexivity | lia].
  - destruct (C1_page_size_capped_at_100 [("q", "boots")])
      as (_ & _ & _ & _ & H & _).
    apply H. reflexivity.
  - destruct (C1_page_size_capped_at_100 [("size", "35")])
      as (_ & _ & _ & _ & _ & _ & _ & H & _).
    apply (H "35" 35); [reflexivity | reflexivity | lia].
Defined.

(** C2, as stated, fails: a requested page of 0 is used as it is, and the
    offset of the plan is then minus one page. *)
Lemma C2_page_zero_is_kept :
  get [("page", "0")] "page" = Some "0" /\
  SearchApi.page_of [("page", "0")] = 0 /\
  CatalogSearch.page_of [("page", "0")] = 0 /\
  Dict.lookup "from" (SearchApi.search_body [("page", "0")]) = Some (JInt (-20)) /\
  Dict.lookup "from" (CatalogSearch.product_body [("page", "0")]) = Some (JInt (-20)) /\
  SearchApi.page_of [("page", "0")] <> 1.
Proof. repeat split; try reflexivity. discriminate. Qed.

(** C2, amended: in both services the offset of the plan is
    (page - 1) * size, for the page and the size that the handler
    resolved; a request without a page (or with one that is not an
    integer) gets page 1 and offset 0; a requested page of at least 1 is
    used as it is. *)
Theorem C2_offset_is_page_minus_one_times_size (args : MultiDict) :
  CatalogSearch.page_of args = SearchApi.page_of args /\
  Dict.lookup "from" (SearchApi.search_body args)
    = Some (JInt ((SearchApi.page_of args - 1) * SearchApi.size_of args)) /\
  Dict.lookup "from" (CatalogSearch.product_body args)
    = Some (JInt ((SearchApi.page_of args - 1) * SearchApi.size_of args)) /\
  (get args "page" = None ->
     SearchApi.page_of args = 1 /\
     Dict.lookup "from" (SearchApi.search_body args) = Some (JInt 0) /\
     Dict.lookup "from" (CatalogSearch.product_body args) = Some (JInt 0)) /\
  (forall v, get args "page" = Some v -> Py.int v = None ->
     SearchApi.page_of args = 1 /\
     Dict.lookup "from" (SearchApi.search_body args) = Some (JInt 0) /\
     Dict.lookup "from" (CatalogSearch.product_body args) = Some (JInt 0)) /\
  (forall v n, get args "page" = Some v -> Py.int v = Some n -> 1 <= n ->
     SearchApi.page_of args = n).
Proof.
  assert (H1 : SearchApi.page_of args = 1 ->
     SearchApi.page_of args = 1 /\
     Dict.lookup "from" (SearchApi.search_body args) = Some (JInt 0) /\
     Dict.lookup "from" (CatalogSearch.product_body args) = Some (JInt 0)).
  { intros H. pose proof (page_of_same args) as E. rewrite H in E.
    rewrite search_body_from, product_body_from, E, H. auto. }
  split; [reflexivity|].
  split; [apply search_body_from|].
  split; [apply product_body_from|].
  split; [intros Hg; apply H1, page_of_absent, Hg|].
  split; [|intros v n Hg Hi _; apply (page_of_requested args v n Hg Hi)].
  intros v Hg Hi. apply H1. unfold SearchApi.page_of, get_as_or, get_as.
  now rewrite Hg, Hi.
Qed.

Lemma C2_offset_witness :
  Dict.lookup "from" (SearchApi.search_body [("size", "30")]) = Some (JInt 0) /\
  SearchApi.page_of [("page", "3")] = 3.
Proof.
  split.
  - destruct (C2_offset_is_page_minus_one_times_size [("size", "30")])
      as (_ & _ & _ & H & _).
    apply H. reflexivity.
  - destruct (C2_offset_is_page_minus_one_times_size [("page", "3")])
      as (_ & _ & _ & _ & _ & H).
    apply (H "3" 3); [reflexivity | reflexivity | lia].
Defined.

(* ------------------------------------------------------------------ *)
(** * The stock filter *)

(** C3, as stated, fails: [search] of [search_api.py] filters on stock
    only when asked to; a request that says nothing about stock gets no
    stock predicate. *)
Lemma C3_search_api_has_no_default_stock_filter :
  get [("q", "boots")] "in_stock" = None /\
  SearchApi.search_filters [("q", "boots")] = [] /\
  plan_filters (SearchApi.search_body [("q", "boots")]) = Some [] /\
  ~ In stock_quantity_filter (SearchApi.search_filters [("q", "boots")]).
Proof. repeat split; try reflexivity. intros []. Qed.

(** C3, amended: in [product_search] of [catalog_search.py] the filter
    list of the plan contains the predicate stock_level > 0 when the
    request has no [in_stock] parameter, and otherwise exactly when the
    first [in_stock] value is "true" in any letter case; any other value
    opts out.  In [search] of [search_api.py] the filter is opt-in: the
    predicate stock_quantity > 0 is in the filter list exactly when the
    first [in_stock] value is "true". *)
Theorem C3_stock_filter_default_and_opt_out (args : MultiDict) :
  plan_filters (CatalogSearch.product_body args)
    = Some (CatalogSearch.product_filters args) /\
  (get args "in_stock" = None ->
     In stock_level_filter (CatalogSearch.product_filters args)) /\
  (forall v, get args "in_stock" = Some v ->
     (In stock_level_filter (CatalogSearch.product_filters args)
      <-> Py.lower v = "true")) /\
  plan_filters (SearchApi.search_body args)
    = Some (SearchApi.search_filters args) /\
  (In stock_quantity_filter (SearchApi.search_filters args)
   <-> get args "in_stock" = Some "true").
Proof.
  split; [apply product_plan_filters|].
  split.
  { intros H. apply product_stock_filter, in_stock_of_absent, H. }
  split.
  { intros v H. rewrite product_stock_filter, (in_stock_of_given args v H).
    apply String.eqb_eq. }
  split; [apply search_plan_filters | apply search_stock_filter].
Qed.

Lemma C3_stock_filter_witness :
  In stock_level_filter (CatalogSearch.product_filters [("q", "boots")]) /\
  ~ In stock_level_filter
       (CatalogSearch.product_filters [("q", "boots"); ("in_stock", "false")]).
Proof.
  split.
  - destruct (C3_stock_filter_default_and_opt_out [("q", "boots")]) as (_ & H & _).
    apply H. reflexivity.
  - destruct (C3_stock_filter_default_and_opt_out
                [("q", "boots"); ("in_stock", "false")]) as (_ & _ & H & _).
    intros Hin. apply (H "false") in Hin; [discriminate Hin | reflexivity].
Defined.

(* ------------------------------------------------------------------ *)
(** * Browse mode *)

Lemma search_browse_query (args : MultiDict) :
  SearchApi.query_text args = "" ->
  exists sort_entry : list (string * json),
    SearchApi.search_body args =
    [("query",
       JDict [("bool",
         JDict [("must", JList [match_all]);
                ("filter", JList (SearchApi.search_filters args))])])]
    ++ sort_entry
    ++ [("from", JInt ((SearchApi.page_of args - 1) * SearchApi.size_of args));
        ("size", JInt (SearchApi.size_of args));
        ("highlight", SearchApi.highlight);
        ("aggs", SearchApi.aggs);
        ("_source", JDict [("excludes", JList [JStr "product_embedding"])])] /\
    sort_entry =
      if String.eqb (get_or args "sort" "relevance") "relevance"
      then [("sort", newest_first)]
      else [("sort", SearchApi.sort_option (get_or args "sort" "relevance"))].
Proof.
  intros Hq.
  destruct (search_body_tail args) as (head & Hh & -> & _).
  subst head. rewrite search_sort_app, Hq.
  unfold SearchApi.search_query. cbn [Py.truthy negb andb].
  eexists. split; [|reflexivity].
  destruct (String.eqb (get_or args "sort" "relevance") "relevance"); reflexivity.
Qed.

(** C4, as stated, fails: [product_search] of [catalog_search.py] has no
    creation-time sort; in browse mode with no sort chosen its plan sorts
    by score, then stock level. *)
Lemma C4_catalog_browse_is_not_newest_first :
  get_or [] "q" "" = "" /\
  get [] "sort" = None /\
  Dict.lookup "sort" (CatalogSearch.product_body []) = Some score_then_stock /\
  Dict.lookup "sort" (CatalogSearch.product_body []) <> Some newest_first.
Proof. repeat split; try reflexivity. discriminate. Qed.

(** C4, amended: in [search] of [search_api.py], when the query text is
    empty after stripping and the sort is absent or "relevance", the plan
    sorts by [created_at] descending and its must-clause is the single
    clause [match_all].  In [product_search] of [catalog_search.py], when
    the query text is empty the must-clause is the single clause
    [match_all]; with the sort absent or "relevance" the plan sorts by
    score, then stock level. *)
Theorem C4_browse_mode_sort_and_must (args : MultiDict) :
  (SearchApi.query_text args = "" ->
   get_or args "sort" "relevance" = "relevance" ->
   Dict.lookup "sort" (SearchApi.search_body args) = Some newest_first /\
   plan_must (SearchApi.search_body args) = Some [match_all]) /\
  (SearchApi.query_text args = "" ->
   plan_must (SearchApi.search_body args) = Some [match_all]) /\
  (get_or args "q" "" = "" ->
   plan_must (CatalogSearch.product_body args) = Some [match_all]) /\
  (get_or args "sort" "relevance" = "relevance" ->
   Dict.lookup "sort" (CatalogSearch.product_body args) = Some score_then_stock).
Proof.
  assert (Hmust : SearchApi.query_text args = "" ->
                  plan_must (SearchApi.search_body args) = Some [match_all]).
  { intros Hq. destruct (search_browse_query args Hq) as (se & -> & _). reflexivity. }
  split; [|split; [exact Hmust|split]].
  - intros Hq Hs. split; [|exact (Hmust Hq)].
    destruct (search_browse_query args Hq) as (se & -> & ->).
    rewrite Hs. reflexivity.
  - intros Hq. unfold plan_must, plan_clause, CatalogSearch.product_body.
    rewrite Hq. reflexivity.
  - intros Hs. unfold CatalogSearch.product_body.
    cbn [Dict.lookup String.eqb Ascii.eqb Bool.eqb].
    unfold CatalogSearch.product_sort. rewrite Hs. reflexivity.
Qed.

Lemma C4_browse_mode_witness :
  Dict.lookup "sort"
    (SearchApi.search_body [("q", ""); ("min_price", "25"); ("max_price", "50")])
  = Some newest_first /\
  plan_must
    (SearchApi.search_body [("q", ""); ("min_price", "25"); ("max_price", "50")])
  = Some [match_all].
Proof.
  destruct (C4_browse_mode_sort_and_must
              [("q", ""); ("min_price", "25"); ("max_price", "50")]) as (H & _).
  apply H; reflexivity.
Defined.

(* ------------------------------------------------------------------ *)
(** * Autocomplete and spelling suggestions: the short circuit *)

(** [autocomplete] and [suggest] of [search_api.py] answer an empty text
    themselves: no call reaches the engine. *)
Lemma search_api_autocomplete_short_circuit (args : MultiDict) (es : Engine) :
  Py.strip (get_or args "q" "") = "" ->
  SearchApi.autocomplete args es = (Ok (JDict [("suggestions", JList [])]), []).
Proof. intros H. unfold SearchApi.autocomplete. now rewrite H. Qed.

Lemma search_api_suggest_short_circuit (args : MultiDict) (es : Engine) :
  Py.strip (get_or args "q" "") = "" ->
  SearchApi.suggest args es = (Ok (JDict [("suggestions", JList [])]), []).
Proof. intros H. unfold SearchApi.suggest. now rewrite H. Qed.

(** A missing [q] is an empty text. *)
Lemma missing_q_is_empty (args : MultiDict) :
  get args "q" = None -> Py.strip (get_or args "q" "") = "".
Proof. intros H. unfold get_or. now rewrite H. Qed.

(** The plan is what reaches the engine: each search handler makes one
    call, with its request body. *)
Lemma search_calls (args : MultiDict) (es : Engine) :
  snd (SearchApi.search args es) =
  [{| call_index := "products"; call_body := JDict (SearchApi.search_body args) |}].
Proof.
  unfold SearchApi.search, bind, es_search, lift, jsonify, ret.
  destruct (es SearchApi.ALIAS _) as [resp|e]; [|reflexivity].
  destruct (SearchApi.search_response _ _ resp); reflexivity.
Qed.

Lemma product_search_calls (args : MultiDict) (es : Engine) :
  snd (CatalogSearch.product_search args es) =
  [{| call_index := "products"; call_body := JDict (CatalogSearch.product_body args) |}].
Proof.
  unfold CatalogSearch.product_search, bind, es_search, lift, jsonify, ret.
  destruct (es CatalogSearch.INDEX _) as [resp|e]; [|reflexivity].
  destruct (CatalogSearch.product_response _ _ _ resp); reflexivity.
Qed.

(** [autocomplete] of [catalog_search.py] always calls the engine, once,
    with the prefix it was given. *)
Lemma catalog_autocomplete_calls (args : MultiDict) (es : Engine) :
  snd (CatalogSearch.autocomplete args es) =
  [{| call_index := "products";
      call_body := CatalogSearch.autocomplete_body (get_or args "q" "") |}].
Proof.
  unfold CatalogSearch.autocomplete, bind, es_search, lift, jsonify, ret.
  destruct (es CatalogSearch.INDEX _) as [resp|e]; [|reflexivity].
  destruct (rbind (suggest_options resp "product-suggest") _); reflexivity.
Qed.

(** C5: evaluation of the code at the failing input.  [autocomplete] of
    [catalog_search.py], given a request without [q], sends the engine a
    completion request with the empty prefix, whatever the engine is;
    with an engine that answers with no options the response is the
    empty suggestion list, but the call has been made. *)
Theorem C5_catalog_autocomplete_calls_engine_on_empty_prefix (es : Engine) :
  get [] "q" = None /\
  snd (CatalogSearch.autocomplete [] es) =
    [{| call_index := "products"; call_body := CatalogSearch.autocomplete_body "" |}] /\
  snd (CatalogSearch.autocomplete [("q", "")] es) =
    [{| call_index := "products"; call_body := CatalogSearch.autocomplete_body "" |}] /\
  snd (CatalogSearch.autocomplete [] es) <> [] /\
  SearchApi.autocomplete [] es = (Ok (JDict [("suggestions", JList [])]), []) /\
  SearchApi.suggest [] es = (Ok (JDict [("suggestions", JList [])]), []).
Proof.
  split; [reflexivity|].
  split; [apply catalog_autocomplete_calls|].
  split; [apply catalog_autocomplete_calls|].
  split; [rewrite catalog_autocomplete_calls; discriminate|].
  split; reflexivity.
Qed.

(* ------------------------------------------------------------------ *)
(** * No vector clause and no rank fusion in browse mode *)

(** The three keys that a vector clause or rank fusion would bring. *)
Ltac each_key H := destruct H as [->|[->| ->]].

Lemma mentions_dict_app (key : string) (l m : list (string * json)) :
  mentions key (JDict (l ++ m)) = (mentions key (JDict l) || mentions key (JDict m))%bool.
Proof. cbn [mentions]. apply existsb_app. Qed.

Lemma mentions_list_false (key : string) (l : list json) :
  Forall (fun f => mentions key f = false) l -> mentions key (JList l) = false.
Proof.
  intros H. cbn [mentions]. induction H as [|x l Hx _ IH]; [reflexivity|].
  cbn [existsb]. now rewrite Hx, IH.
Qed.

Lemma search_sort_option_plain (sort_by : string) :
  mentions "knn" (SearchApi.sort_option sort_by) = false /\
  mentions "rrf" (SearchApi.sort_option sort_by) = false /\
  mentions "rank" (SearchApi.sort_option sort_by) = false.
Proof.
  unfold SearchApi.sort_option, SearchApi.sort_options. cbn [Dict.lookup].
  destruct (String.eqb "relevance" sort_by); [repeat split; reflexivity|].
  destruct (String.eqb "price_asc" sort_by); [repeat split; reflexivity|].
  destruct (String.eqb "price_desc" sort_by); [repeat split; reflexivity|].
  destruct (String.eqb "newest" sort_by); repeat split; reflexivity.
Qed.

Lemma search_filters_plain (args : MultiDict) (key : string) :
  key = "knn" \/ key = "rrf" \/ key = "rank" ->
  mentions key (JList (SearchApi.search_filters args)) = false.
Proof.
  intros Hk. apply mentions_list_false.
  destruct (search_filters_split args) as (pre & -> & Hpre & _).
  pose proof (attrs_of_plain (items args)) as Ha.
  apply Forall_app. split.
  - eapply Forall_impl; [|exact Hpre]. cbv beta.
    intros f (_ & H1 & H2 & H3). each_key Hk; assumption.
  - eapply Forall_impl; [|exact Ha]. cbv beta.
    intros f (H1 & H2 & H3 & _). each_key Hk; assumption.
Qed.

Lemma product_filters_plain (args : MultiDict) (key : string) :
  key = "knn" \/ key = "rrf" \/ key = "rank" ->
  mentions key (JList (CatalogSearch.product_filters args)) = false.
Proof.
  intros Hk. apply mentions_list_false.
  destruct (product_filters_split args) as (rest & -> & Hrest).
  apply Forall_app. split.
  - destruct (CatalogSearch.in_stock_of args); repeat constructor.
    each_key Hk; reflexivity.
  - eapply Forall_impl; [|exact Hrest]. cbv beta.
    intros f (_ & H1 & H2 & H3). each_key Hk; assumption.
Qed.

Lemma search_browse_plain (args : MultiDict) (key : string) :
  key = "knn" \/ key = "rrf" \/ key = "rank" ->
  SearchApi.query_text args = "" ->
  mentions key (JDict (SearchApi.search_body args)) = false.
Proof.
  intros Hk Hq.
  destruct (search_browse_query args Hq) as (se & -> & ->).
  rewrite !mentions_dict_app.
  pose proof (search_filters_plain args key Hk) as Hf.
  pose proof (search_sort_option_plain (get_or args "sort" "relevance"))
    as (S1 & S2 & S3).
  assert (Hs : mentions key (SearchApi.sort_option (get_or args "sort" "relevance"))
               = false)
    by (each_key Hk; assumption).
  apply orb_false_iff. split; [|apply orb_false_iff; split].
  - cbn [mentions existsb fst snd] in Hf |- *. rewrite Hf.
    each_key Hk; reflexivity.
  - destruct (String.eqb (get_or args "sort" "relevance") "relevance").
    + each_key Hk; reflexivity.
    + cbn [mentions existsb fst snd]. rewrite Hs.
      each_key Hk; reflexivity.
  - each_key Hk; reflexivity.
Qed.

Lemma product_sort_plain (args : MultiDict) (key : string) :
  key = "knn" \/ key = "rrf" \/ key = "rank" ->
  mentions key (CatalogSearch.product_sort args) = false.
Proof.
  intros Hk. unfold CatalogSearch.product_sort, CatalogSearch.sort_options.
  generalize (get_or args "sort" "relevance"). intros sort_by.
  cbn [Dict.lookup].
  destruct (String.eqb sort_by "distance");
    [destruct (get_as args "lat" Py.float), (get_as args "lon" Py.float)|];
    destruct (String.eqb "relevance" sort_by), (String.eqb "price_asc" sort_by),
             (String.eqb "price_desc" sort_by), (String.eqb "newest" sort_by);
    each_key Hk; reflexivity.
Qed.

(** The plan of [product_search] never has a vector clause or rank
    fusion, whatever the request. *)
Lemma product_body_plain (args : MultiDict) (key : string) :
  key = "knn" \/ key = "rrf" \/ key = "rank" ->
  mentions key (JDict (CatalogSearch.product_body args)) = false.
Proof.
  intros Hk. unfold CatalogSearch.product_body.
  pose proof (product_filters_plain args key Hk) as Hf.
  pose proof (product_sort_plain args key Hk) as Hs.
  cbn [mentions existsb fst snd] in Hf |- *. rewrite Hf, Hs.
  unfold CatalogSearch.product_must, CatalogSearch.product_suggest.
  destruct (Py.truthy (get_or args "q" "")); each_key Hk; reflexivity.
Qed.

(** C6: when the query text of a request is empty (after stripping, in
    [search] of [search_api.py]), the body handed to the engine has no
    key [knn] and no key [rrf] or [rank] at any depth, and no entry
    ["rank"] at the top; the plan of [product_search] has none either. *)
Theorem C6_browse_plan_has_no_knn_and_no_rrf (args : MultiDict) :
  SearchApi.query_text args = "" ->
  mentions "knn" (JDict (SearchApi.search_body args)) = false /\
  mentions "rrf" (JDict (SearchApi.search_body args)) = false /\
  Dict.lookup "rank" (SearchApi.search_body args) = None /\
  mentions "rank" (JDict (SearchApi.search_body args)) = false /\
  mentions "knn" (JDict (CatalogSearch.product_body args)) = false /\
  mentions "rrf" (JDict (CatalogSearch.product_body args)) = false.
Proof.
  intros Hq.
  split; [apply search_browse_plain; auto|].
  split; [apply search_browse_plain; auto|].
  split.
  { destruct (search_browse_query args Hq) as (se & -> & ->).
    destruct (String.eqb (get_or args "sort" "relevance") "relevance"); reflexivity. }
  split; [apply search_browse_plain; auto|].
  split; apply product_body_plain; auto.
Qed.

Lemma C6_browse_plan_witness :
  SearchApi.query_text [("q", "  "); ("attr_color", "Black")] = "" /\
  mentions "knn" (JDict (SearchApi.search_body [("q", "  "); ("attr_color", "Black")]))
  = false.
Proof.
  split; [reflexivity|].
  apply (C6_browse_plan_has_no_knn_and_no_rrf [("q", "  "); ("attr_color", "Black")]).
  reflexivity.
Defined.

(** With a query text the plan of [search] does carry both. *)
Example search_with_text_has_knn_and_rrf :
  mentions "knn" (JDict (SearchApi.search_body [("q", "boots")])) = true /\
  mentions "rrf" (JDict (SearchApi.search_body [("q", "boots")])) = true.
Proof. split; reflexivity. Qed.

(* ------------------------------------------------------------------ *)
(** * The page count *)

Lemma ceil_div_eq (t s : Z) : 1 <= s -> ceil_div t s = - ((- t) / s).
Proof.
  intros Hs. unfold ceil_div, Qceiling, Qfloor. cbn [Qopp Qnum Qden].
  now rewrite Z2Pos.id by lia.
Qed.

Lemma round_up_div (t s : Z) : 1 <= s -> (t + s - 1) / s = - ((- t) / s).
Proof.
  intros Hs.
  pose proof (Z.div_mod (- t) s ltac:(lia)) as Hdm.
  pose proof (Z.mod_pos_bound (- t) s ltac:(lia)) as Hb.
  symmetry. apply (Z.div_unique_pos _ _ _ (s - 1 - (- t) mod s)); lia.
Qed.

(** C8: for a total of [t >= 0] hits and a page size [s >= 1] the page
    count [(t + s - 1) // s] is computed without error and is the ceiling
    of [t / s]: the least [n] with [t <= s * n].  97 hits in pages of 20
    make 5 pages, and no hit makes no page. *)
Theorem C8_pages_is_ceiling (t s : Z) :
  0 <= t -> 1 <= s ->
  exists n : Z,
    pages t s = Ok n /\
    pages_of (JInt t) s = Ok (JInt n) /\
    n = ceil_div t s /\
    s * (n - 1) < t <= s * n /\
    pages 97 20 = Ok 5 /\
    pages 0 s = Ok 0.
Proof.
  intros Ht Hs. unfold pages_of, pages, Py.floordiv.
  destruct (s =? 0) eqn:E; [apply Z.eqb_eq in E; lia|].
  exists ((t + s - 1) / s).
  split; [reflexivity|].
  split; [reflexivity|].
  split; [now rewrite ceil_div_eq, round_up_div|].
  split.
  { pose proof (Z.div_mod (t + s - 1) s ltac:(lia)) as Hdm.
    pose proof (Z.mod_pos_bound (t + s - 1) s ltac:(lia)) as Hb.
    nia. }
  split; [reflexivity|].
  f_equal. apply Z.div_small. lia.
Qed.

Lemma C8_pages_witness :
  exists n : Z, pages 41 20 = Ok n /\ n = ceil_div 41 20 /\ 20 * (n - 1) < 41 <= 20 * n.
Proof.
  destruct (C8_pages_is_ceiling 41 20) as (n & H1 & _ & H2 & H3 & _); [lia | lia |].
  exists n. auto.
Defined.

(* ------------------------------------------------------------------ *)
(** * The spelling suggester of [product_search] *)

Lemma truthy_nonempty (q : string) : Py.truthy q = true <-> q <> "".
Proof. destruct q; simpl; split; (congruence || discriminate || auto). Qed.

Lemma mem_lookup (key : string) (kvs : list (string * json)) :
  Dict.mem key kvs = match Dict.lookup key kvs with Some _ => true | None => false end.
Proof.
  unfold Dict.mem. induction kvs as [|[k v] kvs IH]; [reflexivity|].
  cbn [existsb Dict.lookup fst]. destruct (String.eqb k key); [reflexivity | exact IH].
Qed.

Lemma spelling_request_attached (q : string) :
  spelling_request q <> JDict [].
Proof. discriminate. Qed.

(** C9: the plan of [product_search] carries the phrase suggester
    (field [name], size 3, gram size 3, one direct generator on [name]
    in mode "popular", for the query text) exactly when the query text
    is not empty, and carries the empty dict otherwise.  The guard of
    the suggestion loop tests the keys of the engine's response: with
    no ["suggest"] entry, or one without ["spelling"], the suggestions
    are the empty list and nothing is raised, and so they are for every
    response when the query text is empty.  The guard does not test the
    length of the entry list: with a query text, a response whose
    ["spelling"] list has no entry makes the subscript [0] fail, and
    [product_search] ends in [IndexError] instead of answering with an
    empty suggestion list. *)
Theorem C9_spelling_request_and_suggestion_context (args : MultiDict) :
  let q := get_or args "q" "" in
  (Dict.lookup "suggest" (CatalogSearch.product_body args) = Some (spelling_request q)
   <-> q <> "") /\
  (Dict.lookup "suggest" (CatalogSearch.product_body args) = Some (JDict [])
   <-> q = "") /\
  (forall resp : list (string * json),
     Dict.lookup "suggest" resp = None ->
     CatalogSearch.product_suggestions q (JDict resp) = Ok []) /\
  (forall (resp sg : list (string * json)),
     Dict.lookup "suggest" resp = Some (JDict sg) ->
     Dict.lookup "spelling" sg = None ->
     CatalogSearch.product_suggestions q (JDict resp) = Ok []) /\
  (q = "" -> forall resp : json, CatalogSearch.product_suggestions q resp = Ok []) /\
  (q <> "" ->
   forall (resp sg : list (string * json)),
     Dict.lookup "suggest" resp = Some (JDict sg) ->
     Dict.lookup "spelling" sg = Some (JList []) ->
     CatalogSearch.product_suggestions q (JDict resp) = Raise IndexError /\
     forall (es : Engine) (total : json) (hits : list json),
       (forall index body, es index body = Ok (JDict resp)) ->
       has_hits (JDict resp) total hits ->
       fst (CatalogSearch.product_search args es) = Raise IndexError).
Proof.
  intros q.
  assert (Hs : Dict.lookup "suggest" (CatalogSearch.product_body args)
               = Some (CatalogSearch.product_suggest q)) by reflexivity.
  rewrite Hs. unfold CatalogSearch.product_suggest.
  split; [|split; [|split; [|split; [|split]]]].
  - destruct q; cbn [Py.truthy]; split; (discriminate || congruence || reflexivity).
  - destruct q; cbn [Py.truthy]; split; (discriminate || congruence || reflexivity).
  - intros resp H. unfold CatalogSearch.product_suggestions.
    destruct (Py.truthy q); [|reflexivity].
    cbn [Obj.contains rbind]. now rewrite mem_lookup, H.
  - intros resp sg H1 H2. unfold CatalogSearch.product_suggestions.
    destruct (Py.truthy q); [|reflexivity].
    cbn [Obj.contains Obj.getitem rbind]. rewrite mem_lookup, H1.
    cbn [Obj.contains rbind]. now rewrite mem_lookup, H2.
  - intros -> resp. reflexivity.
  - intros Hq resp sg H1 H2. apply truthy_nonempty in Hq.
    assert (Hraise : CatalogSearch.product_suggestions q (JDict resp) = Raise IndexError).
    { unfold CatalogSearch.product_suggestions. rewrite Hq.
      cbn [Obj.contains Obj.getitem rbind]. rewrite mem_lookup, H1.
      cbn [Obj.contains Obj.getitem rbind]. rewrite mem_lookup, H2.
      reflexivity. }
    split; [exact Hraise|].
    intros es total hits He (h & t & (kr & Er & Hh) & (kh & -> & Ht) & (kt & -> & Hv)
                              & (kh' & Eh & Hl)).
    injection Er as <-. injection Eh as <-.
    unfold CatalogSearch.product_search, bind, es_search, lift, jsonify, ret.
    rewrite He. fold q. unfold CatalogSearch.product_response.
    cbn [Obj.getitem]. rewrite Hh. cbn [rbind Obj.getitem]. rewrite Hl, Ht.
    cbn [rbind Obj.getitem]. rewrite Hv. cbn [rbind].
    rewrite Hraise. reflexivity.
Qed.

Lemma C9_spelling_request_witness :
  CatalogSearch.product_suggestions "mechancal keybord" (JDict [("suggest", JDict [])])
  = Ok [] /\
  fst (CatalogSearch.product_search [("q", "mechancal keybord")]
         (fun _ _ =>
            Ok (JDict [("hits", JDict [("total", JDict [("value", JInt 0)]);
                                       ("hits", JList [])]);
                       ("suggest", JDict [("spelling", JList [])])])))
  = Raise IndexError.
Proof.
  destruct (C9_spelling_request_and_suggestion_context [("q", "mechancal keybord")])
    as (_ & _ & _ & H2 & _ & H3).
  split.
  - apply (H2 _ []); reflexivity.
  - destruct (H3 ltac:(discriminate)
                 [("hits", JDict [("total", JDict [("value", JInt 0)]);
                                  ("hits", JList [])]);
                  ("suggest", JDict [("spelling", JList [])])]
                 [("spelling", JList [])] eq_refl eq_refl) as (_ & H).
    apply (H _ (JInt 0) []); [reflexivity|].
    repeat (eexists || split); reflexivity.
Defined.

(** A response with candidates gives their texts, in order. *)
Example product_suggestions_texts :
  CatalogSearch.product_suggestions "mechancal keybord"
    (JDict [("suggest",
       JDict [("spelling",
         JList [JDict [("text", JStr "mechancal keybord");
                       ("options",
                         JList [JDict [("text", JStr "mechanical keyboard");
                                       ("score", JInt 1)]])]])])])
  = Ok [JStr "mechanical keyboard"].
Proof. reflexivity. Qed.

(* An engine that answers a phrase suggestion with an empty list of
   entries makes the subscript [0] fail: the guard of [product_search]
   tests the keys, not the length. *)
Example product_suggestions_no_entry :
  CatalogSearch.product_suggestions "boots"
    (JDict [("suggest", JDict [("spelling", JList [])])])
  = Raise IndexError.
Proof. reflexivity. Qed.

(* ------------------------------------------------------------------ *)
(** * Attribute filters *)

Lemma count_non_nested (n v : string) (l : list json) :
  Forall (fun f => is_nested f = false) l ->
  count (SearchApi.attr_filter n v) l = 0%nat.
Proof.
  unfold count. induction 1 as [|f l Hf _ IH]; [reflexivity|].
  cbn [filter]. destruct (json_eqb (SearchApi.attr_filter n v) f) eqn:E; [|exact IH].
  apply json_eqb_eq in E. subst f. discriminate Hf.
Qed.

Lemma filter_non_nested (l : list json) :
  Forall (fun f => is_nested f = false) l -> filter is_nested l = [].
Proof.
  induction 1 as [|f l Hf _ IH]; [reflexivity|].
  cbn [filter]. now rewrite Hf.
Qed.

Lemma count_pair_In (k v : string) (l : list (string * string)) :
  In (k, v) l <-> (0 < count_pair k v l)%nat.
Proof.
  unfold count_pair. induction l as [|[k0 v0] l IH]; cbn [filter In fst snd].
  - cbn [List.length]. split; [tauto | lia].
  - destruct (String.eqb k0 k) eqn:Ek; destruct (String.eqb v0 v) eqn:Ev;
      cbn [andb List.length];
      try (apply String.eqb_eq in Ek; subst k0);
      try (apply String.eqb_eq in Ev; subst v0);
      try apply String.eqb_neq in Ek; try apply String.eqb_neq in Ev;
      rewrite <- ?IH; split; try lia; auto;
      intros [[= ]|H]; try assumption; congruence.
Qed.

(** [items] holds exactly the pairs of a key and its first value. *)
Lemma items_In (k v : string) (d : MultiDict) :
  In (k, v) (items d) <-> get d k = Some v.
Proof.
  rewrite count_pair_In, count_pair_items.
  destruct (get d k) as [v'|]; [|split; [lia | discriminate]].
  destruct (String.eqb v' v) eqn:E.
  - apply String.eqb_eq in E. subst. split; [reflexivity | lia].
  - apply String.eqb_neq in E. split; [lia|]. intros [= ->]. contradiction.
Qed.

(** The number of times the nested predicate of [(name, value)] is in
    the filters of [search]. *)
Lemma count_attr_filter (args : MultiDict) (name value : string) :
  count (SearchApi.attr_filter name value) (SearchApi.search_filters args) =
  match get args ("attr_" ++ name)%string with
  | Some v => if String.eqb v value then 1%nat else 0%nat
  | None => 0%nat
  end.
Proof.
  destruct (search_filters_split args) as (pre & -> & Hpre & _).
  rewrite count_app, count_attrs_of, count_pair_items, count_non_nested; [reflexivity|].
  eapply Forall_impl; [|exact Hpre]. cbv beta. tauto.
Qed.

Lemma nested_filters (args : MultiDict) :
  filter is_nested (SearchApi.search_filters args) = attrs_of (items args).
Proof.
  destruct (search_filters_split args) as (pre & -> & Hpre & _).
  rewrite filter_app, attrs_of_nested, filter_non_nested; [reflexivity|].
  eapply Forall_impl; [|exact Hpre]. cbv beta. tauto.
Qed.

(** C7: when a request carries the parameter [attr_<name>] with value
    [value] (its first value, as [request.args] gives it), the filter
    list of the plan of [search] contains the nested predicate of
    [(name, value)] exactly once, and no nested predicate pairing [name]
    with another value.  The predicate is one [nested] query over the
    path [attributes] whose [bool.must] holds both terms, so name and
    value must match in the same attribute record. *)
Theorem C7_attr_parameter_gives_one_nested_predicate
        (args : MultiDict) (name value : string) :
  get args ("attr_" ++ name)%string = Some value ->
  plan_filters (SearchApi.search_body args) = Some (SearchApi.search_filters args) /\
  count (SearchApi.attr_filter name value) (SearchApi.search_filters args) = 1%nat /\
  (forall v, In (SearchApi.attr_filter name v) (SearchApi.search_filters args) ->
             v = value) /\
  SearchApi.attr_filter name value =
    JDict [("nested",
      JDict [("path", JStr "attributes");
             ("query",
               JDict [("bool",
                 JDict [("must",
                   JList [JDict [("term", JDict [("attributes.name", JStr name)])];
                          JDict [("term", JDict [("attributes.value", JStr value)])]])])])])].
Proof.
  intros Hg.
  split; [apply search_plan_filters|].
  split; [rewrite count_attr_filter, Hg, String.eqb_refl; reflexivity|].
  split; [|reflexivity].
  intros v Hin. apply count_In in Hin.
  rewrite count_attr_filter, Hg in Hin.
  destruct (String.eqb value v) eqn:E; [|lia].
  apply String.eqb_eq in E. now subst.
Qed.

Lemma C7_attr_parameter_witness :
  count (SearchApi.attr_filter "color" "Black")
        (SearchApi.search_filters [("q", "keyboard"); ("attr_color", "Black")])
  = 1%nat.
Proof.
  apply (C7_attr_parameter_gives_one_nested_predicate
           [("q", "keyboard"); ("attr_color", "Black")] "color" "Black").
  reflexivity.
Defined.

(** C10: when a request gives the parameter [attr_<name>] the values
    [v :: rest], the filter list of the plan of [search] contains the
    nested predicate of [(name, v)] exactly once and no nested predicate
    of [name] with any other value: the values of [rest] are ignored.
    The nested predicates of the plan are those of the attribute
    parameters as [request.args.items()] lists them, a key once with its
    first value. *)
Theorem C10_repeated_attr_parameter_uses_first_value
        (args : MultiDict) (name v : string) (rest : list string) :
  getlist args ("attr_" ++ name)%string = v :: rest ->
  count (SearchApi.attr_filter name v) (SearchApi.search_filters args) = 1%nat /\
  (forall v', v' <> v ->
     count (SearchApi.attr_filter name v') (SearchApi.search_filters args) = 0%nat /\
     ~ In (SearchApi.attr_filter name v') (SearchApi.search_filters args)) /\
  filter is_nested (SearchApi.search_filters args) = attrs_of (items args) /\
  NoDup (map fst (items args)) /\
  (forall k w, In (k, w) (items args) <-> get args k = Some w).
Proof.
  intros Hl.
  assert (Hg : get args ("attr_" ++ name)%string = Some v)
    by (rewrite get_getlist, Hl; reflexivity).
  split; [rewrite count_attr_filter, Hg, String.eqb_refl; reflexivity|].
  split.
  { intros v' Hv.
    assert (Hc : count (SearchApi.attr_filter name v') (SearchApi.search_filters args)
                 = 0%nat).
    { rewrite count_attr_filter, Hg.
      destruct (String.eqb v v') eqn:E; [|reflexivity].
      apply String.eqb_eq in E. congruence. }
    split; [exact Hc|]. intros Hin. apply count_In in Hin. lia. }
  split; [apply nested_filters|].
  split; [apply items_NoDup | intros k w; apply items_In].
Qed.

Lemma C10_repeated_attr_parameter_witness :
  count (SearchApi.attr_filter "color" "Black")
        (SearchApi.search_filters [("attr_color", "Black"); ("attr_color", "Red")])
  = 1%nat /\
  ~ In (SearchApi.attr_filter "color" "Red")
       (SearchApi.search_filters [("attr_color", "Black"); ("attr_color", "Red")]).
Proof.
  destruct (C10_repeated_attr_parameter_uses_first_value
              [("attr_color", "Black"); ("attr_color", "Red")] "color" "Black" ["Red"]
              eq_refl) as (H1 & H2 & _).
  split; [exact H1|].
  apply (H2 "Red"). discriminate.
Defined.

(* ------------------------------------------------------------------ *)
(** * Two requests, end to end *)

(** Browsing with a price range: two range filters, no text clause,
    newest first; 97 hits in pages of 20 make 5 pages, and the buckets
    keep their order. *)
Example browse_with_price_range :
  let args := [("q", ""); ("min_price", "25"); ("max_price", "50")] in
  plan_filters (SearchApi.search_body args)
  = Some [JDict [("range", JDict [("price", JDict [("gte", JFloat (Py.FDec false 25 0))])])];
          JDict [("range", JDict [("price", JDict [("lte", JFloat (Py.FDec false 50 0))])])]]
  /\ plan_must (SearchApi.search_body args) = Some [match_all]
  /\ Dict.lookup "sort" (SearchApi.search_body args) = Some newest_first
  /\ fst (SearchApi.search args engine_97)
     = Ok (JDict [("hits", JList []);
                  ("total", JInt 97);
                  ("facets",
                    JDict [("categories",
                             JList [JDict [("key", JStr "A"); ("count", JInt 5)];
                                    JDict [("key", JStr "B"); ("count", JInt 2)]]);
                           ("statuses", JList []);
                           ("price_ranges", JList []);
                           ("price_stats", JDict [("count", JInt 97)])]);
                  ("page", JInt 1);
                  ("size", JInt 20);
                  ("pages", JInt 5)]).
Proof. cbv zeta. repeat split; reflexivity. Qed.

(** A page size of 0 reaches the engine and then stops the handler at
    the page count. *)
Example size_zero_divides_by_zero :
  fst (SearchApi.search [("size", "0")] engine_97) = Raise ZeroDivisionError /\
  fst (CatalogSearch.product_search [("size", "0")] engine_97) = Raise ZeroDivisionError.
Proof. split; reflexivity. Qed.

(* ------------------------------------------------------------------ *)
(** * The handlers and the engine *)

Lemma rbind_ok {A B : Type} (a : A) (k : A -> result B) : rbind (Ok a) k = k a.
Proof. reflexivity. Qed.

(** A handler that makes one call and shapes the answer. *)
Lemma one_call_then (index : string) (body : json) (shape : json -> result json)
      (es : Engine) :
  bind (es_search index body) (fun resp => bind (lift (shape resp)) jsonify) es
  = (rbind (es index body) shape, [{| call_index := index; call_body := body |}]).
Proof.
  unfold bind, es_search, lift, jsonify, ret.
  destruct (es index body) as [resp|e]; [|reflexivity].
  cbn [rbind]. destruct (shape resp); reflexivity.
Qed.

(** X1: [search] and [product_search] send the engine exactly one
    request, the plan, whatever the request and the engine are; their
    result is the response built from the engine's answer, and a failure
    of the engine is the handler's failure: there is no second attempt
    and no fallback. *)
Theorem X1_search_handlers_call_once (args : MultiDict) (es : Engine) :
  SearchApi.search args es =
    (rbind (es "products" (JDict (SearchApi.search_body args)))
           (SearchApi.search_response (SearchApi.page_of args) (SearchApi.size_of args)),
     [{| call_index := "products"; call_body := JDict (SearchApi.search_body args) |}]) /\
  CatalogSearch.product_search args es =
    (rbind (es "products" (JDict (CatalogSearch.product_body args)))
           (CatalogSearch.product_response (get_or args "q" "")
              (CatalogSearch.page_of args) (CatalogSearch.size_of args)),
     [{| call_index := "products"; call_body := JDict (CatalogSearch.product_body args) |}]) /\
  (forall e, es "products" (JDict (SearchApi.search_body args)) = Raise e ->
             fst (SearchApi.search args es) = Raise e) /\
  (forall e, es "products" (JDict (CatalogSearch.product_body args)) = Raise e ->
             fst (CatalogSearch.product_search args es) = Raise e).
Proof.
  assert (H1 : SearchApi.search args es =
    (rbind (es "products" (JDict (SearchApi.search_body args)))
           (SearchApi.search_response (SearchApi.page_of args) (SearchApi.size_of args)),
     [{| call_index := "products"; call_body := JDict (SearchApi.search_body args) |}])).
  { unfold SearchApi.search. apply one_call_then. }
  assert (H2 : CatalogSearch.product_search args es =
    (rbind (es "products" (JDict (CatalogSearch.product_body args)))
           (CatalogSearch.product_response (get_or args "q" "")
              (CatalogSearch.page_of args) (CatalogSearch.size_of args)),
     [{| call_index := "products"; call_body := JDict (CatalogSearch.product_body args) |}])).
  { unfold CatalogSearch.product_search. apply one_call_then. }
  split; [exact H1|]. split; [exact H2|].
  split; intros e He; [rewrite H1 | rewrite H2]; cbn [fst]; now rewrite He.
Qed.

Lemma X1_search_handlers_witness :
  fst (SearchApi.search [("q", "boots")] (fun _ _ => Raise EngineError))
  = Raise EngineError.
Proof.
  destruct (X1_search_handlers_call_once [("q", "boots")] (fun _ _ => Raise EngineError))
    as (_ & _ & H & _).
  apply H. reflexivity.
Defined.

(** The suggestions of [autocomplete] and [suggest] of [search_api.py]
    from the engine's answer. *)
Lemma search_api_autocomplete_eq (args : MultiDict) (es : Engine) :
  SearchApi.autocomplete args es =
  let q := Py.strip (get_or args "q" "") in
  if Py.truthy q then
    (rbind (es "products" (SearchApi.autocomplete_body q))
           (fun resp =>
              rbind (rbind (suggest_options resp "product-suggest")
                           (rmap SearchApi.autocomplete_option))
                    (fun out => Ok (JDict [("suggestions", JList out)]))),
     [{| call_index := "products"; call_body := SearchApi.autocomplete_body q |}])
  else (Ok (JDict [("suggestions", JList [])]), []).
Proof.
  unfold SearchApi.autocomplete. cbv zeta.
  destruct (Py.truthy (Py.strip (get_or args "q" ""))); [|reflexivity].
  cbn [negb]. unfold bind, es_search, lift, jsonify, ret, SearchApi.ALIAS.
  destruct (es "products" _) as [resp|e]; [|reflexivity].
  cbn [rbind].
  destruct (rbind (suggest_options resp "product-suggest") _); reflexivity.
Qed.

Lemma search_api_suggest_eq (args : MultiDict) (es : Engine) :
  SearchApi.suggest args es =
  let q := Py.strip (get_or args "q" "") in
  if Py.truthy q then
    (rbind (es "products" (SearchApi.suggest_body q))
           (fun resp =>
              rbind (rbind (suggest_options resp "spelling")
                           (rmap SearchApi.suggest_option))
                    (fun out => Ok (JDict [("suggestions", JList out)]))),
     [{| call_index := "products"; call_body := SearchApi.suggest_body q |}])
  else (Ok (JDict [("suggestions", JList [])]), []).
Proof.
  unfold SearchApi.suggest. cbv zeta.
  destruct (Py.truthy (Py.strip (get_or args "q" ""))); [|reflexivity].
  cbn [negb]. unfold bind, es_search, lift, jsonify, ret, SearchApi.ALIAS.
  destruct (es "products" _) as [resp|e]; [|reflexivity].
  cbn [rbind].
  destruct (rbind (suggest_options resp "spelling") _); reflexivity.
Qed.

(** X2: [autocomplete] and [suggest] of [search_api.py] contact the
    engine exactly when the text is not empty after stripping, once, and
    the text they send is the stripped one: a request with only white
    space in [q] makes no call. *)
Theorem X2_search_api_suggesters_call_iff_text (args : MultiDict) (es : Engine) :
  let q := Py.strip (get_or args "q" "") in
  snd (SearchApi.autocomplete args es) =
    (if Py.truthy q
     then [{| call_index := "products"; call_body := SearchApi.autocomplete_body q |}]
     else []) /\
  snd (SearchApi.suggest args es) =
    (if Py.truthy q
     then [{| call_index := "products"; call_body := SearchApi.suggest_body q |}]
     else []) /\
  path ["suggest"; "product-suggest"; "prefix"] (SearchApi.autocomplete_body q)
    = Some (JStr q) /\
  path ["suggest"; "spelling"; "text"] (SearchApi.suggest_body q) = Some (JStr q).
Proof.
  intros q. rewrite search_api_autocomplete_eq, search_api_suggest_eq. cbv zeta.
  fold q. destruct (Py.truthy q); repeat split; reflexivity.
Qed.

(* ------------------------------------------------------------------ *)
(** * The response built from a well-formed answer *)

Lemma getitem_has (o : json) (key : string) (v : json) :
  has o key v -> Obj.getitem o key = Ok v.
Proof. intros (kvs & -> & H). cbn [Obj.getitem]. now rewrite H. Qed.

Lemma get_lookup_or (kvs : list (string * json)) (key : string) (default : json) :
  Obj.get (JDict kvs) key default = Ok (lookup_or kvs key default).
Proof. unfold lookup_or. cbn [Obj.get]. now destruct (Dict.lookup key kvs). Qed.

(** A list comprehension whose body succeeds on every element. *)
Lemma rmap_Forall2 {A B : Type} (f : A -> result B) (l : list A) (ys : list B) :
  Forall2 (fun x y => f x = Ok y) l ys -> rmap f l = Ok ys.
Proof.
  induction 1 as [|x y l ys Hxy _ IH]; [reflexivity|].
  cbn [rmap]. rewrite Hxy. cbn [rbind]. rewrite IH. reflexivity.
Qed.

(** A list comprehension stops at the first element that raises. *)
Lemma rmap_raise {A B : Type} (f : A -> result B) (pre : list A) (ys : list B)
      (x : A) (post : list A) (e : PyExc) :
  Forall2 (fun x y => f x = Ok y) pre ys -> f x = Raise e ->
  rmap f (pre ++ x :: post) = Raise e.
Proof.
  intros Hpre Hx. induction Hpre as [|a y l ys' Hay _ IH]; cbn [app rmap].
  - now rewrite Hx.
  - rewrite Hay. cbn [rbind]. now rewrite IH.
Qed.

Lemma Forall2_impl {A B : Type} (R S : A -> B -> Prop) (l : list A) (m : list B) :
  (forall x y, R x y -> S x y) -> Forall2 R l m -> Forall2 S l m.
Proof. intros H. induction 1; constructor; auto. Qed.

Lemma bucket_view_ok (b out : json) :
  bucket_view b out ->
  (k <- Obj.getitem b "key" ;;
   c <- Obj.getitem b "doc_count" ;;
   Ok (JDict [("key", k); ("count", c)]))%py = Ok out.
Proof.
  intros (k & c & Hk & Hc & ->).
  now rewrite (getitem_has _ _ _ Hk), rbind_ok, (getitem_has _ _ _ Hc).
Qed.

Lemma bucket_list_ok (bs outs : list json) :
  Forall2 bucket_view bs outs -> bucket_list (JList bs) = Ok (JList outs).
Proof.
  intros H. unfold bucket_list. cbn [Obj.iter rbind].
  rewrite (rmap_Forall2 _ bs outs); [reflexivity|].
  eapply Forall2_impl; [|exact H]. apply bucket_view_ok.
Qed.

Lemma facet_ok (resp : json) (name : string) (bs outs : list json) :
  has_buckets resp name bs -> Forall2 bucket_view bs outs ->
  facet resp name = Ok (JList outs).
Proof.
  intros (aggs & agg & H1 & H2 & H3) Hb. unfold facet.
  rewrite (getitem_has _ _ _ H1), rbind_ok, (getitem_has _ _ _ H2), rbind_ok,
          (getitem_has _ _ _ H3), rbind_ok.
  now apply bucket_list_ok.
Qed.

(** X3: the facet of an aggregation keeps every bucket, in the order the
    engine returned them, as its key and its document count; and a
    bucket without [doc_count] makes the facet raise [KeyError] (buckets
    after it are not looked at). *)
Theorem X3_facet_keeps_buckets_in_order
        (resp : json) (name : string) (bs outs : list json) :
  has_buckets resp name bs -> Forall2 bucket_view bs outs ->
  facet resp name = Ok (JList outs) /\
  List.length outs = List.length bs /\
  (forall (bad : list (string * json)) (k : json) (post : list json),
     Dict.lookup "key" bad = Some k -> Dict.lookup "doc_count" bad = None ->
     bucket_list (JList (bs ++ JDict bad :: post)) = Raise KeyError).
Proof.
  intros Hb Hv.
  split; [now apply (facet_ok resp name bs outs)|].
  split; [symmetry; now apply (Forall2_length Hv)|].
  intros bad k post Hk Hc. unfold bucket_list. cbn [Obj.iter rbind].
  rewrite (rmap_raise _ bs outs (JDict bad) post KeyError); [reflexivity| |].
  - eapply Forall2_impl; [|exact Hv]. apply bucket_view_ok.
  - cbn [Obj.getitem]. rewrite Hk, Hc. reflexivity.
Qed.

Lemma X3_facet_witness :
  facet (JDict [("aggregations",
           JDict [("categories",
             JDict [("buckets",
               JList [JDict [("key", JStr "A"); ("doc_count", JInt 5)];
                      JDict [("key", JStr "B"); ("doc_count", JInt 2)]])])])])
        "categories"
  = Ok (JList [JDict [("key", JStr "A"); ("count", JInt 5)];
               JDict [("key", JStr "B"); ("count", JInt 2)]]).
Proof.
  apply (X3_facet_keeps_buckets_in_order _ "categories"
           [JDict [("key", JStr "A"); ("doc_count", JInt 5)];
            JDict [("key", JStr "B"); ("doc_count", JInt 2)]]).
  - eexists _, _. repeat split; eexists; split; reflexivity.
  - repeat constructor; eexists _, _; repeat split; eexists; split; reflexivity.
Defined.

Lemma search_hit_ok (h out : json) :
  search_hit_view h out -> SearchApi.search_hit h = Ok out.
Proof.
  intros (kvs & src & -> & Hs & ->). unfold SearchApi.search_hit.
  cbn [Obj.getitem]. rewrite Hs, rbind_ok, !get_lookup_or. reflexivity.
Qed.

Lemma product_hit_ok (h out : json) :
  product_hit_view h out -> CatalogSearch.product_hit h = Ok out.
Proof.
  intros (kvs & src & score & -> & Hs & Hc & ->). unfold CatalogSearch.product_hit.
  cbn [Obj.getitem]. rewrite Hs, rbind_ok, Hc, rbind_ok, !get_lookup_or. reflexivity.
Qed.

(** X4: on a well-formed answer (a total, hits that carry [_source],
    the three bucket aggregations and the price statistics), [search]
    builds its response without error when the page size is not 0: the
    hits in the engine's order, a missing score as null and a missing
    highlight as the empty dict, the total and the statistics unchanged,
    the page and the size it resolved, and the page count
    [(total + size - 1) // size].  With a page size of 0 the same answer
    ends in [ZeroDivisionError]. *)
Theorem X4_search_response_of_well_formed_answer
        (page size t : Z) (resp stats : json)
        (hits outs cats cats' stas stas' rngs rngs' : list json) :
  has_hits resp (JInt t) hits -> Forall2 search_hit_view hits outs ->
  has_buckets resp "categories" cats -> Forall2 bucket_view cats cats' ->
  has_buckets resp "statuses" stas -> Forall2 bucket_view stas stas' ->
  has_buckets resp "price_ranges" rngs -> Forall2 bucket_view rngs rngs' ->
  (exists aggs, has resp "aggregations" aggs /\ has aggs "price_stats" stats) ->
  SearchApi.search_response page size resp =
    if size =? 0 then Raise ZeroDivisionError
    else Ok (JDict [("hits", JList outs);
                    ("total", JInt t);
                    ("facets",
                      JDict [("categories", JList cats');
                             ("statuses", JList stas');
                             ("price_ranges", JList rngs');
                             ("price_stats", stats)]);
                    ("page", JInt page);
                    ("size", JInt size);
                    ("pages", JInt ((t + size - 1) / size))]).
Proof.
  intros (h & tt & H1 & H2 & H3 & H4) Hh Hc Hc' Hs Hs' Hr Hr' (aggs & Ha & Hp).
  unfold SearchApi.search_response.
  rewrite (getitem_has _ _ _ H1), rbind_ok, (getitem_has _ _ _ H2), rbind_ok,
          (getitem_has _ _ _ H3), rbind_ok, (getitem_has _ _ _ H4), rbind_ok.
  cbn [Obj.iter rbind].
  rewrite (rmap_Forall2 _ hits outs)
    by (eapply Forall2_impl; [|exact Hh]; apply search_hit_ok).
  rewrite rbind_ok, (facet_ok _ _ _ _ Hc Hc'), rbind_ok,
          (facet_ok _ _ _ _ Hs Hs'), rbind_ok, (facet_ok _ _ _ _ Hr Hr'), rbind_ok,
          (getitem_has _ _ _ Ha), rbind_ok, (getitem_has _ _ _ Hp), rbind_ok.
  unfold pages_of, pages, Py.floordiv. destruct (size =? 0); reflexivity.
Qed.

(** Goals that say where a value sits in a given answer. *)
Ltac found := repeat (eexists || split); reflexivity.

Lemma X4_search_response_witness :
  SearchApi.search_response 1 20
    (JDict [("hits", JDict [("total", JDict [("value", JInt 97)]);
                            ("hits", JList [JDict [("_source", JStr "doc")]])]);
            ("aggregations",
              JDict [("categories", JDict [("buckets", JList [])]);
                     ("statuses", JDict [("buckets", JList [])]);
                     ("price_ranges", JDict [("buckets", JList [])]);
                     ("price_stats", JDict [("count", JInt 97)])])])
  = Ok (JDict [("hits", JList [JDict [("product", JStr "doc"); ("score", JNull);
                                      ("highlight", JDict [])]]);
               ("total", JInt 97);
               ("facets",
                 JDict [("categories", JList []);
                        ("statuses", JList []);
                        ("price_ranges", JList []);
                        ("price_stats", JDict [("count", JInt 97)])]);
               ("page", JInt 1);
               ("size", JInt 20);
               ("pages", JInt 5)]).
Proof.
  apply (X4_search_response_of_well_formed_answer 1 20 97 _ _
           [JDict [("_source", JStr "doc")]] _ [] [] [] [] [] []).
  - found.
  - repeat constructor. found.
  - found.
  - constructor.
  - found.
  - constructor.
  - found.
  - constructor.
  - found.
Defined.

(** X5: in browse mode [product_search] reads no suggestion from the
    answer; with a query text and an answer whose [spelling] suggester
    has at least one entry, its suggestions are the texts of the options
    of the first entry, in order, and an entry without [options] gives
    no suggestion. *)
Theorem X5_product_suggestions_are_first_entry_texts
        (q : string) (resp sg : json) (first : list (string * json))
        (rest options texts : list json) :
  has resp "suggest" sg -> has sg "spelling" (JList (JDict first :: rest)) ->
  lookup_or first "options" (JList []) = JList options ->
  Forall2 (fun o t => has o "text" t) options texts ->
  CatalogSearch.product_suggestions q resp = Ok (if Py.truthy q then texts else []).
Proof.
  intros Hs Hp Ho Ht. unfold CatalogSearch.product_suggestions.
  destruct (Py.truthy q); [|reflexivity].
  pose proof Hs as (r & -> & Hr). pose proof Hp as (s & -> & Hsp).
  cbn [Obj.contains Obj.getitem]. rewrite !mem_lookup, Hr. cbn [rbind Obj.contains].
  rewrite mem_lookup, Hsp. cbn [rbind Obj.getitem]. rewrite Hsp.
  cbn [rbind Obj.getindex nth_error]. rewrite get_lookup_or, Ho.
  cbn [rbind Obj.iter]. apply rmap_Forall2.
  eapply Forall2_impl; [|exact Ht]. intros o t. apply getitem_has.
Qed.

Lemma X5_product_suggestions_witness :
  CatalogSearch.product_suggestions "keybord"
    (JDict [("suggest",
       JDict [("spelling",
         JList [JDict [("text", JStr "keybord");
                       ("options", JList [JDict [("text", JStr "keyboard")];
                                          JDict [("text", JStr "keyboards")]])]])])])
  = Ok [JStr "keyboard"; JStr "keyboards"].
Proof.
  eapply (X5_product_suggestions_are_first_entry_texts "keybord" _ _ _ []
           [JDict [("text", JStr "keyboard")]; JDict [("text", JStr "keyboards")]]).
  - found.
  - found.
  - reflexivity.
  - repeat constructor; found.
Defined.

(** X6: on a well-formed answer (a total, hits that carry [_source] and
    [_score], the four bucket aggregations and the price statistics)
    whose suggestions can be read, [product_search] builds its response
    without error when the page size is not 0: the hits in the engine's
    order, a missing highlight as the empty dict and missing sort values
    as null, the suggestions, the page it resolved and the page count;
    the response has no [size] entry.  With a page size of 0 the same
    answer ends in [ZeroDivisionError]. *)
Theorem X6_product_response_of_well_formed_answer
        (q : string) (page size t : Z) (resp stats : json)
        (hits outs sugg cats cats' tags tags' rngs rngs' stock stock' : list json) :
  has_hits resp (JInt t) hits -> Forall2 product_hit_view hits outs ->
  CatalogSearch.product_suggestions q resp = Ok sugg ->
  has_buckets resp "categories" cats -> Forall2 bucket_view cats cats' ->
  has_buckets resp "tags" tags -> Forall2 bucket_view tags tags' ->
  has_buckets resp "price_ranges" rngs -> Forall2 bucket_view rngs rngs' ->
  has_buckets resp "stock_status" stock -> Forall2 bucket_view stock stock' ->
  (exists aggs, has resp "aggregations" aggs /\ has aggs "price_stats" stats) ->
  CatalogSearch.product_response q page size resp =
    if size =? 0 then Raise ZeroDivisionError
    else Ok (JDict [("results", JList outs);
                    ("total", JInt t);
                    ("facets",
                      JDict [("categories", JList cats');
                             ("tags", JList tags');
                             ("price_ranges", JList rngs');
                             ("price_stats", stats);
                             ("stock_status", JList stock')]);
                    ("suggestions", JList sugg);
                    ("page", JInt page);
                    ("pages", JInt ((t + size - 1) / size))]).
Proof.
  intros (h & tt & H1 & H2 & H3 & H4) Hh Hsg Hc Hc' Ht Ht' Hr Hr' Hk Hk'
         (aggs & Ha & Hp).
  unfold CatalogSearch.product_response.
  rewrite (getitem_has _ _ _ H1), rbind_ok, (getitem_has _ _ _ H4), rbind_ok,
          (getitem_has _ _ _ H2), rbind_ok, (getitem_has _ _ _ H3), rbind_ok,
          Hsg, rbind_ok.
  cbn [Obj.iter rbind].
  rewrite (rmap_Forall2 _ hits outs)
    by (eapply Forall2_impl; [|exact Hh]; apply product_hit_ok).
  rewrite rbind_ok, (facet_ok _ _ _ _ Hc Hc'), rbind_ok,
          (facet_ok _ _ _ _ Ht Ht'), rbind_ok, (facet_ok _ _ _ _ Hr Hr'), rbind_ok,
          (getitem_has _ _ _ Ha), rbind_ok, (getitem_has _ _ _ Hp), rbind_ok,
          (facet_ok _ _ _ _ Hk Hk'), rbind_ok.
  unfold pages_of, pages, Py.floordiv. destruct (size =? 0); reflexivity.
Qed.

Lemma X6_product_response_witness :
  CatalogSearch.product_response "" 2 20
    (JDict [("hits", JDict [("total", JDict [("value", JInt 41)]);
                            ("hits", JList [JDict [("_source", JStr "doc");
                                                   ("_score", JInt 1)]])]);
            ("aggregations",
              JDict [("categories", JDict [("buckets", JList [])]);
                     ("tags", JDict [("buckets", JList [])]);
                     ("price_ranges", JDict [("buckets", JList [])]);
                     ("price_stats", JDict [("count", JInt 41)]);
                     ("stock_status", JDict [("buckets", JList [])])])])
  = Ok (JDict [("results", JList [JDict [("product", JStr "doc"); ("score", JInt 1);
                                         ("highlight", JDict []); ("sort", JNull)]]);
               ("total", JInt 41);
               ("facets",
                 JDict [("categories", JList []);
                        ("tags", JList []);
                        ("price_ranges", JList []);
                        ("price_stats", JDict [("count", JInt 41)]);
                        ("stock_status", JList [])]);
               ("suggestions", JList []);
               ("page", JInt 2);
               ("pages", JInt 3)]).
Proof.
  apply (X6_product_response_of_well_formed_answer "" 2 20 41 _ _
           [JDict [("_source", JStr "doc"); ("_score", JInt 1)]] _ []
           [] [] [] [] [] [] [] []).
  - found.
  - repeat constructor. found.
  - reflexivity.
  - found.
  - constructor.
  - found.
  - constructor.
  - found.
  - constructor.
  - found.
  - constructor.
  - found.
Defined.

(* ------------------------------------------------------------------ *)
(** * Completions and corrections *)

Lemma catalog_autocomplete_eq (args : MultiDict) (es : Engine) :
  CatalogSearch.autocomplete args es =
  let q := get_or args "q" "" in
  (rbind (es "products" (CatalogSearch.autocomplete_body q))
         (fun resp =>
            rbind (rbind (suggest_options resp "product-suggest")
                         (rmap CatalogSearch.autocomplete_option))
                  (fun out => Ok (JDict [("suggestions", JList out)]))),
   [{| call_index := "products"; call_body := CatalogSearch.autocomplete_body q |}]).
Proof.
  unfold CatalogSearch.autocomplete. cbv zeta.
  unfold bind, es_search, lift, jsonify, ret, CatalogSearch.INDEX.
  destruct (es "products" _) as [resp|e]; [|reflexivity].
  cbn [rbind].
  destruct (rbind (suggest_options resp "product-suggest") _); reflexivity.
Qed.

Lemma suggest_options_ok (resp : json) (name : string) (options : list json) :
  has_options resp name options -> suggest_options resp name = Ok options.
Proof.
  intros (sg & first & rest & H1 & H2 & H3). unfold suggest_options.
  rewrite (getitem_has _ _ _ H1), rbind_ok, (getitem_has _ _ _ H2), rbind_ok.
  cbn [Obj.getindex nth_error rbind].
  now rewrite (getitem_has _ _ _ H3), rbind_ok.
Qed.

Lemma completion_ok (s out : json) :
  completion_view s out -> SearchApi.autocomplete_option s = Ok out.
Proof.
  intros (kvs & text & score & -> & Ht & Hs & ->). unfold SearchApi.autocomplete_option.
  cbn [Obj.getitem]. rewrite Ht, rbind_ok, Hs, rbind_ok, get_lookup_or. reflexivity.
Qed.

(** X7: when the text is not empty and the engine answers with one
    entry of options for the completion suggester, [autocomplete] of
    [search_api.py] returns one suggestion per option, in the engine's
    order, with its text and score, and the empty dict for an option
    without [_source]. *)
Theorem X7_autocomplete_maps_options_in_order
        (args : MultiDict) (es : Engine) (resp : json) (options outs : list json) :
  Py.strip (get_or args "q" "") <> "" ->
  es "products" (SearchApi.autocomplete_body (Py.strip (get_or args "q" ""))) = Ok resp ->
  has_options resp "product-suggest" options ->
  Forall2 completion_view options outs ->
  fst (SearchApi.autocomplete args es) = Ok (JDict [("suggestions", JList outs)]) /\
  List.length outs = List.length options.
Proof.
  intros Hq He Ho Hv. rewrite search_api_autocomplete_eq. cbv zeta.
  apply truthy_nonempty in Hq. rewrite Hq. cbn [fst]. rewrite He, rbind_ok.
  rewrite (suggest_options_ok _ _ _ Ho), rbind_ok.
  rewrite (rmap_Forall2 _ options outs)
    by (eapply Forall2_impl; [|exact Hv]; apply completion_ok).
  split; [reflexivity | symmetry; apply (Forall2_length Hv)].
Qed.

Lemma X7_autocomplete_witness :
  fst (SearchApi.autocomplete [("q", " lumi ")]
         (fun _ _ =>
            Ok (JDict [("suggest",
                  JDict [("product-suggest",
                    JList [JDict [("options",
                             JList [JDict [("text", JStr "Lumina"); ("_score", JInt 3)]])]])])])))
  = Ok (JDict [("suggestions",
          JList [JDict [("text", JStr "Lumina"); ("score", JInt 3);
                        ("product", JDict [])]])]).
Proof.
  eapply (X7_autocomplete_maps_options_in_order [("q", " lumi ")] _ _
            [JDict [("text", JStr "Lumina"); ("_score", JInt 3)]]).
  - discriminate.
  - reflexivity.
  - found.
  - repeat constructor. found.
Defined.

Lemma suggest_options_no_suggest (resp : list (string * json)) (name : string) :
  Dict.lookup "suggest" resp = None ->
  suggest_options (JDict resp) name = Raise KeyError.
Proof. intros H. unfold suggest_options. cbn [Obj.getitem]. now rewrite H. Qed.

Lemma suggest_options_no_entry (resp : list (string * json)) (sg : json) (name : string) :
  Dict.lookup "suggest" resp = Some sg -> has sg name (JList []) ->
  suggest_options (JDict resp) name = Raise IndexError.
Proof.
  intros H Hn. unfold suggest_options. cbn [Obj.getitem]. rewrite H, rbind_ok.
  now rewrite (getitem_has _ _ _ Hn).
Qed.

Lemma suggest_options_no_name (resp : list (string * json)) (sg : json) (name : string) :
  Dict.lookup "suggest" resp = Some sg ->
  (exists kvs, sg = JDict kvs /\ Dict.lookup name kvs = None) ->
  suggest_options (JDict resp) name = Raise KeyError.
Proof.
  intros H (kvs & -> & Hn). unfold suggest_options. cbn [Obj.getitem].
  rewrite H, rbind_ok. cbn [Obj.getitem]. now rewrite Hn.
Qed.

(** What the two endpoints of [search_api.py] and [autocomplete] of
    [catalog_search.py] return when reading the options fails. *)
Lemma suggestion_endpoints_raise (args : MultiDict) (es : Engine)
      (resp : list (string * json)) (e : PyExc) :
  (forall index body, es index body = Ok (JDict resp)) ->
  (suggest_options (JDict resp) "product-suggest" = Raise e ->
     fst (CatalogSearch.autocomplete args es) = Raise e /\
     (Py.strip (get_or args "q" "") <> "" ->
        fst (SearchApi.autocomplete args es) = Raise e)) /\
  (suggest_options (JDict resp) "spelling" = Raise e ->
     Py.strip (get_or args "q" "") <> "" ->
     fst (SearchApi.suggest args es) = Raise e).
Proof.
  intros He. split.
  - intros Hs. split.
    + rewrite catalog_autocomplete_eq. cbv zeta. cbn [fst].
      now rewrite He, rbind_ok, Hs.
    + intros Hq. apply truthy_nonempty in Hq.
      rewrite search_api_autocomplete_eq. cbv zeta. rewrite Hq. cbn [fst].
      now rewrite He, rbind_ok, Hs.
  - intros Hs Hq. apply truthy_nonempty in Hq.
    rewrite search_api_suggest_eq. cbv zeta. rewrite Hq. cbn [fst].
    now rewrite He, rbind_ok, Hs.
Qed.

(** X8: the three suggestion endpoints do not guard the shape of the
    engine's answer.  Once the engine is called, an answer without
    ["suggest"], or whose ["suggest"] has no entry for the endpoint's
    suggester, ends in [KeyError], and an answer whose suggester has an
    empty list of entries ends in [IndexError], whatever else the
    answer holds.  The suggester is ["product-suggest"] for the two
    [autocomplete] endpoints and ["spelling"] for [suggest];
    [autocomplete] of [catalog_search.py] fails so for every request,
    the two endpoints of [search_api.py] for every request with a
    text. *)
Theorem X8_suggestion_endpoints_fail_on_shapeless_answer
        (args : MultiDict) (es : Engine) (resp : list (string * json)) :
  (forall index body, es index body = Ok (JDict resp)) ->
  (Dict.lookup "suggest" resp = None ->
     fst (CatalogSearch.autocomplete args es) = Raise KeyError /\
     (Py.strip (get_or args "q" "") <> "" ->
        fst (SearchApi.autocomplete args es) = Raise KeyError /\
        fst (SearchApi.suggest args es) = Raise KeyError)) /\
  (forall sg : list (string * json),
     Dict.lookup "suggest" resp = Some (JDict sg) ->
     (Dict.lookup "product-suggest" sg = None ->
        fst (CatalogSearch.autocomplete args es) = Raise KeyError /\
        (Py.strip (get_or args "q" "") <> "" ->
           fst (SearchApi.autocomplete args es) = Raise KeyError)) /\
     (Dict.lookup "spelling" sg = None ->
        Py.strip (get_or args "q" "") <> "" ->
        fst (SearchApi.suggest args es) = Raise KeyError) /\
     (Dict.lookup "product-suggest" sg = Some (JList []) ->
        fst (CatalogSearch.autocomplete args es) = Raise IndexError /\
        (Py.strip (get_or args "q" "") <> "" ->
           fst (SearchApi.autocomplete args es) = Raise IndexError)) /\
     (Dict.lookup "spelling" sg = Some (JList []) ->
        Py.strip (get_or args "q" "") <> "" ->
        fst (SearchApi.suggest args es) = Raise IndexError)).
Proof.
  intros He.
  pose proof (suggestion_endpoints_raise args es resp KeyError He) as (Ka & Ks).
  pose proof (suggestion_endpoints_raise args es resp IndexError He) as (Ia & Is).
  split.
  - intros Hs.
    destruct (Ka (suggest_options_no_suggest resp _ Hs)) as (H1 & H2).
    split; [exact H1|]. intros Hq. split; [now apply H2|].
    apply Ks; [now apply suggest_options_no_suggest | exact Hq].
  - intros sg Hs. repeat apply conj.
    + intros Hn. apply Ka. apply (suggest_options_no_name resp _ _ Hs). now exists sg.
    + intros Hn. apply Ks. apply (suggest_options_no_name resp _ _ Hs). now exists sg.
    + intros Hn. apply Ia. apply (suggest_options_no_entry resp _ _ Hs). now exists sg.
    + intros Hn. apply Is. apply (suggest_options_no_entry resp _ _ Hs). now exists sg.
Qed.

Lemma X8_suggestion_endpoints_witness :
  fst (SearchApi.suggest [("q", "keybord")] (fun _ _ => Ok (JDict [("took", JInt 1)])))
  = Raise KeyError /\
  fst (CatalogSearch.autocomplete []
         (fun _ _ => Ok (JDict [("suggest", JDict [("product-suggest", JList [])])])))
  = Raise IndexError.
Proof.
  split.
  - destruct (X8_suggestion_endpoints_fail_on_shapeless_answer
                [("q", "keybord")] (fun _ _ => Ok (JDict [("took", JInt 1)]))
                [("took", JInt 1)] (fun _ _ => eq_refl)) as (H & _).
    destruct (H eq_refl) as (_ & H').
    apply H'. discriminate.
  - destruct (X8_suggestion_endpoints_fail_on_shapeless_answer
                [] (fun _ _ => Ok (JDict [("suggest", JDict [("product-suggest", JList [])])]))
                [("suggest", JDict [("product-suggest", JList [])])] (fun _ _ => eq_refl))
      as (_ & H).
    destruct (H [("product-suggest", JList [])] eq_refl) as (_ & _ & H' & _).
    apply H'. reflexivity.
Defined.

(* ------------------------------------------------------------------ *)
(** * The filter lists, predicate by predicate *)

(** The filters of [search], in the order they are appended. *)
Lemma search_filters_eq (args : MultiDict) :
  SearchApi.search_filters args =
  opt_list (fun c => term_filter "category_id" (JInt c)) (get_as args "category_id" Py.int)
  ++ opt_list (fun s => term_filter "status" (JStr s)) (status_of args)
  ++ opt_list (price_filter "gte") (get_as args "min_price" Py.float)
  ++ opt_list (price_filter "lte") (get_as args "max_price" Py.float)
  ++ (if match get args "in_stock" with Some s => String.eqb s "true" | None => false end
      then [stock_quantity_filter] else [])
  ++ attrs_of (items args).
Proof.
  unfold SearchApi.search_filters, status_of. rewrite fold_attr_step.
  destruct (get_as args "category_id" Py.int) as [c|];
    destruct (get args "status") as [s|]; [destruct (Py.truthy s)| |destruct (Py.truthy s)|];
    destruct (get_as args "min_price" Py.float) as [lo|];
    destruct (get_as args "max_price" Py.float) as [hi|];
    (destruct (get args "in_stock") as [st|]; [destruct (String.eqb st "true")|]);
    reflexivity.
Qed.

(** The filters of [product_search], in the order they are appended. *)
Lemma product_filters_eq (args : MultiDict) :
  CatalogSearch.product_filters args =
  (if CatalogSearch.in_stock_of args then [stock_level_filter] else [])
  ++ map (fun c => term_filter "category" (JStr c)) (getlist args "category")
  ++ map (fun t => term_filter "tags" (JStr t)) (getlist args "tag")
  ++ opt_list (price_filter "gte") (get_as args "min_price" Py.float)
  ++ opt_list (price_filter "lte") (get_as args "max_price" Py.float)
  ++ opt_list (fun p => geo_filter (get_or args "distance" "50km") (fst p) (snd p))
              (point_of args).
Proof.
  unfold CatalogSearch.product_filters, point_of, term_filter. rewrite !fold_snoc_map.
  set (cats := map _ (getlist args "category")).
  set (tags := map _ (getlist args "tag")).
  destruct (CatalogSearch.in_stock_of args),
           (get_as args "min_price" Py.float),
           (get_as args "max_price" Py.float),
           (get_as args "lat" Py.float),
           (get_as args "lon" Py.float);
    cbn [app opt_list fst snd]; rewrite <- ?app_assoc, ?app_nil_r; reflexivity.
Qed.

Lemma filter_none {A : Type} (p : A -> bool) (l : list A) :
  Forall (fun x => p x = false) l -> filter p l = [].
Proof.
  induction 1 as [|x l Hx _ IH]; [reflexivity|]. cbn [filter]. now rewrite Hx.
Qed.

Lemma filter_all {A : Type} (p : A -> bool) (l : list A) :
  Forall (fun x => p x = true) l -> filter p l = l.
Proof.
  induction 1 as [|x l Hx _ IH]; [reflexivity|]. cbn [filter]. now rewrite Hx, IH.
Qed.

Lemma Forall_map_all {A : Type} (P : json -> Prop) (f : A -> json) (l : list A) :
  (forall x, P (f x)) -> Forall P (map f l).
Proof. intros H. induction l; constructor; auto. Qed.

Lemma Forall_opt_list {A : Type} (P : json -> Prop) (f : A -> json) (o : option A) :
  (forall x, P (f x)) -> Forall P (opt_list f o).
Proof. intros H. destruct o; repeat constructor; auto. Qed.

Lemma attrs_of_kind (p : json -> bool) (l : list (string * string)) :
  (forall n v, p (SearchApi.attr_filter n v) = false) ->
  Forall (fun f => p f = false) (attrs_of l).
Proof.
  intros H. apply Forall_forall. intros x Hx.
  apply attrs_of_In in Hx as (n & v & ->). apply H.
Qed.

(** Each part of a filter list is cleared or kept by a test on the kind
    of predicate. *)
Ltac sift :=
  rewrite ?filter_app;
  repeat match goal with
    | |- context [filter ?p (opt_list ?f ?o)] =>
        first [ rewrite (filter_none p (opt_list f o))
                  by (apply Forall_opt_list; intros; reflexivity)
              | rewrite (filter_all p (opt_list f o))
                  by (apply Forall_opt_list; intros; reflexivity) ]
    | |- context [filter ?p (map ?f ?l)] =>
        first [ rewrite (filter_none p (map f l))
                  by (apply Forall_map_all; intros; reflexivity)
              | rewrite (filter_all p (map f l))
                  by (apply Forall_map_all; intros; reflexivity) ]
    | |- context [filter ?p (attrs_of ?l)] =>
        rewrite (filter_none p (attrs_of l))
          by (apply attrs_of_kind; intros; reflexivity)
    | |- context [filter ?p (if ?b then [?x] else [])] =>
        first [ rewrite (filter_none p (if b then [x] else []))
                  by (destruct b; repeat constructor)
              | rewrite (filter_all p (if b then [x] else []))
                  by (destruct b; repeat constructor) ]
    end;
  rewrite ?app_nil_r; cbn [app].

(** X9: in both services a price bound becomes a range predicate on
    [price] exactly when [float] reads the first value of [min_price]
    (for [gte]) or [max_price] (for [lte]); a bound that is missing or
    is not a number adds nothing and raises nothing.  The filter list
    has no other predicate on the price, and the lower bound comes
    first. *)
Theorem X9_price_bounds_kept_when_float_reads_them (args : MultiDict) :
  filter (tests_field "range" "price") (SearchApi.search_filters args) =
    opt_list (price_filter "gte") (get_as args "min_price" Py.float)
    ++ opt_list (price_filter "lte") (get_as args "max_price" Py.float) /\
  filter (tests_field "range" "price") (CatalogSearch.product_filters args) =
    opt_list (price_filter "gte") (get_as args "min_price" Py.float)
    ++ opt_list (price_filter "lte") (get_as args "max_price" Py.float) /\
  (forall key, get args key = None -> get_as args key Py.float = None) /\
  (forall key v, get args key = Some v -> get_as args key Py.float = Py.float v).
Proof.
  split; [rewrite search_filters_eq; sift; reflexivity|].
  split; [rewrite product_filters_eq; sift; reflexivity|].
  split; [intros key H | intros key v H]; unfold get_as; now rewrite H.
Qed.

(** Two requests with a bound that [float] rejects. *)
Example malformed_price_bounds_are_dropped :
  SearchApi.search_filters [("min_price", "cheap"); ("max_price", "50")]
    = [price_filter "lte" (Py.FDec false 50 0)] /\
  CatalogSearch.product_filters [("in_stock", "no"); ("min_price", "1,5")] = [].
Proof. split; reflexivity. Qed.

(** X10: [product_search] turns every value of [category] and of [tag]
    into a term predicate of its own, in the order of the request: the
    term predicates on [category] of the filter list are those of all
    the [category] values, and likewise for [tags], so a document must
    match each of them. *)
Theorem X10_every_category_and_tag_is_a_predicate (args : MultiDict) :
  filter (tests_field "term" "category") (CatalogSearch.product_filters args) =
    map (fun c => term_filter "category" (JStr c)) (getlist args "category") /\
  filter (tests_field "term" "tags") (CatalogSearch.product_filters args) =
    map (fun t => term_filter "tags" (JStr t)) (getlist args "tag") /\
  List.length (filter (is_kind "term") (CatalogSearch.product_filters args)) =
    (List.length (getlist args "category") + List.length (getlist args "tag"))%nat.
Proof.
  rewrite product_filters_eq.
  split; [sift; reflexivity|].
  split; [sift; reflexivity|].
  sift. now rewrite length_app, !length_map.
Qed.

(** X11: the filter list of [product_search] has a geo-distance
    predicate exactly when [float] reads both [lat] and [lon], and then
    only one, around that point, with the radius the request gives in
    [distance], or "50km" when it gives none; a missing or malformed
    coordinate drops the predicate. *)
Theorem X11_geo_filter_needs_both_coordinates (args : MultiDict) :
  filter (is_kind "geo_distance") (CatalogSearch.product_filters args) =
    opt_list (fun p => geo_filter (get_or args "distance" "50km") (fst p) (snd p))
             (point_of args) /\
  (get args "distance" = None -> get_or args "distance" "50km" = "50km") /\
  (get_as args "lat" Py.float = None \/ get_as args "lon" Py.float = None ->
     filter (is_kind "geo_distance") (CatalogSearch.product_filters args) = []).
Proof.
  assert (H : filter (is_kind "geo_distance") (CatalogSearch.product_filters args) =
    opt_list (fun p => geo_filter (get_or args "distance" "50km") (fst p) (snd p))
             (point_of args)).
  { rewrite product_filters_eq. sift. reflexivity. }
  split; [exact H|].
  split; [intros Hd; unfold get_or; now rewrite Hd|].
  intros Hn. rewrite H. unfold point_of.
  destruct Hn as [-> | ->]; [reflexivity|].
  now destruct (get_as args "lat" Py.float).
Qed.

Lemma X11_geo_filter_witness :
  filter (is_kind "geo_distance")
         (CatalogSearch.product_filters [("lat", "48.85"); ("lon", "paris")]) = [].
Proof.
  destruct (X11_geo_filter_needs_both_coordinates [("lat", "48.85"); ("lon", "paris")])
    as (_ & _ & H).
  apply H. right. reflexivity.
Defined.

(* ------------------------------------------------------------------ *)
(** * Sort policy *)

Lemma lookup_app (key : string) (l m : list (string * json)) :
  Dict.lookup key (l ++ m) =
  match Dict.lookup key l with Some v => Some v | None => Dict.lookup key m end.
Proof.
  induction l as [|[k v] l IH]; [reflexivity|].
  cbn [app Dict.lookup]. destruct (String.eqb k key); [reflexivity | exact IH].
Qed.

(** The sort entry of the plan of [search]. *)
Lemma search_body_sort (args : MultiDict) :
  Dict.lookup "sort" (SearchApi.search_body args) =
  let q := SearchApi.query_text args in
  let sort_by := get_or args "sort" "relevance" in
  if String.eqb sort_by "relevance"
  then (if Py.truthy q then None else Some newest_first)
  else Some (SearchApi.sort_option sort_by).
Proof.
  destruct (search_body_tail args) as (head & Hh & -> & _).
  subst head. rewrite search_sort_app, !lookup_app. cbv zeta.
  unfold SearchApi.search_query.
  destruct (Py.truthy (SearchApi.query_text args)),
           (String.eqb (get_or args "sort" "relevance") "relevance"); reflexivity.
Qed.

Lemma sort_option_unknown (sort_by : string) :
  sort_by <> "relevance" -> known_sort sort_by = false ->
  SearchApi.sort_option sort_by = score_order.
Proof.
  intros Hr Hk. unfold known_sort in Hk.
  apply orb_false_iff in Hk as [Hk Hn]. apply orb_false_iff in Hk as [Ha Hd].
  apply String.eqb_neq in Hr.
  unfold SearchApi.sort_option, SearchApi.sort_options. cbn [Dict.lookup].
  now rewrite (String.eqb_sym "relevance"), Hr, (String.eqb_sym "price_asc"), Ha,
              (String.eqb_sym "price_desc"), Hd, (String.eqb_sym "newest"), Hn.
Qed.

(** X12: the sort of the plan of [search].  With a query text and the
    sort absent or "relevance" the plan has no [sort] entry: the order
    is the engine's ranking.  The sorts "price_asc", "price_desc" and
    "newest" are applied as asked, with or without a query text.  Any
    other sort value is not an error: the plan sorts by score,
    descending. *)
Theorem X12_search_sort_policy (args : MultiDict) :
  let sort_by := get_or args "sort" "relevance" in
  let sort := Dict.lookup "sort" (SearchApi.search_body args) in
  (SearchApi.query_text args <> "" -> sort_by = "relevance" -> sort = None) /\
  (sort_by = "price_asc" -> sort = Some (JList [JDict [("price", JStr "asc")]])) /\
  (sort_by = "price_desc" -> sort = Some (JList [JDict [("price", JStr "desc")]])) /\
  (sort_by = "newest" -> sort = Some newest_first) /\
  (sort_by <> "relevance" -> known_sort sort_by = false -> sort = Some score_order).
Proof.
  cbv zeta. rewrite search_body_sort. cbv zeta.
  split; [|split; [|split; [|split]]].
  - intros Hq ->. apply truthy_nonempty in Hq. now rewrite Hq.
  - intros ->. reflexivity.
  - intros ->. reflexivity.
  - intros ->. reflexivity.
  - intros Hr Hk. rewrite (sort_option_unknown _ Hr Hk).
    apply String.eqb_neq in Hr. now rewrite Hr.
Qed.

Lemma X12_search_sort_witness :
  Dict.lookup "sort" (SearchApi.search_body [("q", "boots"); ("sort", "cheapest")])
  = Some score_order /\
  Dict.lookup "sort" (SearchApi.search_body [("q", "boots")]) = None.
Proof.
  split.
  - destruct (X12_search_sort_policy [("q", "boots"); ("sort", "cheapest")])
      as (_ & _ & _ & _ & H).
    apply H; [discriminate | reflexivity].
  - destruct (X12_search_sort_policy [("q", "boots")]) as (H & _).
    apply H; [discriminate | reflexivity].
Defined.

Lemma product_sort_not_distance (args : MultiDict) :
  get_or args "sort" "relevance" <> "distance" ->
  CatalogSearch.product_sort args =
  match Dict.lookup (get_or args "sort" "relevance") CatalogSearch.sort_options with
  | Some s => s
  | None => score_then_stock
  end.
Proof.
  intros H. apply String.eqb_neq in H. unfold CatalogSearch.product_sort. now rewrite H.
Qed.

(** X13: the sort of the plan of [product_search] is always present.
    "distance" sorts by distance from the point of the request,
    ascending, in km, when [float] reads both [lat] and [lon]; without
    such a point it falls back to the relevance order (score, then stock
    level), and so does any sort value the service does not know;
    nothing is raised.  "price_asc" and "price_desc" sort by price;
    "newest" sorts by score, descending. *)
Theorem X13_product_sort_policy (args : MultiDict) :
  let sort_by := get_or args "sort" "relevance" in
  let sort := CatalogSearch.product_sort args in
  Dict.lookup "sort" (CatalogSearch.product_body args) = Some sort /\
  (forall la lo, sort_by = "distance" -> point_of args = Some (la, lo) ->
                 sort = geo_sort la lo) /\
  (sort_by = "distance" -> point_of args = None -> sort = score_then_stock) /\
  (sort_by = "relevance" -> sort = score_then_stock) /\
  (sort_by = "price_asc" -> sort = JList [JDict [("price", JStr "asc")]]) /\
  (sort_by = "price_desc" -> sort = JList [JDict [("price", JStr "desc")]]) /\
  (sort_by = "newest" -> sort = score_order) /\
  (Dict.lookup sort_by CatalogSearch.sort_options = None -> sort_by <> "distance" ->
   sort = score_then_stock).
Proof.
  cbv zeta. split; [reflexivity|].
  split; [|split].
  - intros la lo Hs Hp. unfold CatalogSearch.product_sort, point_of in *. rewrite Hs.
    destruct (get_as args "lat" Py.float), (get_as args "lon" Py.float);
      try discriminate. injection Hp as -> ->. reflexivity.
  - intros Hs Hp. unfold CatalogSearch.product_sort, point_of in *. rewrite Hs.
    destruct (get_as args "lat" Py.float), (get_as args "lon" Py.float);
      try discriminate; reflexivity.
  - repeat split; intros Hs; try intros Hd; rewrite product_sort_not_distance;
      try (rewrite Hs; (reflexivity || discriminate)); try assumption.
Qed.

Lemma X13_product_sort_witness :
  CatalogSearch.product_sort [("sort", "distance"); ("lat", "48.85")] = score_then_stock.
Proof.
  destruct (X13_product_sort_policy [("sort", "distance"); ("lat", "48.85")])
    as (_ & _ & H & _).
  apply H; reflexivity.
Defined.

(* ------------------------------------------------------------------ *)
(** * What every plan has, and what an unconstrained request gets *)

Lemma get_In (d : MultiDict) (k v : string) : get d k = Some v -> In (k, v) d.
Proof.
  induction d as [|[k0 v0] d IH]; cbn [get]; [discriminate|].
  destruct (String.eqb k0 k) eqn:E.
  - apply String.eqb_eq in E. intros [= ->]. subst. now left.
  - intros H. right. auto.
Qed.

Lemma In_get (d : MultiDict) (k v : string) :
  In (k, v) d -> exists v', get d k = Some v'.
Proof.
  induction d as [|[k0 v0] d IH]; cbn [get In]; [tauto|].
  intros [[= -> ->]|H].
  - rewrite String.eqb_refl. eauto.
  - destruct (String.eqb k0 k); eauto.
Qed.

(** A request has an attribute parameter exactly when the loop over
    [items] appends a predicate. *)
Lemma attrs_of_nil (d : MultiDict) :
  attrs_of (items d) = [] <-> (forall k v, In (k, v) d -> Py.startswith k "attr_" = false).
Proof.
  unfold attrs_of. split.
  - intros H k v Hin. apply map_eq_nil in H.
    destruct (In_get d k v Hin) as (v' & Hg). apply items_In in Hg.
    destruct (Py.startswith k "attr_") eqn:E; [|reflexivity].
    assert (Hf : In (k, v') (filter is_attr (items d)))
      by (apply filter_In; split; [assumption | exact E]).
    rewrite H in Hf. destruct Hf.
  - intros H. rewrite filter_none; [reflexivity|].
    apply Forall_forall. intros [k v] Hin. apply items_In, get_In in Hin.
    exact (H k v Hin).
Qed.

(** X14: the filter list of [search] is empty exactly for a request
    with no active constraint: no [category_id] that is an integer, no
    [status] (or an empty one), no price bound that is a number, no
    [in_stock=true], and no parameter named [attr_...].  The filter list
    of [product_search] is empty exactly when the request opts out of
    the stock filter and gives no category, no tag, no price bound that
    is a number and no point. *)
Theorem X14_filter_list_empty_iff_no_constraint (args : MultiDict) :
  (SearchApi.search_filters args = [] <->
     get_as args "category_id" Py.int = None /\
     status_of args = None /\
     get_as args "min_price" Py.float = None /\
     get_as args "max_price" Py.float = None /\
     get args "in_stock" <> Some "true" /\
     (forall k v, In (k, v) args -> Py.startswith k "attr_" = false)) /\
  (CatalogSearch.product_filters args = [] <->
     CatalogSearch.in_stock_of args = false /\
     getlist args "category" = [] /\
     getlist args "tag" = [] /\
     get_as args "min_price" Py.float = None /\
     get_as args "max_price" Py.float = None /\
     point_of args = None).
Proof.
  split.
  - rewrite search_filters_eq, <- attrs_of_nil.
    destruct (get_as args "category_id" Py.int), (status_of args),
             (get_as args "min_price" Py.float), (get_as args "max_price" Py.float);
      cbn [opt_list app];
      try (split; [discriminate | intros (? & ? & ? & ? & _); discriminate]).
    destruct (get args "in_stock") as [s|].
    + destruct (String.eqb s "true") eqn:E; cbn [app].
      * apply String.eqb_eq in E. subst s.
        split; [discriminate | intros (_ & _ & _ & _ & H & _); now destruct H].
      * apply String.eqb_neq in E.
        split; [intros H; repeat split; try assumption; congruence
               | intros (_ & _ & _ & _ & _ & H); exact H].
    + cbn [app]. split; [intros H; repeat split; try assumption; discriminate
                        | intros (_ & _ & _ & _ & _ & H); exact H].
  - rewrite product_filters_eq.
    destruct (CatalogSearch.in_stock_of args); cbn [app];
      [split; [discriminate | intros (? & _); discriminate]|].
    destruct (getlist args "category"); cbn [map app];
      [|split; [discriminate | intros (_ & ? & _); discriminate]].
    destruct (getlist args "tag"); cbn [map app];
      [|split; [discriminate | intros (_ & _ & ? & _); discriminate]].
    destruct (get_as args "min_price" Py.float), (get_as args "max_price" Py.float),
             (point_of args); cbn [opt_list app];
      split; try discriminate; try (intros (_ & _ & _ & ? & ? & ?); discriminate);
      auto 7.
Qed.

(** The keys of the plan of [search], in order. *)
Lemma search_body_keys (args : MultiDict) :
  map fst (SearchApi.search_body args) =
  ["query"]
  ++ (if Py.truthy (SearchApi.query_text args) then ["rank"] else [])
  ++ (if String.eqb (get_or args "sort" "relevance") "relevance"
        && Py.truthy (SearchApi.query_text args)
      then [] else ["sort"])
  ++ ["from"; "size"; "highlight"; "aggs"; "_source"].
Proof.
  destruct (search_body_tail args) as (head & Hh & -> & _).
  subst head. rewrite search_sort_app. unfold SearchApi.search_query.
  destruct (Py.truthy (SearchApi.query_text args)),
           (String.eqb (get_or args "sort" "relevance") "relevance"); reflexivity.
Qed.

(** X15: whatever the request, the plan of [search] has the entries
    [query], [from], [size], [highlight], [aggs] and [_source], possibly
    [rank] and [sort], and no other; the highlight request, the facet
    requests and the exclusion of the embedding from the source are the
    same for every request.  The plan of [product_search] always has the
    same seven entries, with the same highlight and facet requests. *)
Theorem X15_plan_entries_are_fixed (args : MultiDict) :
  (forall key, In key (map fst (SearchApi.search_body args)) ->
     In key ["query"; "rank"; "sort"; "from"; "size"; "highlight"; "aggs"; "_source"]) /\
  NoDup (map fst (SearchApi.search_body args)) /\
  Dict.lookup "highlight" (SearchApi.search_body args) = Some SearchApi.highlight /\
  Dict.lookup "aggs" (SearchApi.search_body args) = Some SearchApi.aggs /\
  Dict.lookup "_source" (SearchApi.search_body args)
    = Some (JDict [("excludes", JList [JStr "product_embedding"])]) /\
  map fst (CatalogSearch.product_body args)
    = ["query"; "from"; "size"; "sort"; "highlight"; "aggs"; "suggest"] /\
  Dict.lookup "highlight" (CatalogSearch.product_body args)
    = Some CatalogSearch.highlight /\
  Dict.lookup "aggs" (CatalogSearch.product_body args) = Some CatalogSearch.aggs.
Proof.
  split; [|split].
  - intros key. rewrite search_body_keys.
    destruct (Py.truthy (SearchApi.query_text args)),
             (String.eqb (get_or args "sort" "relevance") "relevance");
      cbn [app andb In]; intuition.
  - rewrite search_body_keys.
    destruct (Py.truthy (SearchApi.query_text args)),
             (String.eqb (get_or args "sort" "relevance") "relevance");
      cbn [app andb]; repeat constructor; cbn [In]; intuition discriminate.
  - destruct (search_body_tail args) as (head & Hh & -> & _).
    subst head. rewrite search_sort_app, !lookup_app. unfold SearchApi.search_query.
    destruct (Py.truthy (SearchApi.query_text args)),
             (String.eqb (get_or args "sort" "relevance") "relevance");
      repeat split; reflexivity.
Qed.

(* ------------------------------------------------------------------ *)
(** * The query text *)

(** X16: with a query text, the plan of [search] asks for either of two
    clauses, the fuzzy keyword match on [name] (weight 3) and
    [description] and the vector clause on [product_embedding] for the
    same text, and fuses the two rankings by reciprocal rank (window
    100, constant 60); it has no must-clause.  The plan of
    [product_search] requires the fuzzy keyword match on [name] (weight
    3), [description] and [tags] (weight 2). *)
Theorem X16_text_plan_has_keyword_clause (args : MultiDict) :
  (SearchApi.query_text args <> "" ->
     plan_clause "should" (SearchApi.search_body args)
       = Some [multi_match (SearchApi.query_text args) ["name^3"; "description"];
               knn_clause (SearchApi.query_text args)] /\
     plan_must (SearchApi.search_body args) = None /\
     Dict.lookup "rank" (SearchApi.search_body args) = Some rrf_rank) /\
  (get_or args "q" "" <> "" ->
     plan_must (CatalogSearch.product_body args)
       = Some [multi_match (get_or args "q" "") ["name^3"; "description"; "tags^2"]]).
Proof.
  split.
  - intros Hq. apply truthy_nonempty in Hq.
    destruct (search_body_tail args) as (head & Hh & -> & _).
    subst head. rewrite search_sort_app. unfold SearchApi.search_query. rewrite Hq.
    repeat split; reflexivity.
  - intros Hq. apply truthy_nonempty in Hq.
    unfold plan_must, plan_clause, CatalogSearch.product_body, CatalogSearch.product_must.
    rewrite Hq. reflexivity.
Qed.

Lemma X16_text_plan_witness :
  plan_must (CatalogSearch.product_body [("q", "hiking boots")])
  = Some [multi_match "hiking boots" ["name^3"; "description"; "tags^2"]].
Proof.
  destruct (X16_text_plan_has_keyword_clause [("q", "hiking boots")]) as (_ & H).
  apply H. discriminate.
Defined.

Lemma lstrip_idem (l : list ascii) :
  Py.lstrip_chars (Py.lstrip_chars l) = Py.lstrip_chars l.
Proof.
  induction l as [|c l IH]; [reflexivity|].
  cbn [Py.lstrip_chars]. destruct (Py.isspace c) eqn:E; [exact IH|].
  cbn [Py.lstrip_chars]. now rewrite E.
Qed.

(** What [lstrip] leaves starts with a character that is not a space. *)
Lemma lstrip_head (l : list ascii) (c : ascii) (r : list ascii) :
  Py.lstrip_chars l = c :: r -> Py.isspace c = false.
Proof.
  induction l as [|a l IH]; cbn [Py.lstrip_chars]; [discriminate|].
  destruct (Py.isspace a) eqn:E; [exact IH|]. intros [= <- _]. exact E.
Qed.

Lemma lstrip_fixed (l : list ascii) :
  match l with c :: _ => Py.isspace c = false | [] => True end ->
  Py.lstrip_chars l = l.
Proof. destruct l as [|c l]; [reflexivity|]. cbn [Py.lstrip_chars]. now intros ->. Qed.

(** [lstrip] drops a prefix. *)
Lemma lstrip_suffix (l : list ascii) : exists p, l = p ++ Py.lstrip_chars l.
Proof.
  induction l as [|c l (p & IH)]; [now exists []|].
  cbn [Py.lstrip_chars]. destruct (Py.isspace c).
  - exists (c :: p). cbn [app]. now f_equal.
  - now exists [].
Qed.

Lemma strip_chars_idem (l : list ascii) :
  Py.strip_chars (Py.strip_chars l) = Py.strip_chars l.
Proof.
  unfold Py.strip_chars.
  set (L := Py.lstrip_chars l). set (R := Py.lstrip_chars (rev L)).
  assert (HL : Py.lstrip_chars (rev R) = rev R).
  { apply lstrip_fixed. destruct (rev R) as [|c t] eqn:E; [exact I|].
    destruct (lstrip_suffix (rev L)) as (p & Hp). fold R in Hp.
    apply (f_equal (@rev ascii)) in Hp. rewrite rev_involutive, rev_app_distr, E in Hp.
    cbn [app] in Hp. unfold L in Hp.
    exact (lstrip_head _ _ _ Hp). }
  rewrite HL, rev_involutive. unfold R. now rewrite lstrip_idem.
Qed.

Lemma strip_idem (s : string) : Py.strip (Py.strip s) = Py.strip s.
Proof.
  unfold Py.strip. now rewrite list_ascii_of_string_of_list_ascii, strip_chars_idem.
Qed.

(** The parameters other than [q] are read from the other pairs. *)
Lemma get_other_than_q (args : MultiDict) (key : string) :
  key <> "q" -> get (other_than_q args) key = get args key.
Proof.
  intros Hk. unfold other_than_q.
  induction args as [|[k v] d IH]; [reflexivity|].
  cbn [filter fst get]. destruct (String.eqb k "q") eqn:E; cbn [negb get].
  - apply String.eqb_eq in E. subst k.
    assert (Hne : String.eqb "q" key = false) by (apply String.eqb_neq; congruence).
    now rewrite Hne.
  - destruct (String.eqb k key); [reflexivity | exact IH].
Qed.

(** The attribute predicates come from the other pairs too, wherever
    [q] stands among them. *)
Lemma attrs_of_items_other_than_q (args : MultiDict) :
  forall keys keys' : list string,
    (forall k, k <> "q" -> seen k keys = seen k keys') ->
    attrs_of (items_from keys args) = attrs_of (items_from keys' (other_than_q args)).
Proof.
  unfold other_than_q.
  induction args as [|[k v] d IH]; intros keys keys' Hk; [reflexivity|].
  cbn [filter fst items_from]. destruct (String.eqb k "q") eqn:E; cbn [negb items_from].
  - apply String.eqb_eq in E. subst k.
    destruct (seen "q" keys); [now apply IH|].
    rewrite attrs_of_cons.
    change (Py.startswith "q" "attr_") with false. cbv iota.
    apply IH. intros k Hne. rewrite seen_cons.
    assert (Hq : String.eqb k "q" = false) by now apply String.eqb_neq.
    rewrite Hq. now apply Hk.
  - assert (Hne : k <> "q") by now apply String.eqb_neq.
    rewrite <- (Hk k Hne).
    assert (Hnext : forall k0, k0 <> "q" -> seen k0 (k :: keys) = seen k0 (k :: keys')).
    { intros k0 H0. rewrite !seen_cons. now rewrite (Hk k0 H0). }
    destruct (seen k keys); [now apply IH|].
    rewrite !attrs_of_cons. destruct (Py.startswith k "attr_").
    + f_equal. now apply IH.
    + now apply IH.
Qed.

(** The plan of [search] is made of the stripped text and of the
    parameters other than [q]. *)
Lemma search_body_congr (args args' : MultiDict) :
  SearchApi.query_text args = SearchApi.query_text args' ->
  other_than_q args = other_than_q args' ->
  SearchApi.search_body args = SearchApi.search_body args' /\
  SearchApi.page_of args = SearchApi.page_of args' /\
  SearchApi.size_of args = SearchApi.size_of args'.
Proof.
  intros Hq Ho.
  assert (Hg : forall key, key <> "q" -> get args key = get args' key).
  { intros key Hk. now rewrite <- (get_other_than_q args), <- (get_other_than_q args'), Ho. }
  assert (Ha : attrs_of (items args) = attrs_of (items args')).
  { unfold items. rewrite (attrs_of_items_other_than_q args [] []) by reflexivity.
    rewrite (attrs_of_items_other_than_q args' [] []) by reflexivity. now rewrite Ho. }
  assert (Hp : SearchApi.page_of args = SearchApi.page_of args').
  { unfold SearchApi.page_of, get_as_or, get_as. now rewrite (Hg "page") by discriminate. }
  assert (Hs : SearchApi.size_of args = SearchApi.size_of args').
  { unfold SearchApi.size_of, get_as_or, get_as. now rewrite (Hg "size") by discriminate. }
  assert (Hsort : get_or args "sort" "relevance" = get_or args' "sort" "relevance").
  { unfold get_or. now rewrite (Hg "sort") by discriminate. }
  assert (Hf : SearchApi.search_filters args = SearchApi.search_filters args').
  { rewrite !search_filters_eq. unfold status_of, get_as.
    rewrite (Hg "category_id"), (Hg "status"), (Hg "min_price"), (Hg "max_price"),
            (Hg "in_stock") by discriminate.
    now rewrite Ha. }
  split; [|split; assumption].
  unfold SearchApi.search_body. now rewrite Hq, Hsort, Hp, Hs, Hf.
Qed.

Lemma other_than_q_app (pre rest : MultiDict) (s : string) :
  other_than_q (pre ++ ("q", s) :: rest) = other_than_q pre ++ other_than_q rest.
Proof. unfold other_than_q. now rewrite filter_app. Qed.

Lemma get_app (pre rest : MultiDict) (key : string) :
  get (pre ++ rest) key = match get pre key with Some v => Some v | None => get rest key end.
Proof.
  induction pre as [|[k v] d IH]; [reflexivity|].
  cbn [app get]. destruct (String.eqb k key); [reflexivity | exact IH].
Qed.

(** X17: the plan of [search] depends on the parameter [q] only through
    its stripped text.  Two requests that carry the same other
    parameters in the same order, and whose [q] strips to the same text
    (a missing [q] counting as the empty text), get the same plan and
    the same answer from every engine, wherever [q] stands in the query
    string.  So white space around the query text never changes the
    plan: a request with [q] anywhere among its parameters and the same
    request with the stripped text in its place get the same plan. *)
Theorem X17_search_plan_ignores_space_around_text :
  (forall args args' : MultiDict,
     other_than_q args = other_than_q args' ->
     Py.strip (get_or args "q" "") = Py.strip (get_or args' "q" "") ->
     SearchApi.search_body args = SearchApi.search_body args' /\
     forall es : Engine, SearchApi.search args es = SearchApi.search args' es) /\
  (forall (pre rest : MultiDict) (s : string),
     SearchApi.search_body (pre ++ ("q", s) :: rest)
     = SearchApi.search_body (pre ++ ("q", Py.strip s) :: rest)).
Proof.
  split.
  - intros args args' Ho Hq.
    destruct (search_body_congr args args' Hq Ho) as (Hb & Hp & Hs).
    split; [exact Hb|].
    intros es. unfold SearchApi.search. now rewrite Hb, Hp, Hs.
  - intros pre rest s. apply search_body_congr.
    + unfold SearchApi.query_text, get_or. rewrite !get_app.
      destruct (get pre "q"); [reflexivity|].
      cbn [get String.eqb Ascii.eqb Bool.eqb]. symmetry. apply strip_idem.
    + now rewrite !other_than_q_app.
Qed.

Lemma X17_search_plan_witness :
  SearchApi.search_body [("sort", "newest"); ("q", "  boots "); ("attr_color", "Black")]
  = SearchApi.search_body [("q", "boots"); ("sort", "newest"); ("attr_color", "Black")].
Proof.
  destruct X17_search_plan_ignores_space_around_text as (H & _).
  apply H; reflexivity.
Defined.

(* ------------------------------------------------------------------ *)
(** * [catalog_search.py]: indexing products *)

Lemma lookup_set_same (key : string) (v : json) (kvs : list (string * json)) :
  Dict.lookup key (Dict.set key v kvs) = Some v.
Proof.
  induction kvs as [|[k w] kvs IH]; cbn [Dict.set Dict.lookup].
  - now rewrite String.eqb_refl.
  - destruct (String.eqb k key) eqn:E; cbn [Dict.lookup]; now rewrite E.
Qed.

Lemma lookup_set_other (key key' : string) (v : json) (kvs : list (string * json)) :
  key <> key' -> Dict.lookup key' (Dict.set key v kvs) = Dict.lookup key' kvs.
Proof.
  intros Hne. induction kvs as [|[k w] kvs IH]; cbn [Dict.set Dict.lookup].
  - apply String.eqb_neq in Hne. now rewrite Hne.
  - destruct (String.eqb k key) eqn:E; cbn [Dict.lookup].
    + apply String.eqb_eq in E. subst k. apply String.eqb_neq in Hne. now rewrite Hne.
    + destruct (String.eqb k key'); [reflexivity | exact IH].
Qed.

Lemma lookup_or_set_other (key key' : string) (v default : json)
      (kvs : list (string * json)) :
  key <> key' -> lookup_or (Dict.set key v kvs) key' default = lookup_or kvs key' default.
Proof. intros H. unfold lookup_or. now rewrite lookup_set_other. Qed.

Lemma max_1_int (n : Z) : CatalogIndex.max_1 (JInt n) = Ok (JInt (Z.max 1 n)).
Proof.
  cbn [CatalogIndex.max_1]. destruct (1 <? n) eqn:E; do 2 f_equal.
  - apply Z.ltb_lt in E. lia.
  - apply Z.ltb_ge in E. lia.
Qed.

Lemma action_ok (product : list (string * json)) (a : json) :
  indexed_as product a -> CatalogIndex.action product = Ok a.
Proof.
  intros (tags & n & Ht & Hn & ->).
  unfold CatalogIndex.action, CatalogIndex.name_suggest.
  rewrite Ht, Hn, max_1_int. cbn [Obj.iter rbind].
  now rewrite lookup_or_set_other by discriminate.
Qed.

(** X18: when every product of a batch has a list of tags (or none) and
    an integer stock level (or none), [index_products] hands
    [helpers.bulk] one batch with one action per product, in order, and
    returns what it returns.  Each action goes to the index [products]
    under the product's [product_id] (null when it has none); its
    document is the product with the entry [name_suggest] set: the name
    (or the empty string) followed by the tags as inputs, and a weight
    of at least 1, the stock level when that is greater.  Every other
    field of the product is in the document unchanged. *)
Theorem X18_index_products_builds_one_action_per_product
        (bulk : CatalogIndex.Bulk) (products : list (list (string * json)))
        (actions : list json) :
  Forall2 indexed_as products actions ->
  CatalogIndex.index_products bulk products = (bulk actions, [actions]) /\
  List.length actions = List.length products /\
  Forall2 (fun product a =>
             path ["_index"] a = Some (JStr "products") /\
             path ["_id"] a = Some (lookup_or product "product_id" JNull) /\
             (exists w, path ["_source"; "name_suggest"; "weight"] a = Some (JInt w)
                        /\ 1 <= w
                        /\ (forall n, Dict.lookup "stock_level" product = Some (JInt n) ->
                                      w = Z.max 1 n)) /\
             (forall key, key <> "name_suggest" ->
                path ["_source"; key] a = Dict.lookup key product))
          products actions.
Proof.
  intros H. split; [|split].
  - unfold CatalogIndex.index_products.
    rewrite (rmap_Forall2 _ products actions); [reflexivity|].
    eapply Forall2_impl; [|exact H]. apply action_ok.
  - symmetry. apply (Forall2_length H).
  - eapply Forall2_impl; [|exact H]. intros p a (tags & n & Ht & Hn & ->).
    split; [reflexivity|]. split; [reflexivity|]. split.
    + exists (Z.max 1 n). cbn [path Dict.lookup String.eqb Ascii.eqb Bool.eqb].
      rewrite lookup_set_same. cbn [path Dict.lookup String.eqb Ascii.eqb Bool.eqb].
      split; [reflexivity|]. split; [lia|].
      intros m Hm. unfold lookup_or in Hn. rewrite Hm in Hn. now injection Hn as ->.
    + intros key Hk. cbn [path Dict.lookup String.eqb Ascii.eqb Bool.eqb].
      rewrite lookup_set_other by congruence.
      now destruct (Dict.lookup key p).
Qed.

Lemma X18_index_products_witness :
  CatalogIndex.index_products (fun actions => Ok (JInt 1, JList []))
    [[("product_id", JStr "HB-900X"); ("name", JStr "Pro-Hiker Leather Boots");
      ("stock_level", JInt 0); ("tags", JList [JStr "waterproof"; JStr "leather"])]]
  = (Ok (JInt 1, JList []),
     [[JDict [("_index", JStr "products");
              ("_id", JStr "HB-900X");
              ("_source",
                JDict [("product_id", JStr "HB-900X");
                       ("name", JStr "Pro-Hiker Leather Boots");
                       ("stock_level", JInt 0);
                       ("tags", JList [JStr "waterproof"; JStr "leather"]);
                       ("name_suggest",
                         JDict [("input", JList [JStr "Pro-Hiker Leather Boots";
                                                 JStr "waterproof"; JStr "leather"]);
                                ("weight", JInt 1)])])]]]).
Proof.
  apply (X18_index_products_builds_one_action_per_product
           (fun actions => Ok (JInt 1, JList []))).
  repeat constructor.
  exists [JStr "waterproof"; JStr "leather"], 0. repeat split.
Defined.

(** X19: a product whose [tags] entry cannot be unpacked (null, a
    boolean or a number), or whose [stock_level] cannot be compared
    with 1 (null, a string, a list or a dict), stops [index_products]
    with [TypeError] before [helpers.bulk] is called, whatever its
    other fields are: nothing of the batch is sent, also when the
    products before it were fine. *)
Theorem X19_index_products_sends_nothing_after_a_bad_product
        (bulk : CatalogIndex.Bulk) (pre : list (list (string * json)))
        (actions : list json) (bad : list (string * json))
        (post : list (list (string * json))) :
  Forall2 indexed_as pre actions ->
  (exists v, Dict.lookup "tags" bad = Some v /\ not_iterable v = true)
  \/ (exists v, Dict.lookup "stock_level" bad = Some v /\ not_comparable v = true) ->
  CatalogIndex.index_products bulk (pre ++ bad :: post) = (Raise TypeError, []).
Proof.
  intros Hpre Hbad. unfold CatalogIndex.index_products.
  rewrite (rmap_raise _ pre actions bad post TypeError); [reflexivity| |].
  - eapply Forall2_impl; [|exact Hpre]. apply action_ok.
  - unfold CatalogIndex.action, CatalogIndex.name_suggest, lookup_or.
    destruct Hbad as [(v & Ht & Hv)|(v & Hs & Hv)].
    + rewrite Ht. destruct v; (discriminate Hv || reflexivity).
    + rewrite Hs.
      destruct (Dict.lookup "tags" bad) as [[]|]; destruct v;
        (discriminate Hv || reflexivity).
Qed.

Lemma X19_index_products_witness :
  CatalogIndex.index_products (fun actions => Ok (JInt 0, JList []))
    [[("product_id", JStr "A"); ("name", JStr "Boots")];
     [("product_id", JStr "B"); ("tags", JList [JStr "leather"]); ("stock_level", JNull)]]
  = (Raise TypeError, []).
Proof.
  eapply (X19_index_products_sends_nothing_after_a_bad_product _
            [[("product_id", JStr "A"); ("name", JStr "Boots")]] _
            [("product_id", JStr "B"); ("tags", JList [JStr "leather"]);
             ("stock_level", JNull)] []).
  - repeat constructor. exists [], 1. repeat split.
  - right. exists JNull. split; reflexivity.
Defined.

(** X20: [create_index] is safe to call again.  On an engine where an
    index exists once it has been created, a call that succeeded leaves
    a state in which the next call creates nothing, changes nothing and
    reports that the index already exists; and whenever the index
    exists, [create_index] leaves the engine as it is. *)
Theorem X20_create_index_is_idempotent
        {St : Type} `{CatalogIndex.Indices St} (st st' : St) (line : string) :
  (forall s index body s',
     CatalogIndex.indices_create s index body = Ok s' ->
     CatalogIndex.indices_exists s' index = Ok true) ->
  CatalogIndex.create_index st = Ok (st', line) ->
  CatalogIndex.create_index st' = Ok (st', "Index 'products' already exists") /\
  (CatalogIndex.indices_exists st "products" = Ok true -> st' = st).
Proof.
  intros Hlaw Hrun. unfold CatalogIndex.create_index in *.
  destruct (CatalogIndex.indices_exists st CatalogIndex.INDEX) as [[|]|e] eqn:E;
    cbn [rbind negb] in Hrun; try discriminate.
  - injection Hrun as <- <-. rewrite E. cbn [rbind negb]. split; [reflexivity|auto].
  - destruct (CatalogIndex.indices_create st CatalogIndex.INDEX CatalogIndex.MAPPING)
      as [s|e] eqn:Ec; cbn [rbind] in Hrun; [|discriminate].
    injection Hrun as <- <-. rewrite (Hlaw _ _ _ _ Ec). cbn [rbind negb].
    split; [reflexivity|]. unfold CatalogIndex.INDEX in E. rewrite E. discriminate.
Qed.

Lemma X20_create_index_witness :
  CatalogIndex.create_index ["products"; "orders"]
  = Ok (["products"; "orders"], "Index 'products' already exists").
Proof.
  refine (proj1 (X20_create_index_is_idempotent
                   (H := CatalogIndex.names_indices)
                   ["orders"] ["products"; "orders"] "Created index 'products'" _ _)).
  - intros s index body s' Hc. cbn in Hc |- *.
    destruct (existsb (String.eqb index) s); [discriminate|].
    injection Hc as <-. cbn. now rewrite String.eqb_refl.
  - reflexivity.
Defined.

(* ------------------------------------------------------------------ *)
(** * [setup_elasticsearch.py]: the order of the setup *)

Module SetupFacts.
Import SetupElasticsearch.

(** The calls of a run are the first calls of the full sequence, and
    all of it when the run succeeds. *)
Lemma run_calls_prefix (es : Client) :
  exists n : nat,
    fst (snd (run es)) = firstn n (Info :: resources) /\
    (fst (run es) = Ok tt -> n = 5%nat).
Proof.
  unfold run, main, create_inference_endpoint, create_synonym_set,
    create_ingest_pipeline, create_index, sbind, call, print, slift.
  cbn [fst snd app].
  destruct (es Info) as [info|e]; [|exists 1%nat; split; [reflexivity | discriminate]].
  destruct (Obj.getitem info "version") as [version|e];
    [|exists 1%nat; split; [reflexivity | discriminate]].
  destruct (Obj.getitem version "number") as [number|e];
    [|exists 1%nat; split; [reflexivity | discriminate]].
  cbn [fst snd app].
  destruct (es (InferencePut _ _ _)) as [?|e];
    [|exists 2%nat; split; [reflexivity | discriminate]].
  cbn [fst snd app].
  destruct (es (PutSynonym _ _)) as [?|e];
    [|exists 3%nat; split; [reflexivity | discriminate]].
  cbn [fst snd app].
  destruct (es (PutPipeline _ _)) as [?|e];
    [|exists 4%nat; split; [reflexivity | discriminate]].
  cbn [fst snd app].
  destruct (es (IndicesCreate _ _)) as [?|e];
    exists 5%nat; split; reflexivity.
Qed.

End SetupFacts.

(** A list that starts like [l] and holds [x] shows where [x] is in [l]. *)
Lemma prefix_split {A : Type} (l : list A) (n : nat) (before : list A) (x : A)
      (after : list A) :
  firstn n l = before ++ x :: after -> exists rest, l = before ++ x :: rest.
Proof.
  intros H. exists (after ++ skipn n l).
  rewrite <- (firstn_skipn n l) at 1. rewrite H, <- app_assoc. reflexivity.
Qed.

(** The first element of [before] in an equation [l = before ++ ...]. *)
Ltac peel E before :=
  destruct before as [|? before]; cbn [app] in E;
  [ | let E' := fresh in injection E as <- E' ; rename E' into E ].

(** X21: whatever the server does, the setup script calls it in one
    order: the server info, then the inference endpoint, the synonym
    set, the ingest pipeline and the index; the calls of a run are the
    first calls of this sequence, each made once, and all five when the
    run succeeds.  So the pipeline is only created after the inference
    endpoint whose id it names, and the index only after the synonym
    set that its synonym filter names. *)
Theorem X21_setup_creates_resources_in_dependency_order
        (es : SetupElasticsearch.Client) :
  let calls := fst (snd (SetupElasticsearch.run es)) in
  (exists n : nat,
     calls = firstn n (SetupElasticsearch.Info :: SetupElasticsearch.resources)) /\
  (fst (SetupElasticsearch.run es) = Ok tt ->
     calls = SetupElasticsearch.Info :: SetupElasticsearch.resources) /\
  NoDup calls /\
  (forall before id body after,
     calls = before ++ SetupElasticsearch.PutPipeline id body :: after ->
     exists task inference_id config,
       In (SetupElasticsearch.InferencePut task inference_id config) before /\
       names inference_id body = true) /\
  (forall before index body after,
     calls = before ++ SetupElasticsearch.IndicesCreate index body :: after ->
     exists id synonyms,
       In (SetupElasticsearch.PutSynonym id synonyms) before /\
       path ["settings"; "analysis"; "filter"; "product_synonyms"; "synonyms_set"] body
         = Some (JStr id)).
Proof.
  cbv zeta. destruct (SetupFacts.run_calls_prefix es) as (n & Hn & Hok).
  split; [eauto|]. split; [intros H; rewrite Hn, (Hok H); reflexivity|].
  rewrite Hn. clear Hn Hok.
  assert (Hcases : (n = 0 \/ n = 1 \/ n = 2 \/ n = 3 \/ n = 4 \/ 5 <= n)%nat) by lia.
  assert (H5 : (5 <= n)%nat ->
               firstn n (SetupElasticsearch.Info :: SetupElasticsearch.resources)
               = SetupElasticsearch.Info :: SetupElasticsearch.resources).
  { intros H. apply firstn_all2. exact H. }
  unfold SetupElasticsearch.resources in *.
  split; [|split].
  - destruct Hcases as [->|[->|[->|[->|[->|H]]]]]; [| | | | |rewrite (H5 H)];
      cbn [firstn];
      repeat constructor; cbn [In]; intuition discriminate.
  - intros before id body after E.
    exists "text_embedding", SetupElasticsearch.INFERENCE_ID,
           SetupElasticsearch.inference_config.
    apply prefix_split in E as (rest & E).
    do 3 (peel E before; [discriminate E|]).
    peel E before; [injection E as <- <- _; split; [cbn [In]; auto | reflexivity]|].
    peel E before; [discriminate E|]. destruct before; discriminate E.
  - intros before index body after E.
    exists SetupElasticsearch.SYNONYM_SET_ID, SetupElasticsearch.synonyms_body.
    apply prefix_split in E as (rest & E).
    do 4 (peel E before; [discriminate E|]).
    peel E before; [injection E as <- <- _; split; [cbn [In]; auto | reflexivity]|].
    destruct before; discriminate E.
Qed.

(** X22: the setup script stops at the first call that fails and
    passes the failure on.  When the server info cannot be read, or has
    no version number, nothing is created.  When the creation of a
    resource fails, the resources before it have been created, it is
    the last call, and no later resource is tried; the lines printed end
    with the announcement of the failing step.  When no call fails, all
    four resources are created and the ten lines of a complete run are
    printed. *)
Theorem X22_setup_stops_at_first_failure
        (es : SetupElasticsearch.Client) (info version number : json) :
  (forall e, es SetupElasticsearch.Info = Raise e ->
     SetupElasticsearch.run es = (Raise e, ([SetupElasticsearch.Info], []))) /\
  (es SetupElasticsearch.Info = Ok info -> Obj.getitem info "version" = Raise KeyError ->
     SetupElasticsearch.run es = (Raise KeyError, ([SetupElasticsearch.Info], []))) /\
  (es SetupElasticsearch.Info = Ok info ->
   has info "version" version -> has version "number" number ->
   (forall pre c post e,
      SetupElasticsearch.resources = pre ++ c :: post ->
      (forall c', In c' pre -> exists v, es c' = Ok v) ->
      es c = Raise e ->
      SetupElasticsearch.run es =
        (Raise e, (SetupElasticsearch.Info :: pre ++ [c],
                   firstn (2 * List.length pre + 2) (setup_lines number)))) /\
   ((forall c, In c SetupElasticsearch.resources -> exists v, es c = Ok v) ->
      SetupElasticsearch.run es =
        (Ok tt, (SetupElasticsearch.Info :: SetupElasticsearch.resources,
                 setup_lines number)))).
Proof.
  unfold SetupElasticsearch.run, SetupElasticsearch.main,
    SetupElasticsearch.create_inference_endpoint, SetupElasticsearch.create_synonym_set,
    SetupElasticsearch.create_ingest_pipeline, SetupElasticsearch.create_index,
    SetupElasticsearch.sbind, SetupElasticsearch.call, SetupElasticsearch.print,
    SetupElasticsearch.slift, SetupElasticsearch.resources.
  cbn [fst snd app].
  split; [intros e ->; reflexivity|].
  split; [intros -> ->; reflexivity|].
  intros -> Hv Hn. rewrite (getitem_has _ _ _ Hv), (getitem_has _ _ _ Hn).
  cbn [fst snd app]. split.
  - intros pre c post e E Hpre He.
    peel E pre; [injection E as <- _; rewrite He; reflexivity|].
    destruct (Hpre _ (or_introl eq_refl)) as (v1 & ->). cbn [fst snd app].
    peel E pre; [injection E as <- _; rewrite He; reflexivity|].
    destruct (Hpre _ (or_intror (or_introl eq_refl))) as (v2 & ->). cbn [fst snd app].
    peel E pre; [injection E as <- _; rewrite He; reflexivity|].
    destruct (Hpre _ (or_intror (or_intror (or_introl eq_refl)))) as (v3 & ->).
    cbn [fst snd app].
    peel E pre; [injection E as <- _; rewrite He; reflexivity|].
    destruct pre; discriminate E.
  - intros Hall.
    destruct (Hall _ (or_introl eq_refl)) as (v1 & ->). cbn [fst snd app].
    destruct (Hall _ (or_intror (or_introl eq_refl))) as (v2 & ->). cbn [fst snd app].
    destruct (Hall _ (or_intror (or_intror (or_introl eq_refl)))) as (v3 & ->).
    cbn [fst snd app].
    destruct (Hall _ (or_intror (or_intror (or_intror (or_introl eq_refl)))))
      as (v4 & ->).
    reflexivity.
Qed.

Lemma X22_setup_witness :
  SetupElasticsearch.run
    (fun c => match c with
              | SetupElasticsearch.Info =>
                  Ok (JDict [("version", JDict [("number", JStr "8.15.0")])])
              | SetupElasticsearch.PutSynonym _ _ => Raise EngineError
              | _ => Ok JNull
              end)
  = (Raise EngineError,
     ([SetupElasticsearch.Info;
       SetupElasticsearch.InferencePut "text_embedding" "product-embedding-model"
         SetupElasticsearch.inference_config;
       SetupElasticsearch.PutSynonym "product-synonyms" SetupElasticsearch.synonyms_body],
      [SetupElasticsearch.Connected (JStr "8.15.0");
       SetupElasticsearch.Line "Creating inference endpoint 'product-embedding-model'...";
       SetupElasticsearch.Line "  Done — inference endpoint created";
       SetupElasticsearch.Line "Creating synonym set 'product-synonyms'..."])).
Proof.
  pose proof (X22_setup_stops_at_first_failure
    (fun c => match c with
              | SetupElasticsearch.Info =>
                  Ok (JDict [("version", JDict [("number", JStr "8.15.0")])])
              | SetupElasticsearch.PutSynonym _ _ => Raise EngineError
              | _ => Ok JNull
              end)
    (JDict [("version", JDict [("number", JStr "8.15.0")])])
    (JDict [("number", JStr "8.15.0")]) (JStr "8.15.0")) as (_ & _ & H).
  destruct (H eq_refl) as (H' & _); [found | found |].
  apply (H' [SetupElasticsearch.InferencePut "text_embedding" "product-embedding-model"
               SetupElasticsearch.inference_config]
            (SetupElasticsearch.PutSynonym "product-synonyms"
               SetupElasticsearch.synonyms_body)
            [SetupElasticsearch.PutPipeline "product-embedding-pipeline"
               SetupElasticsearch.pipeline_body;
             SetupElasticsearch.IndicesCreate "products-v1"
               SetupElasticsearch.index_body]
            EngineError).
  - reflexivity.
  - intros c' [<-|[]]. eexists. reflexivity.
  - reflexivity.
Defined.

(* ------------------------------------------------------------------ *)
(** * [ingest_from_postgres.py]: attributes as name and value pairs *)

Section TransformFacts.
Variable str : json -> string.

Lemma transform_step_app (result : list json) (kv : string * json) :
  IngestFromPostgres.transform_step str result kv = result ++ pairs_of_attribute str kv.
Proof.
  destruct kv as [k v]. unfold IngestFromPostgres.transform_step, pairs_of_attribute.
  cbn [fst snd]. destruct v; try reflexivity.
  revert result. induction l as [|x l IH]; intros result; cbn [fold_left map].
  - now rewrite app_nil_r.
  - now rewrite IH, <- app_assoc.
Qed.

(** The loop of [transform_attributes], attribute by attribute. *)
Lemma transform_attributes_flat (kvs : list (string * json)) :
  IngestFromPostgres.transform_attributes str (JDict kvs)
  = flat_map (pairs_of_attribute str) kvs.
Proof.
  cbn [IngestFromPostgres.transform_attributes].
  enough (H : forall init, fold_left (IngestFromPostgres.transform_step str) kvs init
                           = init ++ flat_map (pairs_of_attribute str) kvs)
    by apply (H []).
  induction kvs as [|kv kvs IH]; intros init; cbn [fold_left flat_map].
  - now rewrite app_nil_r.
  - now rewrite IH, transform_step_app, <- app_assoc.
Qed.

Lemma pairs_of_attribute_shape (kv : string * json) :
  Forall (fun p => exists value, p = JDict [("name", JStr (fst kv)); ("value", JStr value)])
         (pairs_of_attribute str kv).
Proof.
  unfold pairs_of_attribute. destruct (snd kv);
    try (repeat constructor; eexists; reflexivity).
  apply Forall_forall. intros p Hp. apply in_map_iff in Hp as (v & <- & _).
  eexists. reflexivity.
Qed.

(** Every record is a name and a value, both strings. *)
Lemma transform_attributes_records (attrs : json) :
  Forall is_name_value (IngestFromPostgres.transform_attributes str attrs).
Proof.
  destruct attrs; try constructor.
  rewrite transform_attributes_flat. apply Forall_forall. intros p Hp.
  apply in_flat_map in Hp as (kv & _ & Hp).
  pose proof (pairs_of_attribute_shape kv) as Hs.
  rewrite Forall_forall in Hs. destruct (Hs p Hp) as (value & ->).
  eexists _, _. reflexivity.
Qed.

End TransformFacts.

(** X23: [transform_attributes] turns a JSONB dict into the records of
    the nested field, attribute by attribute in the order of the dict:
    one record for a value that is not a list, one per element for a
    list, so an attribute whose value is the empty list leaves no
    record.  Every record is a dict with exactly a [name], which is a
    key of the dict, and a [value], which is a string; what is not a
    dict gives no record. *)
Theorem X23_transform_attributes_gives_name_value_records
        (str : json -> string) (attrs : json) :
  Forall is_name_value (IngestFromPostgres.transform_attributes str attrs) /\
  (forall kvs, attrs = JDict kvs ->
     IngestFromPostgres.transform_attributes str attrs
       = flat_map (pairs_of_attribute str) kvs /\
     (forall p, In p (IngestFromPostgres.transform_attributes str attrs) ->
        exists key value, In key (map fst kvs) /\
                          p = JDict [("name", JStr key); ("value", JStr value)]) /\
     (forall key, Dict.lookup key kvs = Some (JList []) -> NoDup (map fst kvs) ->
        forall value, ~ In (JDict [("name", JStr key); ("value", JStr value)])
                           (IngestFromPostgres.transform_attributes str attrs))) /\
  ((forall kvs, attrs <> JDict kvs) ->
     IngestFromPostgres.transform_attributes str attrs = []).
Proof.
  assert (Hin : forall kvs p, In p (flat_map (pairs_of_attribute str) kvs) ->
     exists key v value, In (key, v) kvs /\ In p (pairs_of_attribute str (key, v)) /\
                         p = JDict [("name", JStr key); ("value", JStr value)]).
  { intros kvs p Hp. apply in_flat_map in Hp as ([k v] & Hkv & Hp).
    pose proof (pairs_of_attribute_shape str (k, v)) as Hs.
    rewrite Forall_forall in Hs. destruct (Hs p Hp) as (value & ->).
    exists k, v, value. auto. }
  split; [apply transform_attributes_records|split].
  - intros kvs ->. rewrite transform_attributes_flat.
    split; [reflexivity|]. split.
    + intros p Hp. destruct (Hin _ _ Hp) as (k & v & value & Hkv & _ & ->).
      exists k, value. split; [|reflexivity].
      apply in_map_iff. exists (k, v). auto.
    + intros key Hk Hnd value Hp.
      destruct (Hin _ _ Hp) as (k & v & value' & Hkv & Hpv & E).
      injection E as <- _.
      assert (Hv : v = JList []).
      { clear - Hk Hnd Hkv. induction kvs as [|[k0 v0] kvs IH]; [destruct Hkv|].
        cbn [map fst] in Hnd. inversion Hnd as [|? ? Hk0 Hnd']; subst.
        cbn [Dict.lookup] in Hk. destruct Hkv as [[= -> ->]|Hkv].
        - rewrite String.eqb_refl in Hk. now injection Hk.
        - destruct (String.eqb k0 key) eqn:E.
          + apply String.eqb_eq in E. subst k0. exfalso. apply Hk0.
            apply in_map_iff. exists (key, v). auto.
          + auto. }
      subst v. destruct Hpv.
  - intros Hn. destruct attrs; try reflexivity. now destruct (Hn kvs).
Qed.

Lemma X23_transform_attributes_witness :
  IngestFromPostgres.transform_attributes
    (fun v => match v with JStr s => s | _ => "" end)
    (JDict [("color", JStr "Black");
            ("connectivity", JList [JStr "USB-C"; JStr "Bluetooth"])])
  = [JDict [("name", JStr "color"); ("value", JStr "Black")];
     JDict [("name", JStr "connectivity"); ("value", JStr "USB-C")];
     JDict [("name", JStr "connectivity"); ("value", JStr "Bluetooth")]].
Proof.
  destruct (X23_transform_attributes_gives_name_value_records
              (fun v => match v with JStr s => s | _ => "" end)
              (JDict [("color", JStr "Black");
                      ("connectivity", JList [JStr "USB-C"; JStr "Bluetooth"])]))
    as (_ & H & _).
  destruct (H _ eq_refl) as (-> & _). reflexivity.
Defined.

(* ------------------------------------------------------------------ *)
(** * [ingest_from_postgres.py]: the action of a row *)

Module IngestFacts.
Import IngestFromPostgres.

Lemma doc_get_set_same (key : string) (v : docval) (doc : Doc) :
  doc_get key (doc_set key v doc) = Some v.
Proof.
  induction doc as [|[k w] doc IH]; cbn [doc_set doc_get].
  - now rewrite String.eqb_refl.
  - destruct (String.eqb k key) eqn:E; cbn [doc_get]; now rewrite E.
Qed.

Lemma doc_get_set_other (key key' : string) (v : docval) (doc : Doc) :
  key <> key' -> doc_get key' (doc_set key v doc) = doc_get key' doc.
Proof.
  intros Hne. induction doc as [|[k w] doc IH]; cbn [doc_set doc_get].
  - apply String.eqb_neq in Hne. now rewrite Hne.
  - destruct (String.eqb k key) eqn:E; cbn [doc_get].
    + apply String.eqb_eq in E. subst k. apply String.eqb_neq in Hne. now rewrite Hne.
    + destruct (String.eqb k key'); [reflexivity | exact IH].
Qed.

(** A date under [field] becomes its ISO text; nothing else changes. *)
Lemma doc_get_isoformat_same (doc : Doc) (field : string) :
  doc_get field (isoformat_field doc field) =
  match doc_get field doc with
  | Some (Row (PgDate iso)) => Some (Row (PgJson (JStr iso)))
  | other => other
  end.
Proof.
  unfold isoformat_field.
  destruct (doc_get field doc) as [[[j|iso|r]|l|i w]|] eqn:E; try exact E.
  apply doc_get_set_same.
Qed.

Lemma doc_get_isoformat_other (doc : Doc) (field key : string) :
  field <> key -> doc_get key (isoformat_field doc field) = doc_get key doc.
Proof.
  intros Hne. unfold isoformat_field.
  destruct (doc_get field doc) as [[[j|iso|r]|l|i w]|]; try reflexivity.
  now apply doc_get_set_other.
Qed.

Lemma isoformat_not_date (doc : Doc) (field : string) :
  is_date (doc_get field (isoformat_field doc field)) = false.
Proof.
  rewrite doc_get_isoformat_same.
  now destruct (doc_get field doc) as [[[j|iso|r]|l|i w]|].
Qed.

End IngestFacts.

(** X24: for a row whose [stock_quantity] is an integer [n], or that
    has no such column ([n] = 1), the body of [generate_actions] yields
    an action for the alias [products] through the embedding pipeline,
    with the row's [sku] as id (null without one).  In its document the
    entry [attributes] is the list of records of the row's JSONB
    attributes (empty when the column is missing or is no dict), the
    suggestion has the row's name (or the empty string) as its one input
    and the weight [max(1, n)], which is at least 1; [created_at] and
    [updated_at] are no longer date objects; every other column is as in
    the row. *)
Theorem X24_action_of_row_document
        (str : json -> string) (row : IngestFromPostgres.PgRow) (n : Z) :
  let doc := IngestFromPostgres.doc_of_row row in
  (IngestFromPostgres.doc_get "stock_quantity" doc = None /\ n = 1) \/
  IngestFromPostgres.doc_get "stock_quantity" doc
    = Some (IngestFromPostgres.Row (IngestFromPostgres.PgJson (JInt n))) ->
  exists a,
    IngestFromPostgres.action_of_row str row = Ok a /\
    IngestFromPostgres.action_index a = "products" /\
    IngestFromPostgres.action_pipeline a = "product-embedding-pipeline" /\
    IngestFromPostgres.action_id a =
      match IngestFromPostgres.doc_get "sku" doc with
      | Some v => v
      | None => IngestFromPostgres.Row (IngestFromPostgres.PgJson JNull)
      end /\
    (exists records,
       IngestFromPostgres.doc_get "attributes" (IngestFromPostgres.action_source a)
         = Some (IngestFromPostgres.Attributes records) /\
       Forall is_name_value records /\
       (forall j, IngestFromPostgres.doc_get "attributes" doc
                   = Some (IngestFromPostgres.Row (IngestFromPostgres.PgJson j)) ->
                  records = IngestFromPostgres.transform_attributes str j)) /\
    IngestFromPostgres.doc_get "name_suggest" (IngestFromPostgres.action_source a)
      = Some (IngestFromPostgres.NameSuggest
                match IngestFromPostgres.doc_get "name" doc with
                | Some v => v
                | None => IngestFromPostgres.Row (IngestFromPostgres.PgJson (JStr ""))
                end
                (JInt (Z.max 1 n))) /\
    1 <= Z.max 1 n /\
    is_date (IngestFromPostgres.doc_get "created_at" (IngestFromPostgres.action_source a))
      = false /\
    is_date (IngestFromPostgres.doc_get "updated_at" (IngestFromPostgres.action_source a))
      = false /\
    (forall key, key <> "attributes" -> key <> "name_suggest" ->
                 key <> "created_at" -> key <> "updated_at" ->
       IngestFromPostgres.doc_get key (IngestFromPostgres.action_source a)
       = IngestFromPostgres.doc_get key doc).
Proof.
  cbv zeta. intros Hs.
  unfold IngestFromPostgres.action_of_row.
  set (doc := IngestFromPostgres.doc_of_row row) in *.
  set (records := match IngestFromPostgres.doc_get "attributes" doc with
                  | Some (IngestFromPostgres.Row (IngestFromPostgres.PgJson j)) =>
                      IngestFromPostgres.transform_attributes str j
                  | _ => []
                  end).
  assert (Hw : IngestFromPostgres.weight_of
                 (IngestFromPostgres.doc_set "attributes"
                    (IngestFromPostgres.Attributes records) doc)
               = Ok (JInt (Z.max 1 n))).
  { unfold IngestFromPostgres.weight_of.
    rewrite IngestFacts.doc_get_set_other by discriminate.
    destruct Hs as [[-> ->] | ->]; [reflexivity | apply max_1_int]. }
  rewrite Hw, rbind_ok. eexists. split; [reflexivity|].
  cbn [IngestFromPostgres.action_index IngestFromPostgres.action_pipeline
       IngestFromPostgres.action_id IngestFromPostgres.action_source fold_left].
  split; [reflexivity|]. split; [reflexivity|].
  split.
  { now rewrite !IngestFacts.doc_get_isoformat_other, !IngestFacts.doc_get_set_other
      by discriminate. }
  split.
  { exists records.
    rewrite !IngestFacts.doc_get_isoformat_other by discriminate.
    rewrite IngestFacts.doc_get_set_other by discriminate.
    rewrite IngestFacts.doc_get_set_same.
    split; [reflexivity|]. split.
    - unfold records.
      destruct (IngestFromPostgres.doc_get "attributes" doc) as [[[j|iso|r]|l|i w]|];
        try constructor.
      apply transform_attributes_records.
    - intros j Hj. unfold records. now rewrite Hj. }
  split.
  { rewrite !IngestFacts.doc_get_isoformat_other by discriminate.
    rewrite IngestFacts.doc_get_set_same.
    now rewrite IngestFacts.doc_get_set_other by discriminate. }
  split; [lia|].
  split.
  { rewrite IngestFacts.doc_get_isoformat_other by discriminate.
    apply IngestFacts.isoformat_not_date. }
  split; [apply IngestFacts.isoformat_not_date|].
  intros key H1 H2 H3 H4.
  now rewrite !IngestFacts.doc_get_isoformat_other, !IngestFacts.doc_get_set_other
    by congruence.
Qed.

Lemma X24_action_of_row_witness :
  exists a,
    IngestFromPostgres.action_of_row (fun _ => "")
      [("sku", IngestFromPostgres.PgJson (JStr "KB-1"));
       ("stock_quantity", IngestFromPostgres.PgJson (JInt 0));
       ("created_at", IngestFromPostgres.PgDate "2024-05-01T10:00:00")] = Ok a /\
    IngestFromPostgres.doc_get "name_suggest" (IngestFromPostgres.action_source a)
      = Some (IngestFromPostgres.NameSuggest
                (IngestFromPostgres.Row (IngestFromPostgres.PgJson (JStr ""))) (JInt 1)) /\
    is_date (IngestFromPostgres.doc_get "created_at" (IngestFromPostgres.action_source a))
      = false.
Proof.
  destruct (X24_action_of_row_document (fun _ => "")
              [("sku", IngestFromPostgres.PgJson (JStr "KB-1"));
               ("stock_quantity", IngestFromPostgres.PgJson (JInt 0));
               ("created_at", IngestFromPostgres.PgDate "2024-05-01T10:00:00")] 0)
    as (a & Ha & _ & _ & _ & _ & Hs & _ & Hd & _).
  - right. reflexivity.
  - exists a. auto.
Defined.

(** The generator yields an action per row as long as the body
    succeeds. *)
Lemma generate_actions_ok (str : json -> string)
      (rows : list IngestFromPostgres.PgRow) (actions : list IngestFromPostgres.Action) :
  Forall2 (fun row a => IngestFromPostgres.action_of_row str row = Ok a) rows actions ->
  IngestFromPostgres.generate_actions str rows = (actions, None).
Proof.
  induction 1 as [|row a rows actions Ha _ IH]; [reflexivity|].
  cbn [IngestFromPostgres.generate_actions]. now rewrite Ha, IH.
Qed.

Lemma generate_actions_stop (str : json -> string)
      (pre : list IngestFromPostgres.PgRow) (actions : list IngestFromPostgres.Action)
      (bad : IngestFromPostgres.PgRow) (post : list IngestFromPostgres.PgRow) (e : PyExc) :
  Forall2 (fun row a => IngestFromPostgres.action_of_row str row = Ok a) pre actions ->
  IngestFromPostgres.action_of_row str bad = Raise e ->
  IngestFromPostgres.generate_actions str (pre ++ bad :: post) = (actions, Some e).
Proof.
  intros Hpre Hbad. induction Hpre as [|row a rows actions' Ha _ IH];
    cbn [app IngestFromPostgres.generate_actions].
  - now rewrite Hbad.
  - now rewrite Ha, IH.
Qed.

(** X25: [generate_actions] yields one action per row, in order, while
    the rows can be turned into actions; a row whose [stock_quantity] is
    NULL ends the generator with [TypeError]: the rows before it have
    been yielded, the row itself and all rows after it are not. *)
Theorem X25_generate_actions_stops_at_null_stock
        (str : json -> string) (pre : list IngestFromPostgres.PgRow)
        (actions : list IngestFromPostgres.Action) :
  Forall2 (fun row a => IngestFromPostgres.action_of_row str row = Ok a) pre actions ->
  IngestFromPostgres.generate_actions str pre = (actions, None) /\
  List.length actions = List.length pre /\
  (forall bad post,
     IngestFromPostgres.doc_get "stock_quantity" (IngestFromPostgres.doc_of_row bad)
       = Some (IngestFromPostgres.Row (IngestFromPostgres.PgJson JNull)) ->
     IngestFromPostgres.action_of_row str bad = Raise TypeError /\
     IngestFromPostgres.generate_actions str (pre ++ bad :: post)
       = (actions, Some TypeError)).
Proof.
  intros Hpre. split; [now apply generate_actions_ok|].
  split; [symmetry; apply (Forall2_length Hpre)|].
  intros bad post Hbad.
  assert (Hb : IngestFromPostgres.action_of_row str bad = Raise TypeError).
  { unfold IngestFromPostgres.action_of_row, IngestFromPostgres.weight_of.
    rewrite IngestFacts.doc_get_set_other by discriminate. now rewrite Hbad. }
  split; [exact Hb | now apply generate_actions_stop].
Qed.

Lemma X25_generate_actions_witness :
  IngestFromPostgres.generate_actions (fun _ => "")
    [[("sku", IngestFromPostgres.PgJson (JStr "A"))];
     [("sku", IngestFromPostgres.PgJson (JStr "B"));
      ("stock_quantity", IngestFromPostgres.PgJson JNull)];
     [("sku", IngestFromPostgres.PgJson (JStr "C"))]]
  = ([{| IngestFromPostgres.action_index := "products";
         IngestFromPostgres.action_id :=
           IngestFromPostgres.Row (IngestFromPostgres.PgJson (JStr "A"));
         IngestFromPostgres.action_pipeline := "product-embedding-pipeline";
         IngestFromPostgres.action_source :=
           [("sku", IngestFromPostgres.Row (IngestFromPostgres.PgJson (JStr "A")));
            ("attributes", IngestFromPostgres.Attributes []);
            ("name_suggest",
              IngestFromPostgres.NameSuggest
                (IngestFromPostgres.Row (IngestFromPostgres.PgJson (JStr ""))) (JInt 1))] |}],
     Some TypeError).
Proof.
  edestruct (X25_generate_actions_stops_at_null_stock (fun _ => "")
               [[("sku", IngestFromPostgres.PgJson (JStr "A"))]]) as (_ & _ & H).
  - constructor; [reflexivity | constructor].
  - apply H. reflexivity.
Defined.

(* ------------------------------------------------------------------ *)
(** * [ingest_from_postgres.py]: the script and its resources *)

Module IngestRun.
Import IngestFromPostgres.

Lemma quiet_prints {A : Type} (f : A -> Printed) (l : list A) :
  Forall quiet (map (fun x => Print (f x)) l).
Proof. induction l; constructor; [repeat split | assumption]. Qed.

(** Up to [cursor.execute] nothing is closed and nothing is indexed;
    the only connection is the one [get_pg_connection] asks for. *)
Lemma open_query_events (env : Env) (w : World) :
  Forall (fun e => is_close_cursor e = false /\ is_close_conn e = false
                   /\ is_bulk e = false) (fst (open_query env w)).
Proof.
  unfold open_query, get_pg_connection.
  destruct (make_client w _); [repeat constructor|].
  destruct (environ_get env "PG_DB") as [db|]; [|repeat constructor].
  destruct (Py.truthy db); [|repeat constructor].
  destruct (Py.int _); [|repeat constructor].
  destruct (connect w _); [repeat constructor|].
  destruct (open_cursor w); cbn [fst app]; repeat constructor.
Qed.

Lemma try_bulk_events (str : json -> string) (w : World) :
  exists actions rest,
    fst (try_bulk str w) = Bulk actions BATCH_SIZE :: rest /\ Forall quiet rest.
Proof.
  unfold try_bulk. destruct (cursor_rows w) as [rows cstop].
  destruct (generate_actions str rows) as [actions stop]. exists actions.
  destruct stop as [e|]; [eexists; split; [reflexivity | constructor]|].
  destruct cstop as [e|]; [eexists; split; [reflexivity | constructor]|].
  destruct (bulk w actions) as [[success errors]|[e| |code|errors|name]];
    cbn [fst]; eexists; (split; [reflexivity|]); try constructor.
  - repeat split.
  - destruct errors; constructor; [repeat split | apply quiet_prints].
  - repeat split.
  - apply quiet_prints.
Qed.

Lemma filter_quiet (p : Event -> bool) (l : list Event) :
  (forall e, quiet e -> p e = false) -> Forall quiet l -> filter p l = [].
Proof.
  intros Hp H. apply filter_none. eapply Forall_impl; [|exact H]. exact Hp.
Qed.

End IngestRun.

(** X26: [ingest] closes what it has opened once the query has been
    sent, and only then.  If a step up to [cursor.execute] fails, the
    script ends with that failure: nothing is indexed and neither the
    cursor nor the connection is closed.  Otherwise [helpers.bulk] is
    called once and, whatever it returns or raises and whatever the rows
    are, the cursor is closed once afterwards, and the connection once
    unless closing the cursor fails.  A failure of a close is the
    failure of the script; when both succeed the script prints "Done."
    last and ends as the indexing did. *)
Theorem X26_ingest_closes_cursor_and_connection
        (str : json -> string) (env : IngestFromPostgres.Env)
        (w : IngestFromPostgres.World) (ev : list IngestFromPostgres.Event) :
  let events := fst (IngestFromPostgres.ingest str env w) in
  let stop := snd (IngestFromPostgres.ingest str env w) in
  (forall e, IngestFromPostgres.open_query env w = (ev, Some e) ->
     events = ev /\ stop = Some e /\
     filter is_bulk events = [] /\
     filter is_close_cursor events = [] /\ filter is_close_conn events = []) /\
  (IngestFromPostgres.open_query env w = (ev, None) ->
     List.length (filter is_bulk events) = 1%nat /\
     List.length (filter is_close_cursor events) = 1%nat /\
     List.length (filter is_close_conn events)
       = (match IngestFromPostgres.close_cursor w with Some _ => 0 | None => 1 end)%nat /\
     (forall e, IngestFromPostgres.close_cursor w = Some e -> stop = Some e) /\
     (forall e, IngestFromPostgres.close_cursor w = None ->
                IngestFromPostgres.close_conn w = Some e -> stop = Some e) /\
     (IngestFromPostgres.close_cursor w = None ->
      IngestFromPostgres.close_conn w = None ->
      stop = snd (IngestFromPostgres.try_bulk str w) /\
      last events IngestFromPostgres.CloseConn
        = IngestFromPostgres.Print (IngestFromPostgres.Text "Done."))).
Proof.
  cbv zeta. pose proof (IngestRun.open_query_events env w) as Hq.
  unfold IngestFromPostgres.ingest. split.
  - intros e He. rewrite He in *. cbn [fst snd] in *.
    split; [reflexivity|]. split; [reflexivity|].
    repeat split; apply filter_none; (eapply Forall_impl; [|exact Hq]);
      cbv beta; tauto.
  - intros He. rewrite He in *. cbn [fst] in Hq.
    destruct (IngestRun.try_bulk_events str w) as (actions & rest & Et & Hrest).
    destruct (IngestFromPostgres.try_bulk str w) as [ev_try stop_try].
    cbn [fst snd] in Et |- *. subst ev_try.
    assert (Fb : filter is_bulk ev = [])
      by (apply filter_none; (eapply Forall_impl; [|exact Hq]); cbv beta; tauto).
    assert (Fc : filter is_close_cursor ev = [])
      by (apply filter_none; (eapply Forall_impl; [|exact Hq]); cbv beta; tauto).
    assert (Fn : filter is_close_conn ev = [])
      by (apply filter_none; (eapply Forall_impl; [|exact Hq]); cbv beta; tauto).
    assert (Rb : filter is_bulk rest = []).
    { apply (IngestRun.filter_quiet is_bulk rest); [|exact Hrest].
      unfold quiet. tauto. }
    assert (Rc : filter is_close_cursor rest = []).
    { apply (IngestRun.filter_quiet is_close_cursor rest); [|exact Hrest].
      unfold quiet. tauto. }
    assert (Rn : filter is_close_conn rest = []).
    { apply (IngestRun.filter_quiet is_close_conn rest); [|exact Hrest].
      unfold quiet. tauto. }
    unfold IngestFromPostgres.finally_close.
    destruct (IngestFromPostgres.close_cursor w) as [e1|];
      [|destruct (IngestFromPostgres.close_conn w) as [e2|]];
      cbn [fst snd]; rewrite !filter_app; cbn [filter is_bulk is_close_cursor is_close_conn];
      rewrite ?filter_app, Fb, Fc, Fn, Rb, Rc, Rn; cbn [app List.length filter is_bulk
        is_close_cursor is_close_conn];
      repeat split; try reflexivity; try discriminate;
      try (intros ? [= ->]; reflexivity); try (intros ? ? [= ->]; reflexivity).
    change [IngestFromPostgres.CloseCursor; IngestFromPostgres.CloseConn;
            IngestFromPostgres.Print (IngestFromPostgres.Text "Done.")]
      with ([IngestFromPostgres.CloseCursor; IngestFromPostgres.CloseConn]
            ++ [IngestFromPostgres.Print (IngestFromPostgres.Text "Done.")]).
    rewrite app_comm_cons, !app_assoc. apply last_last.
Qed.

Lemma X26_ingest_closes_witness :
  let w := {| IngestFromPostgres.make_client := fun _ => None;
              IngestFromPostgres.connect := fun _ => None;
              IngestFromPostgres.open_cursor := None;
              IngestFromPostgres.execute := fun _ => None;
              IngestFromPostgres.cursor_rows := ([], None);
              IngestFromPostgres.bulk :=
                fun _ => inr (IngestFromPostgres.OtherError "ConnectionTimeout");
              IngestFromPostgres.close_cursor := None;
              IngestFromPostgres.close_conn := None |} in
  List.length (filter is_close_conn
                 (fst (IngestFromPostgres.ingest (fun _ => "") [("PG_DB", "shop")] w)))
  = 1%nat.
Proof.
  cbv zeta.
  eapply (X26_ingest_closes_cursor_and_connection (fun _ => "") [("PG_DB", "shop")]).
  reflexivity.
Defined.

Module IngestConnect.
Import IngestFromPostgres.

(** The connection that [open_query] asks for. *)
Lemma open_query_connect (env : Env) (w : World) (p : ConnParams) :
  In (Connect p) (fst (open_query env w)) ->
  environ_get env "PG_DB" = Some (pg_dbname p) /\ pg_dbname p <> "" /\
  Py.int (environ_get_or env "PG_PORT" "5432") = Some (pg_port p) /\
  pg_host p = environ_get_or env "PG_HOST" "localhost" /\
  pg_user p = environ_get_or env "PG_USER" "postgres" /\
  pg_password p = environ_get_or env "PG_PASSWORD" "".
Proof.
  unfold open_query, get_pg_connection.
  destruct (make_client w _); [cbn; intuition discriminate|].
  destruct (environ_get env "PG_DB") as [db|]; [|cbn; intuition discriminate].
  destruct (Py.truthy db) eqn:Hdb; [|cbn; intuition discriminate].
  destruct (Py.int _) as [port|]; [|cbn; intuition discriminate].
  apply truthy_nonempty in Hdb.
  assert (H : forall l, (forall q, In (Connect q) l -> False) ->
            In (Connect p)
               (MakeEsClient (get_es_client env)
                :: [Connect {| pg_host := environ_get_or env "PG_HOST" "localhost";
                               pg_port := port; pg_dbname := db;
                               pg_user := environ_get_or env "PG_USER" "postgres";
                               pg_password := environ_get_or env "PG_PASSWORD" "" |}]
                   ++ l) ->
            Some db = Some (pg_dbname p) /\ pg_dbname p <> "" /\
            Some port = Some (pg_port p) /\
            pg_host p = environ_get_or env "PG_HOST" "localhost" /\
            pg_user p = environ_get_or env "PG_USER" "postgres" /\
            pg_password p = environ_get_or env "PG_PASSWORD" "").
  { intros l Hl Hin. cbn [app In] in Hin.
    destruct Hin as [Hc|[Hc|Hc]]; [discriminate Hc| |destruct (Hl _ Hc)].
    injection Hc as <-. cbn. repeat split; auto. }
  destruct (connect w _).
  - intros Hin. apply (H []); [intros q []|exact Hin].
  - destruct (open_cursor w); cbn [fst]; intros Hin;
      (eapply H; [|exact Hin]); cbn [In]; intros q Hq; intuition discriminate.
Qed.

Lemma open_query_execute (env : Env) (w : World) (sql : string) :
  In (Execute sql) (fst (open_query env w)) ->
  sql = ("SELECT * FROM " ++ environ_get_or env "PG_TABLE" "products")%string.
Proof.
  unfold open_query, get_pg_connection.
  destruct (make_client w _); [cbn; intuition discriminate|].
  destruct (environ_get env "PG_DB") as [db|]; [|cbn; intuition discriminate].
  destruct (Py.truthy db); [|cbn; intuition discriminate].
  destruct (Py.int _) as [port|]; [|cbn; intuition discriminate].
  destruct (connect w _); [cbn; intuition discriminate|].
  destruct (open_cursor w); cbn [fst app In]; [intuition discriminate|].
  intros [H|[H|[H|[H|[H|[H|[]]]]]]]; try discriminate H. now injection H.
Qed.

(** After the query the script makes no connection and sends no
    statement. *)
Lemma after_query_quiet (str : json -> string) (w : World) (e : Event) :
  In e (fst (try_bulk str w) ++ fst (finally_close w)) ->
  is_connect e = false /\ is_execute e = false.
Proof.
  destruct (IngestRun.try_bulk_events str w) as (actions & rest & -> & Hrest).
  rewrite Forall_forall in Hrest. unfold finally_close.
  intros Hin. apply in_app_iff in Hin as [[<-|Hin]|Hin].
  - split; reflexivity.
  - destruct (Hrest _ Hin) as (_ & _ & _ & ? & ?). auto.
  - destruct (close_cursor w); [|destruct (close_conn w)]; cbn [fst In] in Hin;
      intuition (subst; reflexivity).
Qed.

Lemma ingest_events (str : json -> string) (env : Env) (w : World) (e : Event) :
  In e (fst (ingest str env w)) ->
  In e (fst (open_query env w)) \/ (is_connect e = false /\ is_execute e = false).
Proof.
  unfold ingest. destruct (open_query env w) as [ev [stop|]]; [now left|].
  pose proof (after_query_quiet str w e) as H.
  destruct (try_bulk str w) as [ev_try stop_try].
  destruct (finally_close w) as [ev_fin stop_fin]. cbn [fst] in *.
  intros Hin. apply in_app_iff in Hin as [Hin|Hin]; auto.
Qed.

End IngestConnect.

(** X27: [ingest] connects to PostgreSQL only with a database name:
    every connection it asks for has the non-empty value of [PG_DB] as
    database, the integer that [PG_PORT] (default "5432") reads as, and
    the host, user and password of the environment (defaults
    "localhost", "postgres" and the empty password).  Without [PG_DB],
    or with an empty one, the script prints the error and exits with
    status 1 before any connection; with a [PG_PORT] that is no integer
    it ends in [ValueError] without connecting.  The only statement it
    sends is "SELECT * FROM " followed by the value of [PG_TABLE]
    (default "products"), as it is. *)
Theorem X27_ingest_connects_only_with_database_and_port
        (str : json -> string) (env : IngestFromPostgres.Env)
        (w : IngestFromPostgres.World) :
  let events := fst (IngestFromPostgres.ingest str env w) in
  (forall p, In (IngestFromPostgres.Connect p) events ->
     IngestFromPostgres.environ_get env "PG_DB" = Some (IngestFromPostgres.pg_dbname p) /\
     IngestFromPostgres.pg_dbname p <> "" /\
     Py.int (IngestFromPostgres.environ_get_or env "PG_PORT" "5432")
       = Some (IngestFromPostgres.pg_port p) /\
     IngestFromPostgres.pg_host p = IngestFromPostgres.environ_get_or env "PG_HOST" "localhost" /\
     IngestFromPostgres.pg_user p = IngestFromPostgres.environ_get_or env "PG_USER" "postgres" /\
     IngestFromPostgres.pg_password p = IngestFromPostgres.environ_get_or env "PG_PASSWORD" "") /\
  (forall sql, In (IngestFromPostgres.Execute sql) events ->
     sql = ("SELECT * FROM "
            ++ IngestFromPostgres.environ_get_or env "PG_TABLE" "products")%string) /\
  (IngestFromPostgres.make_client w (IngestFromPostgres.get_es_client env) = None ->
   (IngestFromPostgres.environ_get env "PG_DB" = None
    \/ IngestFromPostgres.environ_get env "PG_DB" = Some "" ->
    IngestFromPostgres.ingest str env w =
      ([IngestFromPostgres.MakeEsClient (IngestFromPostgres.get_es_client env);
        IngestFromPostgres.Print
          (IngestFromPostgres.Text "Error: PG_DB environment variable is required")],
       Some (IngestFromPostgres.SystemExit 1))) /\
   (forall db, IngestFromPostgres.environ_get env "PG_DB" = Some db -> db <> "" ->
      Py.int (IngestFromPostgres.environ_get_or env "PG_PORT" "5432") = None ->
      IngestFromPostgres.ingest str env w =
        ([IngestFromPostgres.MakeEsClient (IngestFromPostgres.get_es_client env)],
         Some IngestFromPostgres.ValueError))).
Proof.
  cbv zeta. split; [|split].
  - intros p Hin. apply IngestConnect.ingest_events in Hin as [Hin|[Hc _]];
      [exact (IngestConnect.open_query_connect env w p Hin) | discriminate Hc].
  - intros sql Hin. apply IngestConnect.ingest_events in Hin as [Hin|[_ He]];
      [exact (IngestConnect.open_query_execute env w sql Hin) | discriminate He].
  - intros Hm. unfold IngestFromPostgres.ingest, IngestFromPostgres.open_query,
      IngestFromPostgres.get_pg_connection. rewrite Hm. split.
    + intros [-> | ->]; reflexivity.
    + intros db -> Hdb ->. apply truthy_nonempty in Hdb. now rewrite Hdb.
Qed.

Lemma X27_ingest_connects_witness :
  IngestFromPostgres.ingest (fun _ => "") [("PG_DB", "shop"); ("PG_PORT", "54x2")]
    {| IngestFromPostgres.make_client := fun _ => None;
       IngestFromPostgres.connect := fun _ => None;
       IngestFromPostgres.open_cursor := None;
       IngestFromPostgres.execute := fun _ => None;
       IngestFromPostgres.cursor_rows := ([], None);
       IngestFromPostgres.bulk := fun _ => inl (0, []);
       IngestFromPostgres.close_cursor := None;
       IngestFromPostgres.close_conn := None |}
  = ([IngestFromPostgres.MakeEsClient
        (IngestFromPostgres.BasicClient "https://localhost:9200" "elastic" "changeme" false)],
     Some IngestFromPostgres.ValueError).
Proof.
  destruct (X27_ingest_connects_only_with_database_and_port
              (fun _ => "") [("PG_DB", "shop"); ("PG_PORT", "54x2")]
              {| IngestFromPostgres.make_client := fun _ => None;
                 IngestFromPostgres.connect := fun _ => None;
                 IngestFromPostgres.open_cursor := None;
                 IngestFromPostgres.execute := fun _ => None;
                 IngestFromPostgres.cursor_rows := ([], None);
                 IngestFromPostgres.bulk := fun _ => inl (0, []);
                 IngestFromPostgres.close_cursor := None;
                 IngestFromPostgres.close_conn := None |}) as (_ & _ & H).
  destruct (H eq_refl) as (_ & H').
  apply (H' "shop"); [reflexivity | discriminate | reflexivity].
Defined.
